(** * agent-tools: retry wrappers, normalisers and tool boundaries

    A shallow embedding of the Python sources

      - [calendar/core.py], [calendar/tool.py]
      - [communication/core.py], [communication/tool.py]
      - [youtube/core.py], [youtube/utils.py], [youtube/tool.py]

    Python code that talks to the outside (the calendar provider, the
    messaging relay, SMTP, IMAP, the file system, the clock) is written in
    a state-and-exception monad over an abstract environment [E]; every
    remote call and every [time.sleep] is recorded as an [event].  Logging
    calls have no influence on results and are left out. *)

From Stdlib Require Import ZArith QArith List String Ascii Bool Lia.
From stdpp Require Import gmap strings list pretty.
From Equations Require Import Equations.
Import ListNotations.
Local Open Scope string_scope.
Local Open Scope list_scope.
Local Open Scope Z_scope.
Set Warnings "-register-all".

(** ** Python values and exceptions *)

(** Dynamically typed values (JSON payloads, [Dict[str, Any]] entries). *)
Inductive pyval : Type :=
| PNone
| PBool (b : bool)
| PInt (n : Z)
| PStr (s : string)
| PList (l : list pyval)
| PDict (l : list (string * pyval)).

(** Exceptions that are instances of [Exception], by the classes the
    sources distinguish in [except] clauses.  Every constructor carries
    the text that [str(e)] yields. *)
Inductive exn : Type :=
| HTTPError (response : option Z) (msg : string)
    (* requests.HTTPError; [response] is [e.response.status_code], [None]
       when [e.response] is None *)
| ConnectionError (msg : string)          (* requests.ConnectionError *)
| Timeout (msg : string)                  (* requests.Timeout *)
| RequestException (msg : string)         (* any other requests exception *)
| TimeoutError (msg : string)
    (* the built-in TimeoutError (socket.timeout), as the HTTP transport
       under the calendar client raises it *)
| HttpError (status : Z) (msg : string)   (* googleapiclient.errors.HttpError *)
| ValueError (msg : string)
| AttributeError (msg : string)
| TypeError (msg : string)
| KeyError (msg : string)
| IndexError (msg : string)
| JSONDecodeError (msg : string)
    (* requests.exceptions.JSONDecodeError: both a requests exception and
       a ValueError *)
| SMTPAuthenticationError (msg : string)
| IMAP4_error (msg : string)              (* imaplib.IMAP4.error *)
| YouTubeError (msg : string)
| YouTubeAPIError (msg : string)          (* subclass of YouTubeError *)
| OtherException (msg : string).

Definition str_exn (e : exn) : string :=
  match e with
  | HTTPError _ m | ConnectionError m | Timeout m | RequestException m
  | TimeoutError m
  | HttpError _ m | ValueError m | AttributeError m | TypeError m
  | KeyError m | IndexError m | JSONDecodeError m
  | SMTPAuthenticationError m | IMAP4_error m
  | YouTubeError m | YouTubeAPIError m | OtherException m => m
  end.

Inductive result (A : Type) : Type :=
| Return (v : A)
| Raise (e : exn).
Arguments Return {A} v.
Arguments Raise {A} e.

(** ** Calls that leave the process *)

Inductive calendar_call : Type :=
| GetService (read_only : bool)
| EventsList (calendarId : string) (maxResults : Z)
| EventsInsert (calendarId : string) (body : gmap string pyval)
| EventsGet (calendarId eventId : string)
| EventsPatch (calendarId eventId : string) (body : gmap string pyval)
| EventsDelete (calendarId eventId : string).

Inductive http_call : Type :=
| HttpGet (url : string) (params : list (string * string))
| HttpPost (url : string) (json : pyval).

(** A MIME message as [send_email] assembles it: the header fields in the
    order they were set, the text part, and the attachments that were
    embedded, each with its file name and content. *)
Record mime_message : Type := MimeMessage {
  headers : list (string * string);
  body_subtype : string;
  body_text : string;
  attached : list (string * string)
}.

Inductive smtp_call : Type :=
| SmtpSSL (host : string) (port : Z)      (* smtplib.SMTP_SSL(...) *)
| SmtpPlain (host : string) (port : Z)    (* smtplib.SMTP(...) *)
| SmtpStartTls
| SmtpLogin (username password : string)
| SmtpSendMessage (msg : mime_message) (from_addr : string)
                  (to_addrs : list string).

Inductive imap_call : Type :=
| ImapConnect (host : string) (port : Z)  (* imaplib.IMAP4_SSL(...) *)
| ImapLogin (username password : string)
| ImapSelect (mailbox : string)           (* readonly=True *)
| ImapSearch (criteria : string)
| ImapFetch (msg_id : string).            (* "(RFC822)" *)

Inductive event : Type :=
| EvSleep (seconds : Q)                   (* time.sleep(seconds) *)
| EvCalendar (c : calendar_call)
| EvHttp (c : http_call)
| EvSmtp (c : smtp_call)
| EvImap (c : imap_call).

(** ** The monad of effectful code *)

Definition M (E A : Type) : Type := E -> result A * E * list event.

Definition ret {E A} (v : A) : M E A := fun s => (Return v, s, []).
Definition raise {E A} (e : exn) : M E A := fun s => (Raise e, s, []).

Definition bind {E A B} (m : M E A) (k : A -> M E B) : M E B := fun s =>
  match m s with
  | (Return v, s1, t1) =>
      match k v s1 with (r, s2, t2) => (r, s2, t1 ++ t2) end
  | (Raise e, s1, t1) => (Raise e, s1, t1)
  end.

(** [try: m  except <all exceptions the handler accepts>]: the handler
    answers [None] for an exception none of its clauses matches. *)
Definition try_except {E A} (m : M E A) (handler : exn -> option (M E A))
  : M E A := fun s =>
  match m s with
  | (Return v, s1, t1) => (Return v, s1, t1)
  | (Raise e, s1, t1) =>
      match handler e with
      | Some h => match h s1 with (r, s2, t2) => (r, s2, t1 ++ t2) end
      | None => (Raise e, s1, t1)
      end
  end.

Definition lift_result {E A} (r : result A) : M E A := fun s => (r, s, []).

(** Sequencing of pure computations that may raise. *)
Definition and_then {A B} (r : result A) (k : A -> result B) : result B :=
  match r with
  | Return v => k v
  | Raise e => Raise e
  end.

Notation "'do' x <- m ; k" := (bind m (fun x => k))
  (at level 10, x name, m at level 100, k at level 200).
Notation "'do' ' p <- m ; k" := (bind m (fun x => match x with p => k end))
  (at level 10, p pattern, m at level 100, k at level 200).

Notation "'let!' x := r 'in' k" := (and_then r (fun x => k))
  (at level 10, x name, r at level 100, k at level 200).

(** ** Retry attempt state

    The counter of the wrapper, together with what the wrapper itself has
    done so far: how often it called the wrapped function and how long it
    slept.  [events] collects the events of the wrapped function and the
    sleeps of the wrapper in order. *)
Record attempt (E : Type) : Type := Attempt {
  retries : Z;
  invocations : nat;
  slept : list Q;
  env : E;
  events : list event
}.
Arguments Attempt {E}.
Arguments retries {E}.
Arguments invocations {E}.
Arguments slept {E}.
Arguments env {E}.
Arguments events {E}.

(** A value together with the equation that names it, for the loops below. *)
Definition inspect {A} (a : A) : {b : A | a = b} := exist _ a eq_refl.

Definition started {E} (s : E) : attempt E :=
  Attempt 0 0%nat [] s [].

(** The wrapped function has been called once more. *)
Definition called {E} (a : attempt E) (s : E) (t : list event) : attempt E :=
  Attempt (retries a) (S (invocations a)) (slept a) s (events a ++ t).

(** [retries += 1]. *)
Definition bump {E} (a : attempt E) : attempt E :=
  Attempt (retries a + 1) (invocations a) (slept a) (env a) (events a).

Inductive iteration (A : Type) : Type :=
| Done (r : result A)      (* the [while True] loop is left *)
| Again.                   (* the loop goes round once more *)
Arguments Done {A} r.
Arguments Again {A}.

(** [time.sleep(seconds)], for a duration that is not negative. *)
Definition asleep {E} (seconds : Q) (a : attempt E) : attempt E :=
  Attempt (retries a) (invocations a) (slept a ++ [seconds]) (env a)
          (events a ++ [EvSleep seconds]).

(** [time.sleep(seconds)] inside the retry loop: it raises [ValueError]
    for a negative duration, and the loop is left with that exception. *)
Definition time_sleep {E A} (seconds : Q) (a : attempt E)
  : iteration A * attempt E :=
  if Qle_bool 0 seconds then (Again, asleep seconds a)
  else (Done (Raise (ValueError "sleep length must be non-negative")), a).

(** A wrapped function that replays a list of outcomes, one per call. *)
Definition replay {A} (otherwise : A) : M (list (result A)) A := fun s =>
  match s with
  | [] => (Return otherwise, [], [])
  | r :: s' => (r, s', [])
  end.

(** ** Python strings

    A string is the sequence of its characters, a character outside the
    7-bit range being there as its UTF-8 bytes (as in the French texts of
    the tools).  The tests on characters below are those of Python on
    7-bit characters: [str.isdigit] holds of ['0'..'9'], and [str.strip]
    removes the characters for which [str.isspace] holds.  Phone numbers
    and URLs are taken to be 7-bit text. *)

Module Str.
(** The line feed character. *)
Definition nl : string := String (ascii_of_nat 10) EmptyString.

(** [c.isdigit()] for a 7-bit character [c].  (Python's test also holds
    of digits outside the 7-bit range, such as superscript or
    Arabic-Indic ones; what is proved about [isdigit] below is proved for
    strings that satisfy [isascii].) *)
Definition isdigit (c : ascii) : bool :=
  let n := nat_of_ascii c in (48 <=? n)%nat && (n <=? 57)%nat.

(** [s.isascii()]: every character is in the 7-bit range. *)
Fixpoint isascii (s : string) : bool :=
  match s with
  | String c s' => (nat_of_ascii c <? 128)%nat && isascii s'
  | EmptyString => true
  end.

Definition isspace (c : ascii) : bool :=
  let n := nat_of_ascii c in
  ((9 <=? n)%nat && (n <=? 13)%nat) || ((28 <=? n)%nat && (n <=? 32)%nat).

Fixpoint lstrip (s : string) : string :=
  match s with
  | String c s' => if isspace c then lstrip s' else s
  | EmptyString => EmptyString
  end.

Fixpoint rstrip (s : string) : string :=
  match s with
  | String c s' =>
      match rstrip s' with
      | EmptyString => if isspace c then EmptyString else String c EmptyString
      | r => String c r
      end
  | EmptyString => EmptyString
  end.

Definition strip (s : string) : string := rstrip (lstrip s).

(** [s.replace(ch, "")] for a one-character [ch]. *)
Fixpoint remove_char (ch : ascii) (s : string) : string :=
  match s with
  | String c s' =>
      if Ascii.eqb c ch then remove_char ch s' else String c (remove_char ch s')
  | EmptyString => EmptyString
  end.

(** [s.replace(ch, by)] for a one-character [ch]. *)
Fixpoint replace_char (ch : ascii) (by_ : string) (s : string) : string :=
  match s with
  | String c s' =>
      if Ascii.eqb c ch then by_ +:+ replace_char ch by_ s'
      else String c (replace_char ch by_ s')
  | EmptyString => EmptyString
  end.

(** [ch in s] for a one-character [ch]. *)
Fixpoint contains_char (ch : ascii) (s : string) : bool :=
  match s with
  | String c s' => Ascii.eqb c ch || contains_char ch s'
  | EmptyString => false
  end.

(** [sub in s]. *)
Fixpoint contains (sub s : string) : bool :=
  String.prefix sub s ||
  match s with
  | String _ s' => contains sub s'
  | EmptyString => false
  end.

Definition startswith (s p : string) : bool := String.prefix p s.

(** [s[n:]]. *)
Fixpoint drop (n : nat) (s : string) : string :=
  match n, s with
  | S n', String _ s' => drop n' s'
  | _, _ => s
  end.

(** [s[:n]]. *)
Fixpoint take (n : nat) (s : string) : string :=
  match n, s with
  | S n', String c s' => String c (take n' s')
  | _, _ => EmptyString
  end.

(** [''.join(ch for ch in s if keep(ch))]. *)
Fixpoint filter (keep : ascii -> bool) (s : string) : string :=
  match s with
  | String c s' => if keep c then String c (filter keep s') else filter keep s'
  | EmptyString => EmptyString
  end.

Definition lower_char (c : ascii) : ascii :=
  let n := nat_of_ascii c in
  if (65 <=? n)%nat && (n <=? 90)%nat then ascii_of_nat (n + 32) else c.

Fixpoint lower (s : string) : string :=
  match s with
  | String c s' => String (lower_char c) (lower s')
  | EmptyString => EmptyString
  end.

(** [s.split(sep)] for a non-empty [sep]: cut at the occurrences of
    [sep], found from the left and not overlapping.  [skip] counts the
    characters of a separator still to pass over and [cur] is the piece
    read so far. *)
Fixpoint split_from (sep : string) (skip : nat) (cur : string) (s : string)
  : list string :=
  match s with
  | EmptyString => [cur]
  | String c s' =>
      match skip with
      | S n => split_from sep n cur s'
      | O =>
          if String.prefix sep s
          then cur :: split_from sep (String.length sep - 1) EmptyString s'
          else split_from sep O (cur +:+ String c EmptyString) s'
      end
  end.

Definition split (sep s : string) : list string :=
  split_from sep O EmptyString s.

(** [sep.join(l)]. *)
Fixpoint join (sep : string) (l : list string) : string :=
  match l with
  | [] => EmptyString
  | [x] => x
  | x :: l' => x +:+ sep +:+ join sep l'
  end.

(** [s.count(ch)] for a one-character [ch]. *)
Fixpoint count_char (ch : ascii) (s : string) : nat :=
  match s with
  | String c s' => (if Ascii.eqb c ch then 1 else 0) + count_char ch s'
  | EmptyString => 0
  end.

Definition nonempty (s : string) : bool :=
  match s with EmptyString => false | _ => true end.
End Str.

(** ** Helpers on Python values *)

Module Py.
(** Truth value of a Python object. *)
Definition truthy (v : pyval) : bool :=
  match v with
  | PNone => false
  | PBool b => b
  | PInt n => negb (n =? 0)
  | PStr s => Str.nonempty s
  | PList l => match l with [] => false | _ => true end
  | PDict l => match l with [] => false | _ => true end
  end.

Fixpoint assoc {V} (k : string) (l : list (string * V)) : option V :=
  match l with
  | [] => None
  | (k', v) :: l' => if String.eqb k' k then Some v else assoc k l'
  end.

(** [d.get(k, default)]. *)
Definition get (d : pyval) (k : string) (default : pyval) : result pyval :=
  match d with
  | PDict l => Return (match assoc k l with Some v => v | None => default end)
  | _ => Raise (AttributeError "object has no attribute 'get'")
  end.

(** [d[k]] for a string key. *)
Definition getitem (d : pyval) (k : string) : result pyval :=
  match d with
  | PDict l =>
      match assoc k l with
      | Some v => Return v
      | None => Raise (KeyError k)
      end
  | _ => Raise (TypeError "indices must be integers or object is not subscriptable")
  end.

(** [l[0]]. *)
Definition first (v : pyval) : result pyval :=
  match v with
  | PList (x :: _) => Return x
  | PList [] => Raise (IndexError "list index out of range")
  | PStr s =>
      match s with
      | String c _ => Return (PStr (String c EmptyString))
      | EmptyString => Raise (IndexError "string index out of range")
      end
  | PDict _ => Raise (KeyError "0")
  | _ => Raise (TypeError "object is not subscriptable")
  end.

(** [k in v] for a string [k]. *)
Definition contains (k : string) (v : pyval) : result bool :=
  match v with
  | PDict l => Return (match assoc k l with Some _ => true | None => false end)
  | PList l =>
      Return (existsb (fun x => match x with
                                | PStr s => String.eqb s k
                                | _ => false
                                end) l)
  | PStr s => Return (Str.contains k s)
  | _ => Raise (TypeError "argument is not iterable")
  end.

Fixpoint chars (s : string) : list pyval :=
  match s with
  | String c s' => PStr (String c EmptyString) :: chars s'
  | EmptyString => []
  end.

(** The items a [for] loop over [v] visits. *)
Definition iter (v : pyval) : result (list pyval) :=
  match v with
  | PList l => Return l
  | PStr s => Return (chars s)
  | PDict l => Return (map (fun kv => PStr (fst kv)) l)
  | _ => Raise (TypeError "object is not iterable")
  end.

(** [len(v)]. *)
Definition len (v : pyval) : result Z :=
  match v with
  | PList l => Return (Z.of_nat (length l))
  | PStr s => Return (Z.of_nat (String.length s))
  | PDict l => Return (Z.of_nat (length l))
  | _ => Raise (TypeError "object has no len()")
  end.

(** [l[:n]] on a list, for any integer [n]. *)
Definition slice_to {X} (n : Z) (l : list X) : list X :=
  if 0 <=? n then take (Z.to_nat n) l
  else take (length l - Z.to_nat (- n)) l.

(** [x or y] on optional strings. *)
Definition or_str (x : option string) (y : string) : string :=
  match x with
  | Some s => if Str.nonempty s then s else y
  | None => y
  end.

(** An optional list, read where an empty list and [None] count alike. *)
Definition or_nil {X} (l : option (list X)) : list X :=
  match l with Some l => l | None => [] end.
End Py.

(** ** Library functions taken as given

    Pure functions of the Python standard library that the sources call
    and whose text is not part of this repository. *)
Class PyLib : Type := {
  py_str : pyval -> string;                    (* str(v), f-string rendering *)
  formataddr : string -> string -> result string;
    (* email.utils.formataddr((name, address)); it raises
       UnicodeEncodeError, a ValueError, for an address that is not
       7-bit text *)
  MIMEText : string -> string -> result unit;
    (* MIMEText(text, subtype): whether the text part can be built; it
       raises UnicodeEncodeError for a text that cannot be encoded *)
  fromisoformat_strftime : string -> string -> result string;
    (* datetime.fromisoformat(s).strftime(format) *)
  decode_header : string -> result string;
    (* email.header.decode_header and the join of the decoded pieces *)
  parsedate_to_utc : string -> option string;
    (* email.utils.parsedate_to_datetime, astimezone(utc), isoformat;
       [None] when that raises or yields nothing *)
  get_filename : list (string * string) -> option string
    (* Message.get_filename(), from the header fields of the part *)
}.

(** ** The outside world

    What the provider, the relay, the mail servers and the file system
    answer depends on an environment [E] that every call may change. *)

Inductive file_state : Type :=
| Absent                                (* os.path.exists is False *)
| Unreadable (e : exn)                  (* open/read raises [e] *)
| Readable (content : string).

Record http_response : Type := HttpResponse {
  status_code : Z;
  reason : string;                      (* the reason phrase, as text *)
  url : string;                         (* the URL the answer came from *)
  json : option pyval                   (* [None]: the body is not JSON *)
}.

(** A parsed e-mail ([email.message.Message]): its header fields in order
    and its payload, either a list of sub-messages or a leaf.  For a leaf,
    [decoded] is the text that
    [get_payload(decode=True).decode(charset, 'replace')] yields, [None]
    when that raises. *)
Inductive Message : Type :=
| Msg (hdrs : list (string * string)) (payload : payload)
with payload : Type :=
| Parts (l : list Message)
| Leaf (decoded : option string).

Class Environment (E : Type) : Type := {
  calendar_api : calendar_call -> E -> result pyval * E;
  requests_api : http_call -> E -> result http_response * E;
  smtp_api : smtp_call -> E -> result unit * E;
  imap_connect : string -> Z -> E -> result unit * E;
  imap_login : string -> string -> E -> result unit * E;
  imap_select : string -> E -> result string * E;
  imap_search : string -> E -> result (string * list string) * E;
  imap_fetch : string -> E -> result (string * option Message) * E;
  file_at : string -> E -> file_state
}.

Section Effects.
Context {E : Type} `{Environment E}.

Definition perform {R} (ev : event) (call : E -> result R * E) : M E R :=
  fun s => match call s with (r, s') => (r, s', [ev]) end.

Definition calendar (c : calendar_call) : M E pyval :=
  perform (EvCalendar c) (calendar_api c).
Definition requests (c : http_call) : M E http_response :=
  perform (EvHttp c) (requests_api c).
Definition smtp (c : smtp_call) : M E unit :=
  perform (EvSmtp c) (smtp_api c).
Definition read_file (path : string) : M E file_state :=
  fun s => (Return (file_at path s), s, []).
End Effects.

(** Process-wide configuration ([app.utils.settings]). *)
Record settings : Type := Settings {
  calendar_calendar_id : string;
  calendar_timezone : string;
  whatsapp_account_id : string;
  whatsapp_unipile_dsn : string;
  api_keys_unipile : string;
  api_keys_rapid_api : string;
  email_username : string;
  email_password : string;
  email_smtp_host : string;
  email_smtp_port : Z;
  email_imap_host : string;
  email_imap_port : Z;
  email_sender_name : option string;
  email_use_tls : bool
}.

(** ** calendar/core.py: [with_retry] *)

Module CalendarCore.
Section with_retry.
Context {E A : Type}.
Variable max_retries : Z.
Variable delay : Q.
Variable func : M E A.

(** One round of the [while True] loop of [wrapper]. *)
Definition wrapper_round (a : attempt E) : iteration A * attempt E :=
  match func (env a) with
  | (Return v, s, t) => (Done (Return v), called a s t)
  | (Raise e, s, t) =>
      let a := called a s t in
      match e with
      | HttpError status_code _ =>
          if bool_decide (status_code ∈ [400; 401; 403; 404])
          then (Done (Raise e), a)
          else
            let a := bump a in
            if retries a >? max_retries then (Done (Raise e), a)
            else time_sleep (delay * inject_Z (2 ^ (retries a - 1))) a
      | _ =>
          let a := bump a in
          if retries a >? max_retries then (Done (Raise e), a)
          else time_sleep delay a
      end
  end.

(** The [while True] loop. *)
Equations? wrapper_loop (a : attempt E) : result A * attempt E
  by wf (Z.to_nat (max_retries + 1 - retries a)) lt :=
  wrapper_loop a with inspect (wrapper_round a) => {
    | exist _ (Done r, a') _ := (r, a');
    | exist _ (Again, a') Hround := wrapper_loop a'
  }.
Proof.
  revert Hround. unfold wrapper_round.
  destruct (func (env a)) as [[[v|e] s] t]; [discriminate|].
  destruct e;
    unfold time_sleep;
    repeat match goal with
           | |- context [bool_decide ?P] => destruct (bool_decide P)
           | |- context [?x >? ?y] => destruct (Z.gtb_spec x y)
           | |- context [Qle_bool ?x ?y] => destruct (Qle_bool x y)
           end;
    intros Heq; inversion Heq; subst; simpl in *; lia.
Qed.

Definition wrapper_run (s : E) : result A * attempt E :=
  wrapper_loop (started s).

(** The decorated function. *)
Definition with_retry : M E A := fun s =>
  match wrapper_run s with (r, a) => (r, env a, events a) end.
End with_retry.

Section core.
Context {E : Type} `{Environment E}.
Variable cfg : settings.

(** [get_calendar_service]: builds the client from the stored
    credentials; whatever fails in there is logged and raised again. *)
Definition get_calendar_service (read_only : bool) : M E pyval :=
  try_except (calendar (GetService read_only)) (fun e => Some (raise e)).

Definition core_list_events_func (count : Z) (calendar_id : option string)
  : M E pyval :=
  let effective_calendar_id :=
    Py.or_str calendar_id (calendar_calendar_id cfg) in
  do service <- get_calendar_service true;
  do events_result <- calendar (EventsList effective_calendar_id count);
  lift_result (Py.get events_result "items" (PList [])).

Definition core_list_events (count : Z) (calendar_id : option string)
  : M E pyval :=
  with_retry 3 1 (core_list_events_func count calendar_id).

(** [[{'email': email} for email in attendees]]. *)
Definition attendee_records (attendees : pyval) : result pyval :=
  match Py.iter attendees with
  | Return l => Return (PList (map (fun email => PDict [("email", email)]) l))
  | Raise e => Raise e
  end.

Definition timed (dateTime : pyval) : pyval :=
  PDict [("dateTime", dateTime); ("timeZone", PStr (calendar_timezone cfg))].

Definition core_create_event_func
    (summary start_time end_time : string) (description location : option string)
    (attendees : option (list string)) (calendar_id : option string)
  : M E pyval :=
  let effective_calendar_id :=
    Py.or_str calendar_id (calendar_calendar_id cfg) in
  do service <- get_calendar_service false;
  let opt := fun o : option string =>
    match o with Some s => PStr s | None => PNone end in
  let event_body : gmap string pyval :=
    <["attendees" :=
        PList (map (fun email => PDict [("email", PStr email)])
                   (Py.or_nil attendees))]>
    (<["end" := timed (PStr end_time)]>
    (<["start" := timed (PStr start_time)]>
    (<["description" := opt description]>
    (<["location" := opt location]>
    (<["summary" := PStr summary]> ∅))))) in
  calendar (EventsInsert effective_calendar_id event_body).

Definition core_create_event
    (summary start_time end_time : string) (description location : option string)
    (attendees : option (list string)) (calendar_id : option string)
  : M E pyval :=
  with_retry 3 1
    (core_create_event_func summary start_time end_time description
                            location attendees calendar_id).

(** The sparse patch that [core_update_event] assembles from [updates]
    (the statements between the fetch and the emptiness test). *)
Definition update_event_body (updates : gmap string pyval)
  : result (gmap string pyval) :=
  let event_body : gmap string pyval := ∅ in
  let event_body :=
    match updates !! "summary" with
    | Some v => <["summary" := v]> event_body
    | None => event_body
    end in
  let event_body :=
    match updates !! "description" with
    | Some v => <["description" := v]> event_body
    | None => event_body
    end in
  let event_body :=
    match updates !! "location" with
    | Some v => <["location" := v]> event_body
    | None => event_body
    end in
  let event_body :=
    match updates !! "start_time" with
    | Some v => <["start" := timed v]> event_body
    | None => event_body
    end in
  let event_body :=
    match updates !! "end_time" with
    | Some v => <["end" := timed v]> event_body
    | None => event_body
    end in
  match updates !! "attendees" with
  | Some PNone | None => Return event_body
  | Some attendees =>
      match attendee_records attendees with
      | Return l => Return (<["attendees" := l]> event_body)
      | Raise e => Raise e
      end
  end.

Definition core_update_event_func
    (event_id : string) (calendar_id : option string)
    (updates : gmap string pyval) : M E pyval :=
  let effective_calendar_id :=
    Py.or_str calendar_id (calendar_calendar_id cfg) in
  do service <- get_calendar_service false;
  do existing_event <-
    try_except (calendar (EventsGet effective_calendar_id event_id))
      (fun e =>
         match e with
         | HttpError status _ =>
             if status =? 404
             then Some (raise (ValueError
                          ("Événement " +:+ event_id +:+ " non trouvé.")))
             else Some (raise e)
         | _ => None
         end);
  do event_body <- lift_result (update_event_body updates);
  if bool_decide (size event_body = 0%nat) then ret existing_event
  else
    do updated_event <-
      calendar (EventsPatch effective_calendar_id event_id event_body);
    ret updated_event.

Definition core_update_event
    (event_id : string) (calendar_id : option string)
    (updates : gmap string pyval) : M E pyval :=
  with_retry 3 1 (core_update_event_func event_id calendar_id updates).

Definition core_delete_event_func
    (event_id : string) (calendar_id : option string) : M E bool :=
  let effective_calendar_id :=
    Py.or_str calendar_id (calendar_calendar_id cfg) in
  do service <- get_calendar_service false;
  try_except
    (do _ <- calendar (EventsDelete effective_calendar_id event_id);
     ret true)
    (fun e =>
       match e with
       | HttpError status _ =>
           if status =? 404 then Some (ret false) else Some (raise e)
       | _ => Some (raise e)
       end).

Definition core_delete_event
    (event_id : string) (calendar_id : option string) : M E bool :=
  with_retry 3 1 (core_delete_event_func event_id calendar_id).
End core.
End CalendarCore.

(** ** calendar/tool.py *)

Module CalendarTool.
Section tools.
Context {E : Type} `{Environment E} `{PyLib}.
Variable cfg : settings.

(** [_format_datetime(v)] for whatever the provider put there. *)
Definition _format_datetime (v : pyval) : result string :=
  match v with
  | PStr dt_str =>
      if Str.contains_char "T" dt_str
      then fromisoformat_strftime (Str.replace_char "Z" "+00:00" dt_str)
                                  "%d/%m/%Y %H:%M %Z"
      else fromisoformat_strftime dt_str "%d/%m/%Y"
  | PList _ | PDict _ =>
      let! has_T := Py.contains "T" v in
      if has_T then Raise (AttributeError "object has no attribute 'replace'")
      else Raise (TypeError "fromisoformat: argument must be str")
  | _ => Raise (TypeError "argument is not iterable")
  end.

(** [v[:50]]. *)
Definition first_50 (v : pyval) : result pyval :=
  match v with
  | PStr s => Return (PStr (Str.take 50 s))
  | PList l => Return (PList (take 50 l))
  | _ => Raise (TypeError "object is not subscriptable")
  end.

(** One round of the [for event in events] loop: the text added to
    [output]. *)
Definition event_lines (event : pyval) : result string :=
  let! start0 := Py.get event "start" (PDict []) in
  let! start1 := Py.get event "start" (PDict []) in
  let! start_date := Py.get start1 "date" PNone in
  let! start := Py.get start0 "dateTime" start_date in
  let! end0 := Py.get event "end" (PDict []) in
  let! end1 := Py.get event "end" (PDict []) in
  let! end_date := Py.get end1 "date" PNone in
  let! end_ := Py.get end0 "dateTime" end_date in
  let! summary := Py.get event "summary" (PStr "Sans titre") in
  let output := "  - " +:+ py_str summary +:+ Str.nl in
  let! output :=
    if Py.truthy start
    then let! d := _format_datetime start in
         Return (output +:+ "    Début: " +:+ d +:+ Str.nl)
    else Return output in
  let! output :=
    if Py.truthy end_
    then let! d := _format_datetime end_ in
         Return (output +:+ "    Fin:   " +:+ d +:+ Str.nl)
    else Return output in
  let! location := Py.get event "location" PNone in
  let output :=
    if Py.truthy location
    then output +:+ "    Lieu:  " +:+ py_str location +:+ Str.nl
    else output in
  let! description := Py.get event "description" PNone in
  let! output :=
    if Py.truthy description
    then let! d := first_50 description in
         Return (output +:+ "    Desc:  " +:+ py_str d +:+ "..." +:+ Str.nl)
    else Return output in
  let! id := Py.get event "id" PNone in
  Return (output +:+ "    ID:    " +:+ py_str id +:+ Str.nl +:+ Str.nl).

Fixpoint events_lines (events : list pyval) (output : string)
  : result string :=
  match events with
  | [] => Return output
  | event :: events' =>
      let! lines := event_lines event in
      events_lines events' (output +:+ lines)
  end.

(** The [try] block of [lister_evenements_calendrier]. *)
Definition lister_evenements_calendrier_try
    (count : Z) (calendar_id : option string) : M E string :=
  do events <- CalendarCore.core_list_events cfg count calendar_id;
  if negb (Py.truthy events) then ret "Aucun événement à venir trouvé."
  else
    do n <- lift_result (Py.len events);
    let output := "Prochains événements (" +:+ pretty n +:+ "):" +:+ Str.nl in
    do l <- lift_result (Py.iter events);
    do output <- lift_result (events_lines l output);
    ret (Str.strip output).

(** Its [except Exception as e] clause. *)
Definition lister_evenements_calendrier_except (e : exn) : string :=
  "Erreur lors de la récupération des événements: " +:+ str_exn e.

Definition lister_evenements_calendrier
    (count : Z) (calendar_id : option string) : M E string :=
  try_except (lister_evenements_calendrier_try count calendar_id)
             (fun e => Some (ret (lister_evenements_calendrier_except e))).

Definition creer_evenement_calendrier_try
    (summary start_time end_time : string) (description location : option string)
    (attendees : option (list string)) (calendar_id : option string)
  : M E string :=
  do created_event <-
    CalendarCore.core_create_event cfg summary start_time end_time
      description location attendees calendar_id;
  do s <- lift_result (Py.get created_event "summary" PNone);
  do i <- lift_result (Py.get created_event "id" PNone);
  ret ("Événement '" +:+ py_str s +:+ "' créé avec succès. ID: "
       +:+ py_str i).

Definition creer_evenement_calendrier_except (e : exn) : string :=
  "Erreur lors de la création de l'événement: " +:+ str_exn e.

Definition creer_evenement_calendrier
    (summary start_time end_time : string) (description location : option string)
    (attendees : option (list string)) (calendar_id : option string)
  : M E string :=
  try_except
    (creer_evenement_calendrier_try summary start_time end_time description
                                    location attendees calendar_id)
    (fun e => Some (ret (creer_evenement_calendrier_except e))).

(** [{k: v for k, v in {...}.items() if v is not None}]. *)
Definition given_updates
    (summary start_time end_time description location : option string)
    (attendees : option (list string)) : gmap string pyval :=
  let put := fun (k : string) (v : option pyval) (m : gmap string pyval) =>
    match v with Some v => <[k := v]> m | None => m end in
  put "attendees" ((fun l => PList (map PStr l)) <$> attendees)
  (put "location" (PStr <$> location)
  (put "description" (PStr <$> description)
  (put "end_time" (PStr <$> end_time)
  (put "start_time" (PStr <$> start_time)
  (put "summary" (PStr <$> summary) ∅))))).

Definition mettre_a_jour_evenement_calendrier_try
    (event_id : string) (calendar_id : option string)
    (updates : gmap string pyval) : M E string :=
  do updated_event <-
    CalendarCore.core_update_event cfg event_id calendar_id updates;
  do s <- lift_result (Py.get updated_event "summary" PNone);
  ret ("Événement '" +:+ py_str s +:+ "' (ID: " +:+ event_id
       +:+ ") mis à jour avec succès.").

(** [except ValueError as ve: return str(ve)], then
    [except Exception as e]. *)
Definition mettre_a_jour_evenement_calendrier_except
    (event_id : string) (e : exn) : string :=
  match e with
  | ValueError _ | JSONDecodeError _ => str_exn e
  | _ => "Erreur lors de la mise à jour de l'événement " +:+ event_id
         +:+ ": " +:+ str_exn e
  end.

Definition mettre_a_jour_evenement_calendrier
    (event_id : string) (calendar_id : option string)
    (summary start_time end_time description location : option string)
    (attendees : option (list string)) : M E string :=
  let updates :=
    given_updates summary start_time end_time description location
                  attendees in
  if bool_decide (size updates = 0%nat)
  then ret "Aucune information de mise à jour fournie."
  else
    try_except
      (mettre_a_jour_evenement_calendrier_try event_id calendar_id updates)
      (fun e =>
         Some (ret (mettre_a_jour_evenement_calendrier_except event_id e))).

Definition supprimer_evenement_calendrier_try
    (event_id : string) (calendar_id : option string) : M E string :=
  do success <- CalendarCore.core_delete_event cfg event_id calendar_id;
  if success : bool
  then ret ("Événement " +:+ event_id +:+ " supprimé avec succès.")
  else ret ("Événement " +:+ event_id +:+ " non trouvé ou déjà supprimé.").

Definition supprimer_evenement_calendrier_except
    (event_id : string) (e : exn) : string :=
  "Erreur lors de la suppression de l'événement " +:+ event_id
  +:+ ": " +:+ str_exn e.

Definition supprimer_evenement_calendrier
    (event_id : string) (calendar_id : option string) : M E string :=
  try_except (supprimer_evenement_calendrier_try event_id calendar_id)
             (fun e =>
                Some (ret (supprimer_evenement_calendrier_except event_id e))).
End tools.
End CalendarTool.

(** ** communication/core.py: [with_retry] *)

Module CommunicationCore.
Section with_retry.
Context {E A : Type}.
Variable max_retries : Z.
Variable delay : Q.
Variable func : M E A.

(** One round of the [while True] loop of [wrapper]. *)
Definition wrapper_round (a : attempt E) : iteration A * attempt E :=
  match func (env a) with
  | (Return v, s, t) => (Done (Return v), called a s t)
  | (Raise e, s, t) =>
      let a := called a s t in
      match e with
      | HTTPError response _ =>
          match response with
          | None =>
              (Done (Raise (AttributeError
                "'NoneType' object has no attribute 'status_code'")), a)
          | Some status_code =>
              if bool_decide (status_code ∈ [400; 401; 403; 422])
              then (Done (Raise e), a)
              else
                let a := bump a in
                if retries a >? max_retries then (Done (Raise e), a)
                else time_sleep (delay * inject_Z (2 ^ (retries a - 1))) a
          end
      | ConnectionError _ | Timeout _ =>
          let a := bump a in
          if retries a >? max_retries then (Done (Raise e), a)
          else time_sleep (delay * inject_Z (2 ^ (retries a - 1))) a
      | _ =>
          let a := bump a in
          if retries a >? max_retries then (Done (Raise e), a)
          else time_sleep delay a
      end
  end.

(** The [while True] loop; it ends because [retries] grows by one on
    every round that does not leave it, and no round starts again once
    [retries] has passed [max_retries]. *)
Equations? wrapper_loop (a : attempt E) : result A * attempt E
  by wf (Z.to_nat (max_retries + 1 - retries a)) lt :=
  wrapper_loop a with inspect (wrapper_round a) => {
    | exist _ (Done r, a') _ := (r, a');
    | exist _ (Again, a') Hround := wrapper_loop a'
  }.
Proof.
  revert Hround. unfold wrapper_round.
  destruct (func (env a)) as [[[v|e] s] t]; [discriminate|].
  destruct e;
    try match goal with
        | |- context [match ?response with Some _ => _ | None => _ end] =>
            destruct response
        end;
    try discriminate;
    unfold time_sleep;
    repeat match goal with
           | |- context [bool_decide ?P] => destruct (bool_decide P)
           | |- context [?x >? ?y] => destruct (Z.gtb_spec x y)
           | |- context [Qle_bool ?x ?y] => destruct (Qle_bool x y)
           end;
    intros Heq; inversion Heq; subst; simpl in *; lia.
Qed.

Definition wrapper_run (s : E) : result A * attempt E :=
  wrapper_loop (started s).

(** The decorated function. *)
Definition with_retry : M E A := fun s =>
  match wrapper_run s with (r, a) => (r, env a, events a) end.
End with_retry.

(** *** WhatsApp *)

Section whatsapp.
Context {E : Type} `{Environment E}.
Variable cfg : settings.

Record UniPileWhatsAppClient : Type := {
  base_url : string;
  api_key : string       (* sent as the X-API-KEY header *)
}.

(** [resp.raise_for_status()]: the message names the class of the
    error, the reason phrase and the URL of the response. *)
Definition raise_for_status (resp : http_response) : result unit :=
  if (400 <=? status_code resp) && (status_code resp <? 500)
  then Raise (HTTPError (Some (status_code resp))
                (pretty (status_code resp) +:+ " Client Error: "
                 +:+ reason resp +:+ " for url: " +:+ url resp))
  else if (500 <=? status_code resp) && (status_code resp <? 600)
  then Raise (HTTPError (Some (status_code resp))
                (pretty (status_code resp) +:+ " Server Error: "
                 +:+ reason resp +:+ " for url: " +:+ url resp))
  else Return tt.

(** [resp.json()]. *)
Definition json_of (resp : http_response) : result pyval :=
  match json resp with
  | Some v => Return v
  | None => Raise (JSONDecodeError "Expecting value")
  end.

Definition get_contact_id_func (self : UniPileWhatsAppClient) (phone : string)
  : M E pyval :=
  let url := base_url self +:+ "/contacts" in
  let params :=
    [("account_id", whatsapp_account_id cfg); ("msisdn", phone)] in
  try_except
    (do resp <- requests (HttpGet url params);
     do _ <- lift_result (raise_for_status resp);
     do body <- lift_result (json_of resp);
     do data <- lift_result (Py.get body "data" (PList []));
     if negb (Py.truthy data) then ret (PStr (phone +:+ "@c.us"))
     else
       do entry <- lift_result (Py.first data);
       do contact_id <- lift_result (Py.getitem entry "id");
       ret contact_id)
    (fun e => Some (ret (PStr (phone +:+ "@c.us")))).

Definition get_contact_id (self : UniPileWhatsAppClient) (phone : string)
  : M E pyval :=
  with_retry 3 1 (get_contact_id_func self phone).

Definition send_message_func
    (self : UniPileWhatsAppClient) (phone text : string) : M E pyval :=
  do whatsapp_id <- get_contact_id self phone;
  let payload :=
    PDict [("account_id", PStr (whatsapp_account_id cfg));
           ("text", PStr text);
           ("attendees_ids", PList [whatsapp_id])] in
  let url := base_url self +:+ "/chats" in
  do resp <- requests (HttpPost url payload);
  do _ <- lift_result (raise_for_status resp);
  lift_result (json_of resp).

Definition send_message
    (self : UniPileWhatsAppClient) (phone text : string) : M E pyval :=
  with_retry 3 1 (send_message_func self phone text).

Definition send_message_to_existing_chat_func
    (self : UniPileWhatsAppClient) (chat_id text : string) : M E pyval :=
  let url := base_url self +:+ "/chats/" +:+ chat_id +:+ "/messages" in
  let payload := PDict [("text", PStr text)] in
  do resp <- requests (HttpPost url payload);
  do _ <- lift_result (raise_for_status resp);
  lift_result (json_of resp).

Definition send_message_to_existing_chat
    (self : UniPileWhatsAppClient) (chat_id text : string) : M E pyval :=
  with_retry 3 1 (send_message_to_existing_chat_func self chat_id text).

Definition get_whatsapp_client : result UniPileWhatsAppClient :=
  let api_key := api_keys_unipile cfg in
  let dsn := whatsapp_unipile_dsn cfg in
  if negb (Str.nonempty api_key) || negb (Str.nonempty dsn)
  then Raise (ValueError "Configuration Unipile incomplète.")
  else Return {| base_url := "https://" +:+ dsn +:+ "/api/v1";
                 api_key := api_key |}.
End whatsapp.

Definition format_phone_number (phone_number : string) : string :=
  if negb (Str.nonempty phone_number) then "" else
  let cleaned := Str.strip phone_number in
  let cleaned :=
    fold_left (fun cleaned char => Str.remove_char char cleaned)
              [" "; "-"; "("; ")"; "."; "/"; "\"; ":"]%char cleaned in
  let cleaned :=
    if Str.contains_char ":" cleaned
    then Str.strip (List.last (Str.split ":" cleaned) EmptyString)
    else cleaned in
  let cleaned :=
    if Str.startswith cleaned "+" then Str.drop 1 cleaned else cleaned in
  let digits := Str.filter Str.isdigit cleaned in
  let digits :=
    if Str.startswith digits "00" then Str.drop 2 digits else digits in
  if negb (Str.nonempty digits) then "" else digits.

(** *** Email *)

Record EmailClient : Type := {
  username : string;
  password : string;
  smtp_host : string;
  smtp_port : Z;
  imap_host : string;
  imap_port : Z;
  sender_name : option string;
  use_tls : bool
}.

(** What [send_email] returns: the dictionary with ["success": True] and
    its fields, or the one with ["success": False] and ["error"]. *)
Inductive send_outcome : Type :=
| Sent (to cc bcc : list string) (subject : string) (attachment_count : Z)
| NotSent (error : string).

(** One entry of the list that [retrieve_emails] returns. *)
Record email_data : Type := EmailData {
  mail_id : string;
  mail_from : string;
  mail_to : string;
  mail_cc : string;
  mail_subject : string;
  mail_date : option string;
  mail_body : string;
  mail_has_attachments : bool;
  mail_attachments : list string
}.

(** **** Reading a parsed message *)

Definition hdrs_of (m : Message) : list (string * string) :=
  match m with Msg h _ => h end.

(** [msg.get(name)]: the first field of that name, letter case ignored. *)
Fixpoint header (name : string) (h : list (string * string)) : option string :=
  match h with
  | [] => None
  | (k, v) :: h' =>
      if String.eqb (Str.lower k) (Str.lower name) then Some v
      else header name h'
  end.

(** The truth value of a message: [Message] defines [__len__] as the
    number of its header fields and no [__bool__], so a message without
    header fields counts as false. *)
Definition msg_truthy (m : Message) : bool :=
  match hdrs_of m with [] => false | _ => true end.

Definition is_multipart (m : Message) : bool :=
  match m with Msg _ (Parts _) => true | Msg _ (Leaf _) => false end.

(** [msg.get_content_type()]; the default type is ['text/plain'].  (The
    parser gives a part of a multipart/digest container the default type
    message/rfc822 instead; such containers are outside this model, and
    what is proved about [_get_email_body] is stated by the content types
    of the parts.) *)
Definition get_content_type (m : Message) : string :=
  match header "content-type" (hdrs_of m) with
  | None => "text/plain"
  | Some value =>
      let ctype :=
        Str.lower (Str.strip (List.hd EmptyString (Str.split ";" value))) in
      if negb (Nat.eqb (Str.count_char "/" ctype) 1) then "text/plain"
      else ctype
  end.

(** [msg.walk()]: the message itself, then its parts, depth first. *)
Fixpoint walk (m : Message) : list Message :=
  match m with
  | Msg _ (Parts l) =>
      m :: (fix walk_all (l : list Message) : list Message :=
              match l with
              | [] => []
              | part :: l' => walk part ++ walk_all l'
              end) l
  | Msg _ (Leaf _) => [m]
  end.

(** The [try] block that decodes the payload of the chosen part; [None]
    when it raises (for a multipart container [get_payload(decode=True)]
    is [None], which has no [decode]). *)
Definition decode_payload (m : Message) : option string :=
  match m with
  | Msg _ (Leaf decoded) => decoded
  | Msg _ (Parts _) => None
  end.

(** The [for part in msg_part.walk()] loop of [_get_email_body] with its
    [break]: the values of [html_part] and [plain_part] when it ends. *)
Fixpoint pick_parts (parts : list Message) (plain_part : option Message)
  : option Message * option Message :=
  match parts with
  | [] => (None, plain_part)
  | part :: parts' =>
      if String.eqb (get_content_type part) "text/html"
      then (Some part, plain_part)
      else if String.eqb (get_content_type part) "text/plain"
      then pick_parts parts' (Some part)
      else pick_parts parts' plain_part
  end.

Definition _get_email_body (msg_part : Message) : string :=
  let content_type := get_content_type msg_part in
  let body_content := "" in
  if is_multipart msg_part then
    let '(html_part, plain_part) := pick_parts (walk msg_part) None in
    let target_part :=                      (* html_part or plain_part *)
      match html_part with
      | Some p => if msg_truthy p then Some p else plain_part
      | None => plain_part
      end in
    match target_part with
    | Some p =>
        if msg_truthy p                     (* if target_part: *)
        then match decode_payload p with
             | Some text => text
             | None => body_content
             end
        else body_content
    | None => body_content
    end
  else
    if bool_decide (content_type ∈ ["text/plain"; "text/html"])
    then match decode_payload msg_part with
         | Some text => text
         | None => body_content
         end
    else body_content.

Section email.
Context {E : Type} `{Environment E} `{PyLib}.

Definition get_formatted_sender (self : EmailClient) : result string :=
  match sender_name self with
  | Some name =>
      if Str.nonempty name then formataddr name (username self)
      else Return (username self)
  | None => Return (username self)
  end.

(** The value of [body_type] in [send_email]. *)
Definition body_type (body : string) : string :=
  if existsb (fun tag => Str.contains tag (Str.lower body))
             ["<html"; "<body"; "<div"; "<br"]
  then "html" else "plain".

(** [os.path.basename]. *)
Definition basename (file_path : string) : string :=
  List.last (Str.split "/" file_path) EmptyString.

(** The [for file_path in attachments] loop: a path that does not exist
    is passed over, and so is a file that cannot be read. *)
Fixpoint attach_all (attachments : list string)
    (parts : list (string * string)) : M E (list (string * string)) :=
  match attachments with
  | [] => ret parts
  | file_path :: rest =>
      do st <- read_file file_path;
      match st with
      | Absent => attach_all rest parts
      | Unreadable _ => attach_all rest parts
      | Readable content =>
          attach_all rest (parts ++ [(basename file_path, content)])
      end
  end.

Definition send_email_func (self : EmailClient)
    (to : list string) (subject body : string)
    (cc bcc attachments : option (list string)) : M E send_outcome :=
  match to with
  | [] => ret (NotSent "Aucun destinataire spécifié")
  | _ =>
    (* MIMEMultipart() comes with its own two fields *)
    let msg_headers :=
      [("Content-Type", "multipart/mixed"); ("MIME-Version", "1.0")] in
    (* what follows, up to the [try], is not guarded: an exception of
       [formataddr] or of [MIMEText] leaves the function *)
    do sender <- lift_result (get_formatted_sender self);
    let msg_headers := msg_headers ++ [("From", sender)] in
    let msg_headers := msg_headers ++ [("To", Str.join ", " to)] in
    let msg_headers := msg_headers ++ [("Subject", subject)] in
    let msg_headers :=
      match Py.or_nil cc with
      | [] => msg_headers
      | cc => msg_headers ++ [("Cc", Str.join ", " cc)]
      end in
    let body_type := body_type body in
    do _ <- lift_result (MIMEText body body_type);
    do parts <- attach_all (Py.or_nil attachments) [];
    let msg := MimeMessage msg_headers body_type body parts in
    let all_recipients := to ++ Py.or_nil cc ++ Py.or_nil bcc in
    try_except
      (do _ <-
         (if smtp_port self =? 465 then
            do _ <- smtp (SmtpSSL (smtp_host self) (smtp_port self));
            do _ <- smtp (SmtpLogin (username self) (password self));
            smtp (SmtpSendMessage msg (username self) all_recipients)
          else
            do _ <- smtp (SmtpPlain (smtp_host self) (smtp_port self));
            do _ <- (if use_tls self then smtp SmtpStartTls else ret tt);
            do _ <- smtp (SmtpLogin (username self) (password self));
            smtp (SmtpSendMessage msg (username self) all_recipients));
       ret (Sent to (Py.or_nil cc) (Py.or_nil bcc) subject
                 (Z.of_nat (length (Py.or_nil attachments)))))
      (fun e =>
         match e with
         | SMTPAuthenticationError _ =>
             Some (ret (NotSent ("Authentification SMTP échouée pour "
                                 +:+ username self +:+ ": " +:+ str_exn e)))
         | _ =>
             Some (ret (NotSent ("Erreur SMTP lors de l'envoi: "
                                 +:+ str_exn e)))
         end)
  end.

Definition send_email (self : EmailClient)
    (to : list string) (subject body : string)
    (cc bcc attachments : option (list string)) : M E send_outcome :=
  with_retry 2 2 (send_email_func self to subject body cc bcc attachments).

Definition _decode_header_value (header_value : option string)
  : result string :=
  match header_value with
  | None => Return EmptyString
  | Some v => if Str.nonempty v then decode_header v else Return EmptyString
  end.

Definition _parse_email_date (date_str : option string) : option string :=
  match date_str with
  | None => None
  | Some d =>
      match parsedate_to_utc d with
      | Some iso => Some iso
      | None => Some d
      end
  end.

(** The loop over [email_msg.walk()] that collects attachment names. *)
Fixpoint attachment_names (parts : list Message) (names : list string)
  : result (list string) :=
  match parts with
  | [] => Return names
  | part :: parts' =>
      match header "Content-Disposition" (hdrs_of part) with
      | Some cd =>
          if Str.nonempty cd && Str.contains "attachment" (Str.lower cd)
          then
            match get_filename (hdrs_of part) with
            | Some filename =>
                if Str.nonempty filename then
                  let! name := _decode_header_value (Some filename) in
                  attachment_names parts' (names ++ [name])
                else attachment_names parts' names
            | None => attachment_names parts' names
            end
          else attachment_names parts' names
      | None => attachment_names parts' names
      end
  end.

(** The record built for one fetched message. *)
Definition email_record (msg_id : string) (email_msg : Message)
  : result email_data :=
  let! attachments_info :=
    if is_multipart email_msg then attachment_names (walk email_msg) []
    else Return [] in
  let has_attachments :=
    match attachments_info with [] => false | _ => true end in
  let h := hdrs_of email_msg in
  let! from := _decode_header_value (header "From" h) in
  let! to := _decode_header_value (header "To" h) in
  let! cc := _decode_header_value (header "Cc" h) in
  let! subject := _decode_header_value (header "Subject" h) in
  Return (EmailData msg_id from to cc subject
            (_parse_email_date (header "Date" h))
            (_get_email_body email_msg) has_attachments attachments_info).

(** The [for msg_id in msg_ids[:limit]] loop: a message that cannot be
    fetched or processed is passed over. *)
Fixpoint fetch_all (msg_ids : list string) (emails_list : list email_data)
  : M E (list email_data) :=
  match msg_ids with
  | [] => ret emails_list
  | msg_id :: rest =>
      do emails_list <-
        try_except
          (do '(status, msg_data) <-
             perform (EvImap (ImapFetch msg_id)) (imap_fetch msg_id);
           match msg_data with
           | Some email_msg =>
               if negb (String.eqb status "OK") then ret emails_list
               else
                 do email_data <- lift_result (email_record msg_id email_msg);
                 ret (emails_list ++ [email_data])
           | None => ret emails_list
           end)
          (fun e => Some (ret emails_list));
      fetch_all rest emails_list
  end.

Definition retrieve_emails_func (self : EmailClient)
    (folder : string) (limit : Z) (unread_only : bool)
    (search_query : option string) : M E (list email_data) :=
  let quote := String (ascii_of_nat 34) EmptyString in
  try_except
    (do _ <- perform (EvImap (ImapConnect (imap_host self) (imap_port self)))
                     (imap_connect (imap_host self) (imap_port self));
     do _ <- perform (EvImap (ImapLogin (username self) (password self)))
                     (imap_login (username self) (password self));
     let mailbox := quote +:+ folder +:+ quote in
     do status <- perform (EvImap (ImapSelect mailbox)) (imap_select mailbox);
     if negb (String.eqb status "OK") then ret []
     else
       let search_criteria :=
         (if unread_only then ["UNSEEN"] else []) ++
         match search_query with
         | Some q => if Str.nonempty q then [q] else []
         | None => []
         end in
       let final_search_query :=
         match search_criteria with
         | [] => "ALL"
         | _ => "(" +:+ Str.join " " search_criteria +:+ ")"
         end in
       do '(status, found) <-
         perform (EvImap (ImapSearch final_search_query))
                 (imap_search final_search_query);
       if negb (String.eqb status "OK") then ret []
       else
         let msg_ids := rev (List.filter Str.nonempty found) in
         fetch_all (Py.slice_to limit msg_ids) [])
    (fun e => Some (ret [])).

Definition retrieve_emails (self : EmailClient)
    (folder : string) (limit : Z) (unread_only : bool)
    (search_query : option string) : M E (list email_data) :=
  with_retry 2 2
    (retrieve_emails_func self folder limit unread_only search_query).

Definition get_email_client (cfg : settings) : result EmailClient :=
  if Str.nonempty (email_username cfg) && Str.nonempty (email_password cfg)
     && Str.nonempty (email_smtp_host cfg) && negb (email_smtp_port cfg =? 0)
     && Str.nonempty (email_imap_host cfg) && negb (email_imap_port cfg =? 0)
  then Return {| username := email_username cfg;
                 password := email_password cfg;
                 smtp_host := email_smtp_host cfg;
                 smtp_port := email_smtp_port cfg;
                 imap_host := email_imap_host cfg;
                 imap_port := email_imap_port cfg;
                 sender_name := email_sender_name cfg;
                 use_tls := email_use_tls cfg |}
  else Raise (ValueError "Configuration email (SMTP/IMAP) incomplète.").
End email.
End CommunicationCore.

(** ** communication/tool.py *)

Module CommunicationTool.
Section tools.
Context {E : Type} `{Environment E} `{PyLib}.
Variable cfg : settings.

(** The [try] block of [envoyer_message_whatsapp]. *)
Definition envoyer_message_whatsapp_try
    (cleaned_phone message : string) : M E string :=
  do client <- lift_result (CommunicationCore.get_whatsapp_client cfg);
  do result <-
    CommunicationCore.send_message cfg client cleaned_phone message;
  do chat_id <- lift_result (Py.get result "chat_id" PNone);
  if Py.truthy chat_id
  then ret ("Message WhatsApp envoyé à " +:+ cleaned_phone
            +:+ ". ID du Chat: " +:+ py_str chat_id)
  else ret "Message WhatsApp envoyé, mais aucun ID de chat retourné.".

(** Its clauses [except ValueError as ve] and [except Exception as e]. *)
Definition envoyer_message_whatsapp_except (e : exn) : string :=
  match e with
  | ValueError _ | JSONDecodeError _ =>
      "Erreur de configuration WhatsApp: " +:+ str_exn e
  | _ => "Erreur lors de l'envoi du message WhatsApp: " +:+ str_exn e
  end.

Definition envoyer_message_whatsapp
    (phone_number message : string) (account_id : option string)
  : M E string :=
  if negb (Str.nonempty (whatsapp_account_id cfg))
     && negb (Str.nonempty (Py.or_str account_id EmptyString))
  then ret "Erreur: Aucun ID de compte WhatsApp configuré par défaut ou fourni."
  else if negb (Str.nonempty phone_number) || negb (Str.nonempty message)
  then ret "Erreur: Le numéro de téléphone et le message sont requis."
  else
    let cleaned_phone := CommunicationCore.format_phone_number phone_number in
    if negb (Str.nonempty cleaned_phone)
       || (String.length cleaned_phone <? 8)%nat
    then ret ("Erreur: Numéro de téléphone '" +:+ phone_number
              +:+ "' invalide après formatage: '" +:+ cleaned_phone +:+ "'.")
    else
      try_except (envoyer_message_whatsapp_try cleaned_phone message)
                 (fun e => Some (ret (envoyer_message_whatsapp_except e))).

Definition repondre_chat_whatsapp_try (chat_id message : string)
  : M E string :=
  do client <- lift_result (CommunicationCore.get_whatsapp_client cfg);
  do result <-
    CommunicationCore.send_message_to_existing_chat client chat_id message;
  do msg_id <- lift_result (Py.get result "id" PNone);
  if Py.truthy msg_id
  then ret ("Réponse envoyée au chat WhatsApp " +:+ chat_id
            +:+ ". ID du Message: " +:+ py_str msg_id)
  else ret "Réponse WhatsApp envoyée, mais aucun ID de message retourné.".

Definition repondre_chat_whatsapp_except (e : exn) : string :=
  match e with
  | ValueError _ | JSONDecodeError _ =>
      "Erreur de configuration WhatsApp: " +:+ str_exn e
  | _ => "Erreur lors de la réponse au chat WhatsApp: " +:+ str_exn e
  end.

Definition repondre_chat_whatsapp (chat_id message : string) : M E string :=
  if negb (Str.nonempty (whatsapp_account_id cfg))
  then ret "Erreur: Aucun ID de compte WhatsApp configuré par défaut."
  else if negb (Str.nonempty chat_id) || negb (Str.nonempty message)
  then ret "Erreur: L'ID du chat et le message sont requis."
  else
    try_except (repondre_chat_whatsapp_try chat_id message)
               (fun e => Some (ret (repondre_chat_whatsapp_except e))).

Definition envoyer_email_try
    (to : list string) (subject body : string)
    (cc bcc attachments : option (list string)) : M E string :=
  do client <- lift_result (CommunicationCore.get_email_client cfg);
  do result <-
    CommunicationCore.send_email client to subject body cc bcc attachments;
  match result with
  | CommunicationCore.Sent to cc bcc _ attachment_count =>
      let attach_info :=
        if attachment_count >? 0
        then " avec " +:+ pretty attachment_count +:+ " pièce(s) jointe(s)"
        else EmptyString in
      ret ("Email envoyé à "
           +:+ pretty (Z.of_nat (length (to ++ cc ++ bcc)))
           +:+ " destinataire(s)" +:+ attach_info
           +:+ ". Sujet: " +:+ subject)
  | CommunicationCore.NotSent error =>
      ret ("Échec de l'envoi de l'email: " +:+ error)
  end.

Definition envoyer_email_except (e : exn) : string :=
  match e with
  | ValueError _ | JSONDecodeError _ =>
      "Erreur de configuration Email: " +:+ str_exn e
  | _ => "Erreur lors de l'envoi de l'email: " +:+ str_exn e
  end.

Definition envoyer_email
    (to : list string) (subject body : string)
    (cc bcc attachments : option (list string)) : M E string :=
  match to with
  | [] => ret "Erreur: Au moins un destinataire (to) est requis."
  | _ =>
    if negb (Str.nonempty subject) || negb (Str.nonempty body)
    then ret "Erreur: Le sujet et le corps du message sont requis."
    else
      try_except (envoyer_email_try to subject body cc bcc attachments)
                 (fun e => Some (ret (envoyer_email_except e)))
  end.

(** One round of the [for i, mail in enumerate(emails, 1)] loop. *)
Definition mail_lines (i : Z) (mail : CommunicationCore.email_data) : string :=
  let output := "--- Email " +:+ pretty i +:+ " ---" +:+ Str.nl in
  let output :=
    output +:+ "ID: " +:+ CommunicationCore.mail_id mail +:+ Str.nl in
  let output :=
    output +:+ "De: " +:+ CommunicationCore.mail_from mail +:+ Str.nl in
  let output :=
    output +:+ "À: " +:+ CommunicationCore.mail_to mail +:+ Str.nl in
  let output :=
    if Str.nonempty (CommunicationCore.mail_cc mail)
    then output +:+ "Cc: " +:+ CommunicationCore.mail_cc mail +:+ Str.nl
    else output in
  let output :=
    output +:+ "Sujet: " +:+ CommunicationCore.mail_subject mail +:+ Str.nl in
  let output :=
    output +:+ "Date: "
    +:+ match CommunicationCore.mail_date mail with
        | Some d => d
        | None => "None"
        end +:+ Str.nl in
  let output :=
    if CommunicationCore.mail_has_attachments mail
       && match CommunicationCore.mail_attachments mail with
          | [] => false
          | _ => true
          end
    then output +:+ "Pièces jointes: "
         +:+ Str.join ", " (CommunicationCore.mail_attachments mail) +:+ Str.nl
    else output in
  let body_preview := Str.take 250 (CommunicationCore.mail_body mail) in
  let body_preview :=
    if (250 <? String.length (CommunicationCore.mail_body mail))%nat
    then body_preview +:+ "..." else body_preview in
  output +:+ "Extrait du corps:" +:+ Str.nl +:+ body_preview
  +:+ Str.nl +:+ Str.nl.

Fixpoint mails_lines (i : Z) (emails : list CommunicationCore.email_data)
    (output : string) : string :=
  match emails with
  | [] => output
  | mail :: emails' => mails_lines (i + 1) emails' (output +:+ mail_lines i mail)
  end.

Definition recuperer_emails_try
    (folder : string) (limit : Z) (unread_only : bool)
    (search_query : option string) : M E string :=
  do client <- lift_result (CommunicationCore.get_email_client cfg);
  do emails <-
    CommunicationCore.retrieve_emails client folder limit unread_only
                                      search_query;
  match emails with
  | [] => ret ("Aucun email trouvé dans le dossier '" +:+ folder
               +:+ "' avec les critères spécifiés.")
  | _ =>
      let output :=
        "Emails récupérés de '" +:+ folder +:+ "' ("
        +:+ pretty (Z.of_nat (length emails)) +:+ "):" +:+ Str.nl
        +:+ Str.nl in
      ret (Str.strip (mails_lines 1 emails output))
  end.

Definition recuperer_emails_except (e : exn) : string :=
  match e with
  | ValueError _ | JSONDecodeError _ =>
      "Erreur de configuration Email: " +:+ str_exn e
  | _ => "Erreur lors de la récupération des emails: " +:+ str_exn e
  end.

Definition recuperer_emails
    (folder : string) (limit : Z) (unread_only : bool)
    (search_query : option string) : M E string :=
  try_except (recuperer_emails_try folder limit unread_only search_query)
             (fun e => Some (ret (recuperer_emails_except e))).
End tools.
End CommunicationTool.

(** ** youtube/utils.py *)

Module YouTubeUtils.
Definition extract_video_id (url : string) : result string :=
  if negb (Str.nonempty url) then Raise (YouTubeError "URL cannot be empty")
  else if Str.startswith url "https://www.youtube.com/watch?v=" then
    match Str.split "v=" url !! 1%nat with
    | Some rest =>
        match Str.split "&" rest !! 0%nat with
        | Some id => Return id
        | None => Raise (IndexError "list index out of range")
        end
    | None => Raise (IndexError "list index out of range")
    end
  else if Str.startswith url "https://youtu.be/" then
    match Str.split "youtu.be/" url !! 1%nat with
    | Some id => Return id
    | None => Raise (IndexError "list index out of range")
    end
  else Return url.

(** [except YouTubeError] also takes the subclass [YouTubeAPIError]. *)
Definition validate_video_url (url : string) : result bool :=
  match extract_video_id url with
  | Return _ => Return true
  | Raise (YouTubeError _) | Raise (YouTubeAPIError _) => Return false
  | Raise e => Raise e
  end.

(** [[segment["text"] for segment in transcript_data]]; [join] takes
    strings only. *)
Fixpoint segment_texts (segments : list pyval) : result (list string) :=
  match segments with
  | [] => Return []
  | segment :: segments' =>
      let! text := Py.getitem segment "text" in
      let! texts := segment_texts segments' in
      match text with
      | PStr s => Return (s :: texts)
      | _ => Raise (TypeError "sequence item: expected str instance")
      end
  end.

Definition format_transcript (transcript_data : pyval) : result string :=
  if negb (Py.truthy transcript_data) then Return EmptyString
  else
    let! segments := Py.iter transcript_data in
    let! texts := segment_texts segments in
    Return (Str.join " " texts).
End YouTubeUtils.

(** ** youtube/core.py *)

Module YouTubeCore.
Section core.
Context {E : Type} `{Environment E}.

Record YouTubeCore : Type := { api_key : string }.

(** [YouTubeCore()], run once when [youtube/tool.py] is loaded. *)
Definition new (cfg : settings) : result YouTubeCore :=
  if negb (Str.nonempty (api_keys_rapid_api cfg))
  then Raise (YouTubeError
    "RapidAPI key is missing. Please configure RAPID_API_KEY in environment variables.")
  else Return {| api_key := api_keys_rapid_api cfg |}.

Definition _make_api_request (self : YouTubeCore) (endpoint : string)
    (params : list (string * string)) : M E pyval :=
  try_except
    (do response <-
       requests (HttpGet ("https://youtube-v2.p.rapidapi.com/" +:+ endpoint)
                         params);
     if negb (status_code response =? 200)
     then raise (YouTubeAPIError
                   ("API request failed with status code: "
                    +:+ pretty (status_code response)))
     else
       match json response with
       | Some v => ret v
       | None => raise (JSONDecodeError "Expecting value")
       end)
    (fun e =>
       match e with
       | HTTPError _ _ | ConnectionError _ | Timeout _ | RequestException _
       | JSONDecodeError _ =>
           Some (raise (YouTubeAPIError ("API request failed: " +:+ str_exn e)))
       | _ => None
       end).

Definition get_transcript (self : YouTubeCore) (video_url : string)
  : M E string :=
  try_except
    (do video_id <- lift_result (YouTubeUtils.extract_video_id video_url);
     do data <- _make_api_request self "video/subtitles"
                                  [("video_id", video_id)];
     do has <- lift_result (Py.contains "subtitles" data);
     do subtitles <-
       (if has then lift_result (Py.getitem data "subtitles") else ret PNone);
     if negb has || negb (Py.truthy subtitles)
     then ret "Aucune transcription disponible pour cette vidéo"
     else
       do subtitles <- lift_result (Py.getitem data "subtitles");
       lift_result (YouTubeUtils.format_transcript subtitles))
    (fun e =>
       match e with
       | YouTubeError _ | YouTubeAPIError _ =>
           Some (ret ("Erreur: " +:+ str_exn e))
       | _ => Some (ret ("Erreur inattendue: " +:+ str_exn e))
       end).
End core.
End YouTubeCore.

(** ** youtube/tool.py *)

Module YouTubeTool.
Section tool.
Context {E : Type} `{Environment E}.

Record TranscriptResponse : Type := {
  success : bool;
  transcript : option string;
  error : option string
}.

(** The [try] block of [get_video_transcript]; [youtube] is the
    module-level [YouTubeCore()] instance. *)
Definition get_video_transcript_try
    (youtube : YouTubeCore.YouTubeCore) (request_url : string)
  : M E TranscriptResponse :=
  do transcript <- YouTubeCore.get_transcript youtube request_url;
  if Str.startswith transcript "Erreur"
  then ret {| success := false; transcript := None;
              error := Some transcript |}
  else ret {| success := true; transcript := Some transcript;
              error := None |}.

(** Its clauses [except (YouTubeError, YouTubeAPIError) as e] and
    [except Exception as e]. *)
Definition get_video_transcript_except (e : exn) : TranscriptResponse :=
  match e with
  | YouTubeError _ | YouTubeAPIError _ =>
      {| success := false; transcript := None; error := Some (str_exn e) |}
  | _ =>
      {| success := false; transcript := None;
         error := Some ("Erreur inattendue: " +:+ str_exn e) |}
  end.

Definition get_video_transcript
    (youtube : YouTubeCore.YouTubeCore) (request_url : string)
  : M E TranscriptResponse :=
  try_except (get_video_transcript_try youtube request_url)
             (fun e => Some (ret (get_video_transcript_except e))).
End tool.
End YouTubeTool.

(** ** The retry schedule, as the specification words it

    "Retry delay for HTTP/connection failures grows exponentially:
    delay = D * 2^(attempt-1).  Generic failures use a constant D." *)

Module RetryPolicy.
Definition exponential (D : Q) (attempt : Z) : Q :=
  (D * inject_Z (2 ^ (attempt - 1)))%Q.

(** The delay before the re-attempt that follows failure [e], when [e]
    is the [attempt]-th failure of the call, for the wrapper of
    communication/core.py ... *)
Definition communication_delay (D : Q) (attempt : Z) (e : exn) : Q :=
  match e with
  | HTTPError _ _ | ConnectionError _ | Timeout _ => exponential D attempt
  | _ => D
  end.

(** ... and for the wrapper of calendar/core.py. *)
Definition calendar_delay (D : Q) (attempt : Z) (e : exn) : Q :=
  match e with
  | HttpError _ _ => exponential D attempt
  | _ => D
  end.

(** One classification for all three domains: HTTP-status failures and
    network connection/timeout failures back off exponentially, every
    other failure waits [D]. *)
Definition uniform_delay (D : Q) (attempt : Z) (e : exn) : Q :=
  match e with
  | HTTPError _ _ | HttpError _ _ | ConnectionError _ | Timeout _
  | TimeoutError _ =>
      exponential D attempt
  | _ => D
  end.

(** The sleeps for failures [es], the first of which is failure number
    [attempt]. *)
Fixpoint schedule (delay_of : Z -> exn -> Q) (attempt : Z) (es : list exn)
  : list Q :=
  match es with
  | [] => []
  | e :: es' => delay_of attempt e :: schedule delay_of (attempt + 1) es'
  end.

(** Failures that the communication wrapper answers with a retry. *)
Definition communication_retryable (e : exn) : Prop :=
  match e with
  | HTTPError None _ => False
  | HTTPError (Some status_code) _ => status_code ∉ [400; 401; 403; 422]
  | _ => True
  end.

(** Failures that the calendar wrapper answers with a retry. *)
Definition calendar_retryable (e : exn) : Prop :=
  match e with
  | HttpError status_code _ => status_code ∉ [400; 401; 403; 404]
  | _ => True
  end.

(** Called again and again from state [s], [func] raises the exceptions
    [es] in turn and leaves state [s']. *)
Inductive fails_in_turn {E A} (func : M E A) : E -> list exn -> E -> Prop :=
| fails_done s : fails_in_turn func s [] s
| fails_once s e s1 t es s' :
    func s = (Raise e, s1, t) ->
    fails_in_turn func s1 es s' ->
    fails_in_turn func s (e :: es) s'.
End RetryPolicy.

(** ** The body of a retrieved message, as the specification words it

    "for multipart messages prefer the first text/html part found during a
    depth-first walk, falling back to the last text/plain part seen if no
    HTML part exists". *)

Definition get_content_type_is_html (m : Message) : bool :=
  String.eqb (CommunicationCore.get_content_type m) "text/html".

Definition get_content_type_is_plain (m : Message) : bool :=
  String.eqb (CommunicationCore.get_content_type m) "text/plain".

Definition last_text_plain (parts : list Message) : option Message :=
  match List.filter get_content_type_is_plain parts with
  | [] => None
  | p :: l => Some (List.last l p)
  end.

(** The text of a part: what decoding its payload yields, and nothing
    when decoding fails. *)
Definition part_text (m : Message) : string :=
  match CommunicationCore.decode_payload m with
  | Some text => text
  | None => EmptyString
  end.

Definition preferred_body (msg : Message) : string :=
  match List.find get_content_type_is_html (CommunicationCore.walk msg) with
  | Some html_part => part_text html_part
  | None =>
      match last_text_plain (CommunicationCore.walk msg) with
      | Some plain_part => part_text plain_part
      | None => EmptyString
      end
  end.

(** ** The header fields of an outgoing message

    The two fields that a [MIMEMultipart] starts with, then From (the
    formatted sender), To and Subject, then Cc when there is one. *)
Definition headers_set (sender : string)
    (to : list string) (subject : string) (cc : option (list string))
  : list (string * string) :=
  [("Content-Type", "multipart/mixed"); ("MIME-Version", "1.0");
   ("From", sender);
   ("To", Str.join ", " to); ("Subject", subject)]
  ++ match Py.or_nil cc with
     | [] => []
     | cc => [("Cc", Str.join ", " cc)]
     end.

(** ** The tool boundary, as the specification words it

    "All error conditions surface as either a returned text string
    beginning with an error marker, or a structured result with an
    explicit failure flag."  The marker is the word the tools put in front
    of their error texts, and the one [get_video_transcript] itself looks
    for. *)

Definition has_error_marker (text : string) : bool :=
  Str.startswith text "Erreur".

(** The tool returns in every state of the world. *)
Definition never_raises {E A} (tool : M E A) : Prop :=
  forall s, exists v s' t, tool s = (Return v, s', t).

(** The tool returns what its [try] block returns, and [on_error e] when
    the block raises [e]. *)
Definition converts {E A} (tool block : M E A) (on_error : exn -> A) : Prop :=
  forall s,
    match block s with
    | (Return v, s', t) => tool s = (Return v, s', t)
    | (Raise e, s', t) => tool s = (Return (on_error e), s', t)
    end.

(** Exceptions that [except ValueError] takes. *)
Definition is_ValueError (e : exn) : bool :=
  match e with
  | ValueError _ | JSONDecodeError _ => true
  | _ => false
  end.

(** ** Concrete environments for worked examples *)

Module Fixture.
(** An environment without state that answers from fixed tables. *)
Record tables : Type := Tables {
  on_calendar : calendar_call -> result pyval;
  on_requests : http_call -> result http_response;
  on_smtp : smtp_call -> result unit;
  on_imap_connect : result unit;
  on_imap_search : result (string * list string);
  on_imap_fetch : string -> result (string * option Message);
  on_file : string -> file_state
}.

#[global] Instance tables_environment : Environment tables := {
  calendar_api c s := (on_calendar s c, s);
  requests_api c s := (on_requests s c, s);
  smtp_api c s := (on_smtp s c, s);
  imap_connect _ _ s := (on_imap_connect s, s);
  imap_login _ _ s := (Return tt, s);
  imap_select _ s := (Return "OK", s);
  imap_search _ s := (on_imap_search s, s);
  imap_fetch i s := (on_imap_fetch s i, s);
  file_at p s := on_file s p
}.

(** A provider, a relay and mail servers that accept everything, and a
    file system without files. *)
Definition agreeable : tables := {|
  on_calendar _ := Return (PDict [("id", PStr "e1"); ("summary", PStr "Revue")]);
  on_requests c :=
    Return (HttpResponse 200 "OK"
              match c with HttpGet url _ | HttpPost url _ => url end
              (Some (PDict [("chat_id", PStr "c1")])));
  on_smtp _ := Return tt;
  on_imap_connect := Return tt;
  on_imap_search := Return ("OK", []);
  on_imap_fetch _ := Return ("OK", None);
  on_file _ := Absent
|}.

(** The same, with a calendar provider that knows no event. *)
Definition no_such_event : tables := {|
  on_calendar c :=
    match c with
    | EventsGet _ _ | EventsPatch _ _ _ | EventsDelete _ _ =>
        Raise (HttpError 404 "Not Found")
    | _ => Return (PDict [])
    end;
  on_requests := on_requests agreeable;
  on_smtp := on_smtp agreeable;
  on_imap_connect := Return tt;
  on_imap_search := Return ("OK", []);
  on_imap_fetch _ := Return ("OK", None);
  on_file _ := Absent
|}.

(** The same as [agreeable], with a mailbox server that is down. *)
Definition mailbox_down : tables := {|
  on_calendar := on_calendar agreeable;
  on_requests := on_requests agreeable;
  on_smtp := on_smtp agreeable;
  on_imap_connect := Raise (OtherException "Connection refused");
  on_imap_search := Return ("OK", []);
  on_imap_fetch _ := Return ("OK", None);
  on_file _ := Absent
|}.

(** A calendar provider that holds the identifiers of its events: a
    delete removes the identifier, and answers 404 when it is not there. *)
#[global] Instance store_environment : Environment (list string) := {
  calendar_api c s :=
    match c with
    | EventsDelete _ eventId =>
        if bool_decide (eventId ∈ s)
        then (Return (PStr EmptyString),
              List.filter (fun i => negb (String.eqb i eventId)) s)
        else (Raise (HttpError 404 "Not Found"), s)
    | EventsGet _ eventId | EventsPatch _ eventId _ =>
        if bool_decide (eventId ∈ s)
        then (Return (PDict [("id", PStr eventId)]), s)
        else (Raise (HttpError 404 "Not Found"), s)
    | _ => (Return (PDict []), s)
    end;
  requests_api _ s := (Raise (ConnectionError "unreachable"), s);
  smtp_api _ s := (Raise (OtherException "unreachable"), s);
  imap_connect _ _ s := (Raise (OtherException "unreachable"), s);
  imap_login _ _ s := (Return tt, s);
  imap_select _ s := (Return "OK", s);
  imap_search _ s := (Return ("OK", []), s);
  imap_fetch _ s := (Return ("OK", None), s);
  file_at _ _ := Absent
}.

#[global] Instance plain_pylib : PyLib := {
  py_str v := match v with PStr s => s | PInt n => pretty n | _ => "None" end;
  formataddr name addr :=
    if Str.isascii addr then Return (name +:+ " <" +:+ addr +:+ ">")
    else Raise (ValueError "'ascii' codec can't encode character");
  MIMEText _ _ := Return tt;
  fromisoformat_strftime s _ := Return s;
  decode_header s := Return s;
  parsedate_to_utc _ := None;
  get_filename _ := None
}.

Definition config : settings := {|
  calendar_calendar_id := "primary";
  calendar_timezone := "Europe/Paris";
  whatsapp_account_id := "acct";
  whatsapp_unipile_dsn := "api.example";
  api_keys_unipile := "key";
  api_keys_rapid_api := "key";
  email_username := "me@example.org";
  email_password := "secret";
  email_smtp_host := "smtp.example.org";
  email_smtp_port := 587;
  email_imap_host := "imap.example.org";
  email_imap_port := 993;
  email_sender_name := None;
  email_use_tls := true
|}.

Definition client : CommunicationCore.EmailClient := {|
  CommunicationCore.username := "me@example.org";
  CommunicationCore.password := "secret";
  CommunicationCore.smtp_host := "smtp.example.org";
  CommunicationCore.smtp_port := 587;
  CommunicationCore.imap_host := "imap.example.org";
  CommunicationCore.imap_port := 993;
  CommunicationCore.sender_name := None;
  CommunicationCore.use_tls := true
|}.
End Fixture.

(** ** The effort and the outcome of a decorated call *)

(** The outcome [r] of the wrapper, left in the state of [a'], is the
    outcome of a call of the wrapped function, but for the two exceptions
    that the wrapper's own statements can raise. *)
Definition outcome_of_call {E A} (func : M E A) (r : result A)
    (a' : attempt E) : Prop :=
  exists s0 r0 t,
    func s0 = (r0, env a', t)
    /\ match r with
       | Return v => r0 = Return v
       | Raise e =>
           r0 = Raise e
           \/ (exists e0, r0 = Raise e0
                 /\ (e = ValueError "sleep length must be non-negative"
                     \/ e = AttributeError
                              "'NoneType' object has no attribute 'status_code'"))
       end.

(** The effort of a run of the loop that starts from [a] and ends in
    [res]: [k] sleeps and [k + 1] calls, with [k] no more than the retries
    that are left. *)
Definition effort_from {E A} (max_retries : Z) (func : M E A)
    (a : attempt E) (res : result A * attempt E) : Prop :=
  exists k : nat,
    invocations (snd res) = (invocations a + S k)%nat
    /\ length (slept (snd res)) = (length (slept a) + k)%nat
    /\ Z.of_nat k <= Z.max 0 (max_retries - retries a)
    /\ outcome_of_call func (fst res) (snd res).

(** ** Further environments for worked examples *)

Module Scenario.
(** The same as [Fixture.agreeable], with a relay that finds no contact
    and answers every POST with 503. *)
Definition relay_unavailable : Fixture.tables := {|
  Fixture.on_calendar := Fixture.on_calendar Fixture.agreeable;
  Fixture.on_requests c :=
    match c with
    | HttpPost url _ =>
        Return (HttpResponse 503 "Service Unavailable" url None)
    | HttpGet url _ => Return (HttpResponse 200 "OK" url (Some (PDict [])))
    end;
  Fixture.on_smtp := Fixture.on_smtp Fixture.agreeable;
  Fixture.on_imap_connect := Return tt;
  Fixture.on_imap_search := Return ("OK", []);
  Fixture.on_imap_fetch _ := Return ("OK", None);
  Fixture.on_file _ := Absent
|}.

(** The same as [Fixture.agreeable], with an SMTP server that refuses the
    login. *)
Definition login_refused : Fixture.tables := {|
  Fixture.on_calendar := Fixture.on_calendar Fixture.agreeable;
  Fixture.on_requests := Fixture.on_requests Fixture.agreeable;
  Fixture.on_smtp c :=
    match c with
    | SmtpLogin _ _ => Raise (SMTPAuthenticationError "535 Bad credentials")
    | _ => Return tt
    end;
  Fixture.on_imap_connect := Return tt;
  Fixture.on_imap_search := Return ("OK", []);
  Fixture.on_imap_fetch _ := Return ("OK", None);
  Fixture.on_file _ := Absent
|}.

(** The same as [Fixture.agreeable], with one file on the disk. *)
Definition one_file : Fixture.tables := {|
  Fixture.on_calendar := Fixture.on_calendar Fixture.agreeable;
  Fixture.on_requests := Fixture.on_requests Fixture.agreeable;
  Fixture.on_smtp := Fixture.on_smtp Fixture.agreeable;
  Fixture.on_imap_connect := Return tt;
  Fixture.on_imap_search := Return ("OK", []);
  Fixture.on_imap_fetch _ := Return ("OK", None);
  Fixture.on_file p :=
    if String.eqb p "/tmp/rapport.txt" then Readable "Chiffres" else Absent
|}.

(** The same as [Fixture.agreeable], with a mailbox of three messages. *)
Definition three_mails : Fixture.tables := {|
  Fixture.on_calendar := Fixture.on_calendar Fixture.agreeable;
  Fixture.on_requests := Fixture.on_requests Fixture.agreeable;
  Fixture.on_smtp := Fixture.on_smtp Fixture.agreeable;
  Fixture.on_imap_connect := Return tt;
  Fixture.on_imap_search := Return ("OK", ["1"; "2"; "3"]);
  Fixture.on_imap_fetch msg_id :=
    Return ("OK",
            Some (Msg [("From", "a@example.org"); ("Subject", msg_id)]
                      (Leaf (Some "Bonjour"))));
  Fixture.on_file _ := Absent
|}.

(** The same as [Fixture.agreeable], with a calendar provider that hands
    out its service and answers every insert with 503. *)
Definition provider_unavailable : Fixture.tables := {|
  Fixture.on_calendar c :=
    match c with
    | EventsInsert _ _ => Raise (HttpError 503 "Service Unavailable")
    | _ => Return (PDict [])
    end;
  Fixture.on_requests := Fixture.on_requests Fixture.agreeable;
  Fixture.on_smtp := Fixture.on_smtp Fixture.agreeable;
  Fixture.on_imap_connect := Return tt;
  Fixture.on_imap_search := Return ("OK", []);
  Fixture.on_imap_fetch _ := Return ("OK", None);
  Fixture.on_file _ := Absent
|}.

(** The same as [Fixture.agreeable], with a relay that refuses every
    request with 422. *)
Definition relay_unprocessable : Fixture.tables := {|
  Fixture.on_calendar := Fixture.on_calendar Fixture.agreeable;
  Fixture.on_requests c :=
    Return (HttpResponse 422 "Unprocessable Entity"
              match c with HttpGet url _ | HttpPost url _ => url end None);
  Fixture.on_smtp := Fixture.on_smtp Fixture.agreeable;
  Fixture.on_imap_connect := Return tt;
  Fixture.on_imap_search := Return ("OK", []);
  Fixture.on_imap_fetch _ := Return ("OK", None);
  Fixture.on_file _ := Absent
|}.

(** An account with a display name, whose address is not ASCII: the one
    [formataddr] cannot encode. *)
Definition accented_client : CommunicationCore.EmailClient := {|
  CommunicationCore.username := "rené@example.org";
  CommunicationCore.password := "secret";
  CommunicationCore.smtp_host := "smtp.example.org";
  CommunicationCore.smtp_port := 587;
  CommunicationCore.imap_host := "imap.example.org";
  CommunicationCore.imap_port := 993;
  CommunicationCore.sender_name := Some "René";
  CommunicationCore.use_tls := true
|}.

(** The settings that give [accented_client]. *)
Definition accented_config : settings := {|
  calendar_calendar_id := "primary";
  calendar_timezone := "Europe/Paris";
  whatsapp_account_id := "acct";
  whatsapp_unipile_dsn := "api.example";
  api_keys_unipile := "key";
  api_keys_rapid_api := "key";
  email_username := "rené@example.org";
  email_password := "secret";
  email_smtp_host := "smtp.example.org";
  email_smtp_port := 587;
  email_imap_host := "imap.example.org";
  email_imap_port := 993;
  email_sender_name := Some "René";
  email_use_tls := true
|}.
End Scenario.

(** Exceptions that [except requests.exceptions.RequestException] takes. *)
Definition is_RequestException (e : exn) : bool :=
  match e with
  | HTTPError _ _ | ConnectionError _ | Timeout _ | RequestException _
  | JSONDecodeError _ => true
  | _ => false
  end.


(** * Properties *)

(** Settles a closed decidable statement by evaluation. *)
Ltac by_evaluation :=
  match goal with
  | |- ?P => apply (bool_decide_unpack P); vm_compute; exact I
  end.

(** ** The retry wrappers *)

Section retry_facts.
Context {E A : Type}.
Variable max_retries : Z.
Variable delay : Q.
Variable func : M E A.

Lemma communication_loop_unfold a :
  CommunicationCore.wrapper_loop max_retries delay func a =
  match CommunicationCore.wrapper_round max_retries delay func a with
  | (Done r, a') => (r, a')
  | (Again, a') => CommunicationCore.wrapper_loop max_retries delay func a'
  end.
Proof.
  apply (CommunicationCore.wrapper_loop_elim max_retries delay func
    (fun a res =>
       res = match CommunicationCore.wrapper_round max_retries delay func a with
             | (Done r, a') => (r, a')
             | (Again, a') =>
                 CommunicationCore.wrapper_loop max_retries delay func a'
             end)).
  - intros a0 r a' Hround _. now rewrite Hround.
  - intros a0 a' Hround _ _. now rewrite Hround.
Qed.

Lemma calendar_loop_unfold a :
  CalendarCore.wrapper_loop max_retries delay func a =
  match CalendarCore.wrapper_round max_retries delay func a with
  | (Done r, a') => (r, a')
  | (Again, a') => CalendarCore.wrapper_loop max_retries delay func a'
  end.
Proof.
  apply (CalendarCore.wrapper_loop_elim max_retries delay func
    (fun a res =>
       res = match CalendarCore.wrapper_round max_retries delay func a with
             | (Done r, a') => (r, a')
             | (Again, a') =>
                 CalendarCore.wrapper_loop max_retries delay func a'
             end)).
  - intros a0 r a' Hround _. now rewrite Hround.
  - intros a0 a' Hround _ _. now rewrite Hround.
Qed.

(** A call that returns at once is passed through untouched. *)
Lemma communication_run_return s v s' t :
  func s = (Return v, s', t) ->
  CommunicationCore.wrapper_run max_retries delay func s
  = (Return v, Attempt 0 1 [] s' t).
Proof.
  intros Hf. unfold CommunicationCore.wrapper_run.
  rewrite communication_loop_unfold.
  unfold CommunicationCore.wrapper_round. simpl. now rewrite Hf.
Qed.

Lemma calendar_run_return s v s' t :
  func s = (Return v, s', t) ->
  CalendarCore.wrapper_run max_retries delay func s
  = (Return v, Attempt 0 1 [] s' t).
Proof.
  intros Hf. unfold CalendarCore.wrapper_run.
  rewrite calendar_loop_unfold.
  unfold CalendarCore.wrapper_round. simpl. now rewrite Hf.
Qed.

Lemma communication_with_retry_return s v s' t :
  func s = (Return v, s', t) ->
  CommunicationCore.with_retry max_retries delay func s = (Return v, s', t).
Proof.
  intros Hf. unfold CommunicationCore.with_retry.
  now rewrite (communication_run_return s v s' t Hf).
Qed.

Lemma calendar_with_retry_return s v s' t :
  func s = (Return v, s', t) ->
  CalendarCore.with_retry max_retries delay func s = (Return v, s', t).
Proof.
  intros Hf. unfold CalendarCore.with_retry.
  now rewrite (calendar_run_return s v s' t Hf).
Qed.
End retry_facts.

(** C1.  An HTTP error whose status code is in the non-retryable set of
    the domain (communication: 400/401/403/422; calendar: 400/401/403/404)
    leaves the wrapper at once, with the very same error: the call that
    raised it is the last one, no sleep follows and the retry counter
    stays as it was.  When it is the first call that raises it, the
    wrapped function has been called exactly once, the wrapper has not
    slept at all, and the counter is zero. *)
Theorem non_retryable_status_is_raised_at_once :
  forall (E A : Type) (max_retries : Z) (delay : Q) (func : M E A)
         (s s' : E) (t : list event) (status_code : Z) (msg : string),
    ((status_code ∈ [400; 401; 403; 422]) ->
     (forall a : attempt E,
         func (env a) = (Raise (HTTPError (Some status_code) msg), s', t) ->
         CommunicationCore.wrapper_loop max_retries delay func a
         = (Raise (HTTPError (Some status_code) msg),
            Attempt (retries a) (S (invocations a)) (slept a) s'
                    (events a ++ t)))
     /\
     (func s = (Raise (HTTPError (Some status_code) msg), s', t) ->
      CommunicationCore.wrapper_run max_retries delay func s
      = (Raise (HTTPError (Some status_code) msg), Attempt 0 1 [] s' t)
      /\ CommunicationCore.with_retry max_retries delay func s
         = (Raise (HTTPError (Some status_code) msg), s', t)))
    /\
    ((status_code ∈ [400; 401; 403; 404]) ->
     (forall a : attempt E,
         func (env a) = (Raise (HttpError status_code msg), s', t) ->
         CalendarCore.wrapper_loop max_retries delay func a
         = (Raise (HttpError status_code msg),
            Attempt (retries a) (S (invocations a)) (slept a) s'
                    (events a ++ t)))
     /\
     (func s = (Raise (HttpError status_code msg), s', t) ->
      CalendarCore.wrapper_run max_retries delay func s
      = (Raise (HttpError status_code msg), Attempt 0 1 [] s' t)
      /\ CalendarCore.with_retry max_retries delay func s
         = (Raise (HttpError status_code msg), s', t))).
Proof.
  intros E A R D func s s' t c msg. split; intros Hin.
  - assert (Hloop : forall a,
      func (env a) = (Raise (HTTPError (Some c) msg), s', t) ->
      CommunicationCore.wrapper_loop R D func a
      = (Raise (HTTPError (Some c) msg),
         Attempt (retries a) (S (invocations a)) (slept a) s' (events a ++ t))).
    { intros a Hf. rewrite communication_loop_unfold.
      unfold CommunicationCore.wrapper_round. rewrite Hf.
      now rewrite bool_decide_eq_true_2. }
    split; [exact Hloop|]. intros Hf.
    assert (Hrun : CommunicationCore.wrapper_run R D func s
                   = (Raise (HTTPError (Some c) msg), Attempt 0 1 [] s' t)).
    { unfold CommunicationCore.wrapper_run. now rewrite (Hloop (started s) Hf). }
    split; [exact Hrun|].
    unfold CommunicationCore.with_retry. now rewrite Hrun.
  - assert (Hloop : forall a,
      func (env a) = (Raise (HttpError c msg), s', t) ->
      CalendarCore.wrapper_loop R D func a
      = (Raise (HttpError c msg),
         Attempt (retries a) (S (invocations a)) (slept a) s' (events a ++ t))).
    { intros a Hf. rewrite calendar_loop_unfold.
      unfold CalendarCore.wrapper_round. rewrite Hf.
      now rewrite bool_decide_eq_true_2. }
    split; [exact Hloop|]. intros Hf.
    assert (Hrun : CalendarCore.wrapper_run R D func s
                   = (Raise (HttpError c msg), Attempt 0 1 [] s' t)).
    { unfold CalendarCore.wrapper_run. now rewrite (Hloop (started s) Hf). }
    split; [exact Hrun|].
    unfold CalendarCore.with_retry. now rewrite Hrun.
Qed.

Lemma non_retryable_status_is_raised_at_once_witness :
  CommunicationCore.wrapper_run 3 1 (replay 0)
    [Raise (HTTPError (Some 422) "Unprocessable"); Return 7]
  = (Raise (HTTPError (Some 422) "Unprocessable"),
     Attempt 0 1 [] [Return 7] [])
  /\ CalendarCore.wrapper_run 3 1 (replay 0)
       [Raise (HttpError 404 "Not Found"); Return 7]
     = (Raise (HttpError 404 "Not Found"), Attempt 0 1 [] [Return 7] []).
Proof.
  split.
  - apply (proj1 (non_retryable_status_is_raised_at_once
             (list (result Z)) Z 3 1 (replay 0)
             [Raise (HTTPError (Some 422) "Unprocessable"); Return 7]
             [Return 7] [] 422 "Unprocessable")).
    + by_evaluation.
    + reflexivity.
  - apply (proj2 (non_retryable_status_is_raised_at_once
             (list (result Z)) Z 3 1 (replay 0)
             [Raise (HttpError 404 "Not Found"); Return 7]
             [Return 7] [] 404 "Not Found")).
    + by_evaluation.
    + reflexivity.
Defined.

Lemma exponential_nonneg (D : Q) (attempt : Z) :
  (0 <= D)%Q -> Qle_bool 0 (RetryPolicy.exponential D attempt) = true.
Proof.
  intros HD. apply Qle_bool_iff. unfold RetryPolicy.exponential.
  apply Qmult_le_0_compat; [exact HD|].
  change 0%Q with (inject_Z 0). rewrite <- Zle_Qle.
  apply Z.pow_nonneg. lia.
Qed.

Section retry_schedule.
Import RetryPolicy.
Context {E A : Type}.
Variable max_retries : Z.
Variable delay : Q.
Variable func : M E A.
Hypothesis delay_nonneg : (0 <= delay)%Q.

Lemma communication_delay_nonneg attempt e :
  Qle_bool 0 (communication_delay delay attempt e) = true.
Proof.
  destruct e; simpl; try (now apply exponential_nonneg);
    now apply Qle_bool_iff.
Qed.

Lemma calendar_delay_nonneg attempt e :
  Qle_bool 0 (calendar_delay delay attempt e) = true.
Proof.
  destruct e; simpl; try (now apply exponential_nonneg);
    now apply Qle_bool_iff.
Qed.

(** What one round does with a failure that is retried while retries
    are left. *)
Lemma communication_round_retry a e s1 t :
  func (env a) = (Raise e, s1, t) ->
  communication_retryable e ->
  retries a + 1 <= max_retries ->
  CommunicationCore.wrapper_round max_retries delay func a
  = (Again,
     Attempt (retries a + 1) (S (invocations a))
             (slept a ++ [communication_delay delay (retries a + 1) e]) s1
             (events a ++ t
              ++ [EvSleep (communication_delay delay (retries a + 1) e)])).
Proof.
  intros Hf He Hle. unfold CommunicationCore.wrapper_round. rewrite Hf.
  assert (Hgt : (retries a + 1 >? max_retries) = false) by lia.
  pose proof (communication_delay_nonneg (retries a + 1) e) as Hsleep.
  destruct e;
    try match goal with
        | Hr : communication_retryable (HTTPError ?r _) |- _ => destruct r
        end;
    simpl in *; try contradiction;
    try rewrite bool_decide_eq_false_2 by assumption;
    rewrite Hgt; unfold time_sleep; unfold exponential in Hsleep;
    cbn [retries bump called] in *;
    replace (retries a + 1 - 1) with (retries a + 1 - 1) in * by reflexivity;
    rewrite Hsleep; unfold asleep, bump, called, exponential; simpl;
    now rewrite <- app_assoc.
Qed.

(** ... and when none is left. *)
Lemma communication_round_exhausted a e s1 t :
  func (env a) = (Raise e, s1, t) ->
  communication_retryable e ->
  max_retries < retries a + 1 ->
  CommunicationCore.wrapper_round max_retries delay func a
  = (Done (Raise e),
     Attempt (retries a + 1) (S (invocations a)) (slept a) s1 (events a ++ t)).
Proof.
  intros Hf He Hlt. unfold CommunicationCore.wrapper_round. rewrite Hf.
  assert (Hgt : (retries a + 1 >? max_retries) = true) by lia.
  destruct e;
    try match goal with
        | Hr : communication_retryable (HTTPError ?r _) |- _ => destruct r
        end;
    simpl in *; try contradiction;
    try rewrite bool_decide_eq_false_2 by assumption;
    now rewrite Hgt.
Qed.

Lemma calendar_round_retry a e s1 t :
  func (env a) = (Raise e, s1, t) ->
  calendar_retryable e ->
  retries a + 1 <= max_retries ->
  CalendarCore.wrapper_round max_retries delay func a
  = (Again,
     Attempt (retries a + 1) (S (invocations a))
             (slept a ++ [calendar_delay delay (retries a + 1) e]) s1
             (events a ++ t
              ++ [EvSleep (calendar_delay delay (retries a + 1) e)])).
Proof.
  intros Hf He Hle. unfold CalendarCore.wrapper_round. rewrite Hf.
  assert (Hgt : (retries a + 1 >? max_retries) = false) by lia.
  pose proof (calendar_delay_nonneg (retries a + 1) e) as Hsleep.
  destruct e; simpl in *;
    try rewrite bool_decide_eq_false_2 by assumption;
    rewrite Hgt; unfold time_sleep; unfold exponential in Hsleep;
    cbn [retries bump called] in *;
    rewrite Hsleep; unfold asleep, bump, called, exponential; simpl;
    now rewrite <- app_assoc.
Qed.

Lemma calendar_round_exhausted a e s1 t :
  func (env a) = (Raise e, s1, t) ->
  calendar_retryable e ->
  max_retries < retries a + 1 ->
  CalendarCore.wrapper_round max_retries delay func a
  = (Done (Raise e),
     Attempt (retries a + 1) (S (invocations a)) (slept a) s1 (events a ++ t)).
Proof.
  intros Hf He Hlt. unfold CalendarCore.wrapper_round. rewrite Hf.
  assert (Hgt : (retries a + 1 >? max_retries) = true) by lia.
  destruct e; simpl in *;
    try rewrite bool_decide_eq_false_2 by assumption;
    now rewrite Hgt.
Qed.

(** After the failures [es], none of them the last one allowed, the
    wrapper has slept once per failure, by the schedule, and is about to
    call the function again. *)
Lemma communication_loop_after_failures es : forall a s',
  fails_in_turn func (env a) es s' ->
  Forall communication_retryable es ->
  retries a + Z.of_nat (length es) <= max_retries ->
  exists ev,
    CommunicationCore.wrapper_loop max_retries delay func a
    = CommunicationCore.wrapper_loop max_retries delay func
        (Attempt (retries a + Z.of_nat (length es))
                 (invocations a + length es)
                 (slept a ++ schedule (communication_delay delay)
                                      (retries a + 1) es)
                 s' ev).
Proof.
  induction es as [|e es IH]; intros a s' Hfail Hret Hle.
  - inversion Hfail; subst. exists (events a). simpl.
    rewrite Z.add_0_r, Nat.add_0_r, app_nil_r. now destruct a.
  - inversion Hfail as [|? ? s1 t ? ? Hf Hrest]; subst.
    inversion Hret as [|? ? He Hret']; subst.
    simpl length in Hle. rewrite Nat2Z.inj_succ in Hle.
    rewrite communication_loop_unfold.
    rewrite (communication_round_retry a e s1 t Hf He) by lia.
    edestruct (IH (Attempt (retries a + 1) (S (invocations a))
                     (slept a ++ [communication_delay delay (retries a + 1) e])
                     s1
                     (events a ++ t ++
                      [EvSleep (communication_delay delay (retries a + 1) e)]))
                  s') as [ev Hev]; simpl; [exact Hrest|exact Hret'|lia|].
    exists ev. rewrite Hev. simpl.
    f_equal. f_equal; [lia|lia|now rewrite <- app_assoc].
Qed.

Lemma calendar_loop_after_failures es : forall a s',
  fails_in_turn func (env a) es s' ->
  Forall calendar_retryable es ->
  retries a + Z.of_nat (length es) <= max_retries ->
  exists ev,
    CalendarCore.wrapper_loop max_retries delay func a
    = CalendarCore.wrapper_loop max_retries delay func
        (Attempt (retries a + Z.of_nat (length es))
                 (invocations a + length es)
                 (slept a ++ schedule (calendar_delay delay)
                                      (retries a + 1) es)
                 s' ev).
Proof.
  induction es as [|e es IH]; intros a s' Hfail Hret Hle.
  - inversion Hfail; subst. exists (events a). simpl.
    rewrite Z.add_0_r, Nat.add_0_r, app_nil_r. now destruct a.
  - inversion Hfail as [|? ? s1 t ? ? Hf Hrest]; subst.
    inversion Hret as [|? ? He Hret']; subst.
    simpl length in Hle. rewrite Nat2Z.inj_succ in Hle.
    rewrite calendar_loop_unfold.
    rewrite (calendar_round_retry a e s1 t Hf He) by lia.
    edestruct (IH (Attempt (retries a + 1) (S (invocations a))
                     (slept a ++ [calendar_delay delay (retries a + 1) e])
                     s1
                     (events a ++ t ++
                      [EvSleep (calendar_delay delay (retries a + 1) e)]))
                  s') as [ev Hev]; simpl; [exact Hrest|exact Hret'|lia|].
    exists ev. rewrite Hev. simpl.
    f_equal. f_equal; [lia|lia|now rewrite <- app_assoc].
Qed.
End retry_schedule.

Lemma schedule_length delay_of attempt es :
  length (RetryPolicy.schedule delay_of attempt es) = length es.
Proof.
  revert attempt. induction es as [|e es IH]; intros attempt; simpl;
    [reflexivity|now rewrite IH].
Qed.

(** The [k]-th sleep (counting from one) is the delay of the [k]-th
    failure. *)
Lemma schedule_lookup delay_of es : forall attempt (k : nat) e,
  es !! k = Some e ->
  RetryPolicy.schedule delay_of attempt es !! k
  = Some (delay_of (attempt + Z.of_nat k) e).
Proof.
  induction es as [|e0 es IH]; intros attempt k e Hk; [discriminate|].
  destruct k as [|k]; simpl in *.
  - inversion Hk; subst. now rewrite Z.add_0_r.
  - rewrite (IH (attempt + 1) k e Hk). do 2 f_equal. lia.
Qed.

Lemma fails_in_turn_app {E A} (func : M E A) es1 : forall s es2 s',
  RetryPolicy.fails_in_turn func s (es1 ++ es2) s' ->
  exists s1, RetryPolicy.fails_in_turn func s es1 s1
             /\ RetryPolicy.fails_in_turn func s1 es2 s'.
Proof.
  induction es1 as [|e es1 IH]; intros s es2 s' Hf; simpl in *.
  - exists s. split; [constructor|exact Hf].
  - inversion Hf as [|? ? s1 t ? ? Hcall Hrest]; subst.
    destruct (IH _ _ _ Hrest) as (s2 & H1 & H2).
    exists s2. split; [econstructor; eassumption|exact H2].
  Qed.

(** C2, counterexample.  Wrapped by the calendar decorator, a call that
    meets a network timeout twice and then succeeds is retried after one
    second and again after one second: the second sleep is not
    [D * 2^(2-1)]. *)
Lemma calendar_timeout_backoff_is_constant :
  let run :=
    CalendarCore.wrapper_run 3 1 (replay 0)
      [Raise (TimeoutError "timed out"); Raise (TimeoutError "timed out");
       Return 7] in
  fst run = Return 7
  /\ slept (snd run) = [1%Q; 1%Q]
  /\ RetryPolicy.schedule (RetryPolicy.uniform_delay 1) 1
       [TimeoutError "timed out"; TimeoutError "timed out"]
     = [RetryPolicy.exponential 1 1; RetryPolicy.exponential 1 2]
  /\ ~ (1 == RetryPolicy.exponential 1 2)%Q.
Proof.
  repeat split; try (vm_compute; reflexivity).
  vm_compute. discriminate.
Qed.

(** C2, as the code has it.  Every failure the wrapper retries is followed
    by one sleep.  Around relay and e-mail calls (communication/core.py)
    the sleep after the [k]-th failure lasts [D * 2^(k-1)] when that
    failure is a [requests] HTTP-status, connection or timeout error and
    [D] for any other exception; around calendar calls (calendar/core.py)
    it lasts [D * 2^(k-1)] for the provider's HTTP errors only and [D] for
    every other exception, connection errors and timeouts among them.  In
    both, a call that succeeds after [n <= R] failures returns its value
    after [n] sleeps and [n + 1] invocations, and when [R + 1] calls have
    failed the last error is raised after [R] sleeps and [R + 1]
    invocations. *)
Theorem retry_schedule_by_domain :
  forall (E A : Type) (R : Z) (D : Q) (func : M E A) (s : E) (es : list exn),
    (0 <= D)%Q ->
    (forall s1 v s2 t,
        RetryPolicy.fails_in_turn func s es s1 ->
        func s1 = (Return v, s2, t) ->
        Forall RetryPolicy.communication_retryable es ->
        Z.of_nat (length es) <= R ->
        exists ev,
          CommunicationCore.wrapper_run R D func s
          = (Return v,
             Attempt (Z.of_nat (length es)) (S (length es))
               (RetryPolicy.schedule (RetryPolicy.communication_delay D) 1 es)
               s2 ev))
    /\
    (forall e s2,
        RetryPolicy.fails_in_turn func s (es ++ [e]) s2 ->
        Forall RetryPolicy.communication_retryable (es ++ [e]) ->
        Z.of_nat (length es) = R ->
        exists ev,
          CommunicationCore.wrapper_run R D func s
          = (Raise e,
             Attempt (R + 1) (S (length es))
               (RetryPolicy.schedule (RetryPolicy.communication_delay D) 1 es)
               s2 ev))
    /\
    (forall s1 v s2 t,
        RetryPolicy.fails_in_turn func s es s1 ->
        func s1 = (Return v, s2, t) ->
        Forall RetryPolicy.calendar_retryable es ->
        Z.of_nat (length es) <= R ->
        exists ev,
          CalendarCore.wrapper_run R D func s
          = (Return v,
             Attempt (Z.of_nat (length es)) (S (length es))
               (RetryPolicy.schedule (RetryPolicy.calendar_delay D) 1 es)
               s2 ev))
    /\
    (forall e s2,
        RetryPolicy.fails_in_turn func s (es ++ [e]) s2 ->
        Forall RetryPolicy.calendar_retryable (es ++ [e]) ->
        Z.of_nat (length es) = R ->
        exists ev,
          CalendarCore.wrapper_run R D func s
          = (Raise e,
             Attempt (R + 1) (S (length es))
               (RetryPolicy.schedule (RetryPolicy.calendar_delay D) 1 es)
               s2 ev)).
Proof.
  intros E A R D func s es HD. repeat split.
  - intros s1 v s2 t Hfail Hret Hall Hle.
    destruct (communication_loop_after_failures R D func HD es (started s) s1)
      as [ev Hev]; simpl; [exact Hfail|exact Hall|lia|].
    unfold CommunicationCore.wrapper_run. rewrite Hev.
    rewrite communication_loop_unfold.
    unfold CommunicationCore.wrapper_round. simpl. rewrite Hret.
    eexists. unfold called. simpl. reflexivity.
  - intros e s2 Hfail Hall Hlen.
    destruct (fails_in_turn_app func es s [e] s2 Hfail) as (s1 & H1 & H2).
    inversion H2 as [|? ? s3 t ? ? Hcall Hrest]; subst.
    inversion Hrest; subst.
    apply Forall_app in Hall. destruct Hall as [Hall He].
    inversion He as [|? ? He' _]; subst.
    destruct (communication_loop_after_failures
                (Z.of_nat (length es)) D func HD es (started s) s1)
      as [ev Hev]; simpl; [exact H1|exact Hall|lia|].
    unfold CommunicationCore.wrapper_run. rewrite Hev.
    rewrite communication_loop_unfold.
    erewrite communication_round_exhausted
      by (simpl; first [exact Hcall | exact He' | lia]).
    eexists. simpl. reflexivity.
  - intros s1 v s2 t Hfail Hret Hall Hle.
    destruct (calendar_loop_after_failures R D func HD es (started s) s1)
      as [ev Hev]; simpl; [exact Hfail|exact Hall|lia|].
    unfold CalendarCore.wrapper_run. rewrite Hev.
    rewrite calendar_loop_unfold.
    unfold CalendarCore.wrapper_round. simpl. rewrite Hret.
    eexists. unfold called. simpl. reflexivity.
  - intros e s2 Hfail Hall Hlen.
    destruct (fails_in_turn_app func es s [e] s2 Hfail) as (s1 & H1 & H2).
    inversion H2 as [|? ? s3 t ? ? Hcall Hrest]; subst.
    inversion Hrest; subst.
    apply Forall_app in Hall. destruct Hall as [Hall He].
    inversion He as [|? ? He' _]; subst.
    destruct (calendar_loop_after_failures
                (Z.of_nat (length es)) D func HD es (started s) s1)
      as [ev Hev]; simpl; [exact H1|exact Hall|lia|].
    unfold CalendarCore.wrapper_run. rewrite Hev.
    rewrite calendar_loop_unfold.
    erewrite calendar_round_exhausted
      by (simpl; first [exact Hcall | exact He' | lia]).
    eexists. simpl. reflexivity.
Qed.

Lemma retry_schedule_by_domain_witness :
  (exists ev,
     CommunicationCore.wrapper_run 2 2 (replay 0)
       [Raise (Timeout "timed out"); Raise (OtherException "boom");
        Raise (HTTPError (Some 503) "Service Unavailable")]
     = (Raise (HTTPError (Some 503) "Service Unavailable"),
        Attempt 3 3
          (RetryPolicy.schedule (RetryPolicy.communication_delay 2) 1
             [Timeout "timed out"; OtherException "boom"])
          [] ev))
  /\
  (exists ev,
     CalendarCore.wrapper_run 3 1 (replay 0)
       [Raise (HttpError 500 "Backend Error");
        Raise (TimeoutError "timed out"); Return 7]
     = (Return 7,
        Attempt 2 3
          (RetryPolicy.schedule (RetryPolicy.calendar_delay 1) 1
             [HttpError 500 "Backend Error"; TimeoutError "timed out"])
          [] ev)).
Proof.
  split.
  - apply (proj1 (proj2 (retry_schedule_by_domain
             (list (result Z)) Z 2 2 (replay 0)
             [Raise (Timeout "timed out"); Raise (OtherException "boom");
              Raise (HTTPError (Some 503) "Service Unavailable")]
             [Timeout "timed out"; OtherException "boom"] ltac:(discriminate)))
           (HTTPError (Some 503) "Service Unavailable") []).
    + repeat (econstructor; [reflexivity|]). constructor.
    + simpl.
      repeat (apply Forall_cons_2; [simpl; first [exact I | by_evaluation]|]).
      apply Forall_nil_2.
    + reflexivity.
  - apply (proj1 (proj2 (proj2 (retry_schedule_by_domain
             (list (result Z)) Z 3 1 (replay 0)
             [Raise (HttpError 500 "Backend Error");
              Raise (TimeoutError "timed out"); Return 7]
             [HttpError 500 "Backend Error"; TimeoutError "timed out"]
             ltac:(discriminate))))
           [Return 7] 7 [] []).
    + repeat (econstructor; [reflexivity|]). constructor.
    + reflexivity.
    + simpl.
      repeat (apply Forall_cons_2; [simpl; first [exact I | by_evaluation]|]).
      apply Forall_nil_2.
    + simpl. lia.
Defined.

(** ** The effort and the outcome of a decorated call *)

Section retry_effort.
Context {E A : Type}.
Variable max_retries : Z.
Variable delay : Q.
Variable func : M E A.

Lemma communication_round_effort a it a' :
  CommunicationCore.wrapper_round max_retries delay func a = (it, a') ->
  invocations a' = S (invocations a)
  /\ match it with
     | Done r => slept a' = slept a /\ outcome_of_call func r a'
     | Again =>
         retries a' = retries a + 1 /\ retries a' <= max_retries
         /\ exists d, slept a' = slept a ++ [d]
     end.
Proof.
  unfold CommunicationCore.wrapper_round, outcome_of_call.
  destruct (func (env a)) as [[[v|e] s1] t] eqn:Hf.
  - intros Heq; inversion Heq; subst; simpl. repeat split.
    now exists (env a), (Return v), t.
  - destruct e;
      try match goal with
          | |- context [match ?response with Some _ => _ | None => _ end] =>
              destruct response
          end;
      unfold time_sleep;
      repeat match goal with
             | |- context [bool_decide ?P] => destruct (bool_decide P)
             | |- context [?x >? ?y] => destruct (Z.gtb_spec x y)
             | |- context [Qle_bool ?x ?y] => destruct (Qle_bool x y)
             end;
      intros Heq; inversion Heq; subst; simpl in *;
      repeat split; try lia; eauto 10.
Qed.

Lemma calendar_round_effort a it a' :
  CalendarCore.wrapper_round max_retries delay func a = (it, a') ->
  invocations a' = S (invocations a)
  /\ match it with
     | Done r => slept a' = slept a /\ outcome_of_call func r a'
     | Again =>
         retries a' = retries a + 1 /\ retries a' <= max_retries
         /\ exists d, slept a' = slept a ++ [d]
     end.
Proof.
  unfold CalendarCore.wrapper_round, outcome_of_call.
  destruct (func (env a)) as [[[v|e] s1] t] eqn:Hf.
  - intros Heq; inversion Heq; subst; simpl. repeat split.
    now exists (env a), (Return v), t.
  - destruct e;
      unfold time_sleep;
      repeat match goal with
             | |- context [bool_decide ?P] => destruct (bool_decide P)
             | |- context [?x >? ?y] => destruct (Z.gtb_spec x y)
             | |- context [Qle_bool ?x ?y] => destruct (Qle_bool x y)
             end;
      intros Heq; inversion Heq; subst; simpl in *;
      repeat split; try lia; eauto 10.
Qed.

Lemma communication_loop_effort a :
  effort_from max_retries func a (CommunicationCore.wrapper_loop max_retries delay func a).
Proof.
  apply (CommunicationCore.wrapper_loop_elim max_retries delay func
           (effort_from max_retries func)).
  - intros a0 r a' Hround _.
    destruct (communication_round_effort _ _ _ Hround) as (Hi & Hs & Ho).
    exists 0%nat. simpl. rewrite Hi, Hs. repeat split; try lia. exact Ho.
  - intros a0 a' Hround (k & Hi & Hs & Hk & Ho) _.
    destruct (communication_round_effort _ _ _ Hround)
      as (Hi' & Hr & Hle & d & Hd).
    exists (S k). rewrite Hi, Hs, Hi', Hd, length_app. simpl.
    repeat split; try lia. exact Ho.
Qed.

Lemma calendar_loop_effort a :
  effort_from max_retries func a (CalendarCore.wrapper_loop max_retries delay func a).
Proof.
  apply (CalendarCore.wrapper_loop_elim max_retries delay func
           (effort_from max_retries func)).
  - intros a0 r a' Hround _.
    destruct (calendar_round_effort _ _ _ Hround) as (Hi & Hs & Ho).
    exists 0%nat. simpl. rewrite Hi, Hs. repeat split; try lia. exact Ho.
  - intros a0 a' Hround (k & Hi & Hs & Hk & Ho) _.
    destruct (calendar_round_effort _ _ _ Hround)
      as (Hi' & Hr & Hle & d & Hd).
    exists (S k). rewrite Hi, Hs, Hi', Hd, length_app. simpl.
    repeat split; try lia. exact Ho.
Qed.
(** A wrapped function that fails in every state without a call to the
    outside and without changing the state: the decorated call ends with
    an exception, leaves the state as it was, and has only slept. *)
Lemma communication_round_silent a it a' :
  (forall s, exists e, func s = (Raise e, s, [])) ->
  CommunicationCore.wrapper_round max_retries delay func a = (it, a') ->
  env a' = env a
  /\ (events a' = events a \/ exists q, events a' = events a ++ [EvSleep q])
  /\ match it with
     | Done r => exists e, r = Raise e
     | Again => True
     end.
Proof.
  intros Hfail. unfold CommunicationCore.wrapper_round.
  destruct (Hfail (env a)) as [e ->].
  destruct e;
    try match goal with
        | |- context [match ?response with Some _ => _ | None => _ end] =>
            destruct response
        end;
    unfold time_sleep;
    repeat match goal with
           | |- context [bool_decide ?P] => destruct (bool_decide P)
           | |- context [?x >? ?y] => destruct (Z.gtb_spec x y)
           | |- context [Qle_bool ?x ?y] => destruct (Qle_bool x y)
           end;
    intros Heq; inversion Heq; subst; simpl; rewrite ?app_nil_r;
    repeat split; eauto.
Qed.

Lemma communication_loop_silent a :
  (forall s, exists e, func s = (Raise e, s, [])) ->
  let res := CommunicationCore.wrapper_loop max_retries delay func a in
  env (snd res) = env a
  /\ (exists l, events (snd res) = events a ++ l
                /\ Forall (fun ev => exists q, ev = EvSleep q) l)
  /\ exists e, fst res = Raise e.
Proof.
  intros Hfail.
  apply (CommunicationCore.wrapper_loop_elim max_retries delay func
           (fun a res =>
              env (snd res) = env a
              /\ (exists l, events (snd res) = events a ++ l
                            /\ Forall (fun ev => exists q, ev = EvSleep q) l)
              /\ exists e, fst res = Raise e)).
  - intros a0 r a' Hround _.
    destruct (communication_round_silent _ _ _ Hfail Hround)
      as (Henv & Hev & e & ->).
    simpl. split; [exact Henv|]. split; [|eauto].
    destruct Hev as [->|[q ->]].
    + exists []. rewrite app_nil_r. split; [reflexivity|constructor].
    + exists [EvSleep q]. split; [reflexivity|]. repeat constructor. eauto.
  - intros a0 a' Hround (Henv & (l & Hl & Hsleeps) & He) _.
    destruct (communication_round_silent _ _ _ Hfail Hround)
      as (Henv' & Hev & _).
    split; [congruence|]. split; [|exact He].
    destruct Hev as [Heq|[q Heq]]; rewrite Heq in Hl.
    + exists l. split; assumption.
    + exists (EvSleep q :: l). rewrite <- app_assoc in Hl.
      split; [exact Hl|]. constructor; eauto.
Qed.
End retry_effort.

(** ** The phone number normaliser *)

Lemma isspace_not_isdigit c : Str.isspace c = true -> Str.isdigit c = false.
Proof.
  destruct c as [[] [] [] [] [] [] [] []]; vm_compute; congruence.
Qed.

Lemma filter_isdigit_lstrip s :
  Str.filter Str.isdigit (Str.lstrip s) = Str.filter Str.isdigit s.
Proof.
  induction s as [|c s IH]; simpl; [reflexivity|].
  destruct (Str.isspace c) eqn:Hc; [|reflexivity].
  now rewrite IH, (isspace_not_isdigit c Hc).
Qed.

Lemma filter_isdigit_rstrip s :
  Str.filter Str.isdigit (Str.rstrip s) = Str.filter Str.isdigit s.
Proof.
  induction s as [|c s IH]; simpl; [reflexivity|].
  destruct (Str.rstrip s) as [|c' r] eqn:Hr.
  - simpl in IH. rewrite <- IH.
    destruct (Str.isspace c) eqn:Hc.
    + now rewrite (isspace_not_isdigit c Hc).
    + reflexivity.
  - simpl. simpl in IH. now rewrite IH.
Qed.

Lemma filter_isdigit_remove_char ch s :
  Str.isdigit ch = false ->
  Str.filter Str.isdigit (Str.remove_char ch s) = Str.filter Str.isdigit s.
Proof.
  intros Hch. induction s as [|c s IH]; simpl; [reflexivity|].
  destruct (Ascii.eqb_spec c ch) as [->|Hne].
  - now rewrite Hch.
  - simpl. now rewrite IH.
Qed.

Lemma contains_char_remove_char ch s :
  Str.contains_char ch (Str.remove_char ch s) = false.
Proof.
  induction s as [|c s IH]; simpl; [reflexivity|].
  destruct (Ascii.eqb c ch) eqn:Hc; [exact IH|].
  simpl. now rewrite Hc.
Qed.

Lemma nonempty_or_empty s :
  (if negb (Str.nonempty s) then EmptyString else s) = s.
Proof. now destruct s. Qed.

(** What [format_phone_number] computes: the digits of its argument, in
    order, less one leading [00].  Nothing else of the argument has any
    influence, a colon no more than a space. *)
Lemma format_phone_number_digits phone_number :
  CommunicationCore.format_phone_number phone_number =
  let digits := Str.filter Str.isdigit phone_number in
  if Str.startswith digits "00" then Str.drop 2 digits else digits.
Proof.
  unfold CommunicationCore.format_phone_number.
  destruct phone_number as [|c0 s0]; [reflexivity|].
  cbn [Str.nonempty negb fold_left].
  set (s := String c0 s0).
  rewrite contains_char_remove_char.
  set (cleaned := Str.remove_char ":" _).
  assert (Hd : Str.filter Str.isdigit cleaned = Str.filter Str.isdigit s).
  { unfold cleaned.
    rewrite !filter_isdigit_remove_char by reflexivity.
    unfold Str.strip. now rewrite filter_isdigit_rstrip, filter_isdigit_lstrip. }
  assert (Hp : Str.filter Str.isdigit
                 (if Str.startswith cleaned "+" then Str.drop 1 cleaned
                  else cleaned)
               = Str.filter Str.isdigit s).
  { rewrite <- Hd. unfold Str.startswith.
    destruct cleaned as [|c r]; [reflexivity|]. cbn [String.prefix].
    destruct (Ascii.ascii_dec "+" c) as [<-|Hne]; [destruct r|]; reflexivity. }
  rewrite Hp. cbv zeta. apply nonempty_or_empty.
Qed.

(** C3.  On the worked example the normaliser keeps every digit: the
    colon is deleted together with the other separators, so the test for
    a colon that follows never succeeds and nothing is cut off in front
    of it.  The result is [330612345678], not [5678]. *)
Theorem format_phone_number_colon_example :
  CommunicationCore.format_phone_number "+33 (0)6-12.34:56 78"
  = "330612345678"
  /\ CommunicationCore.format_phone_number "+33 (0)6-12.34:56 78" <> "5678"
  /\ CommunicationCore.format_phone_number "06 12 34 56 78" = "0612345678"
  /\ CommunicationCore.format_phone_number "+33612345678" = "33612345678"
  /\ (forall s,
        Str.contains_char ":"
          (fold_left (fun cleaned char => Str.remove_char char cleaned)
                     [" "; "-"; "("; ")"; "."; "/"; "\"; ":"]%char
                     (Str.strip s)) = false).
Proof.
  repeat split; try (vm_compute; congruence).
  intros s. cbn [fold_left]. apply contains_char_remove_char.
Qed.

(** ** Video identifiers *)

Lemma split_from_nonempty sep s : forall skip cur,
  exists x l, Str.split_from sep skip cur s = x :: l.
Proof.
  induction s as [|c s IH]; intros skip cur; cbn [Str.split_from]; [eauto|].
  destruct skip as [|n]; [|apply IH].
  destruct (String.prefix sep (String c s)); [eauto|apply IH].
Qed.

Lemma prefix_app p : forall s,
  String.prefix p s = true -> exists r, s = p +:+ r.
Proof.
  induction p as [|c p IH]; intros s Hp.
  - exists s. reflexivity.
  - destruct s as [|c' s]; [discriminate|]. cbn [String.prefix] in Hp.
    destruct (Ascii.ascii_dec c c') as [->|]; [|discriminate].
    destruct (IH s Hp) as [r ->]. exists r. reflexivity.
Qed.

Lemma prefix_empty s : String.prefix EmptyString s = true.
Proof. now destruct s. Qed.

(** On a non-empty string the extraction always yields an identifier. *)
Lemma extract_video_id_returns url :
  url <> EmptyString ->
  exists id, YouTubeUtils.extract_video_id url = Return id.
Proof.
  intros Hne. unfold YouTubeUtils.extract_video_id.
  destruct url as [|c u]; [congruence|]. cbn [Str.nonempty negb].
  set (url := String c u). unfold Str.startswith.
  destruct (String.prefix "https://www.youtube.com/watch?v=" url) eqn:Hw.
  - destruct (prefix_app _ _ Hw) as [r ->].
    unfold Str.split. cbv [String.append]. cbn.
    destruct (split_from_nonempty "v=" r 0%nat EmptyString) as (x & l & ->).
    rewrite prefix_empty. cbn. unfold Str.split.
    destruct (split_from_nonempty "&" x 0%nat EmptyString) as (y & l' & ->).
    cbn. eauto.
  - destruct (String.prefix "https://youtu.be/" url) eqn:Hy; [|eauto].
    destruct (prefix_app _ _ Hy) as [r ->].
    unfold Str.split. cbv [String.append]. cbn.
    destruct (split_from_nonempty "youtu.be/" r 0%nat EmptyString)
      as (x & l & ->).
    rewrite prefix_empty. cbn. eauto.
Qed.

(** C7, counterexample.  The empty string matches neither URL shape, yet
    it is not handed back: the extraction raises. *)
Lemma extract_video_id_empty_raises :
  Str.startswith EmptyString "https://www.youtube.com/watch?v=" = false
  /\ Str.startswith EmptyString "https://youtu.be/" = false
  /\ YouTubeUtils.extract_video_id EmptyString
     = Raise (YouTubeError "URL cannot be empty")
  /\ YouTubeUtils.extract_video_id EmptyString <> Return EmptyString.
Proof. repeat split; try reflexivity. discriminate. Qed.

(** C7, as the code has it.  The two examples yield [abc123]; every
    non-empty string that starts with neither
    [https://www.youtube.com/watch?v=] nor [https://youtu.be/] is returned
    unchanged; the empty string raises [YouTubeError]; and
    [validate_video_url] runs the same extraction, answering [True] when
    it returns, that is for every non-empty string, and [False] for the
    empty one. *)
Theorem extract_video_id_shapes :
  YouTubeUtils.extract_video_id "https://www.youtube.com/watch?v=abc123&t=5"
  = Return "abc123"
  /\ YouTubeUtils.extract_video_id "https://youtu.be/abc123" = Return "abc123"
  /\ (forall url,
        url <> EmptyString ->
        Str.startswith url "https://www.youtube.com/watch?v=" = false ->
        Str.startswith url "https://youtu.be/" = false ->
        YouTubeUtils.extract_video_id url = Return url)
  /\ YouTubeUtils.extract_video_id EmptyString
     = Raise (YouTubeError "URL cannot be empty")
  /\ (forall url,
        YouTubeUtils.validate_video_url url
        = match YouTubeUtils.extract_video_id url with
          | Return _ => Return true
          | Raise (YouTubeError _) | Raise (YouTubeAPIError _) => Return false
          | Raise e => Raise e
          end)
  /\ (forall url,
        YouTubeUtils.validate_video_url url = Return (Str.nonempty url)).
Proof.
  repeat split; try reflexivity.
  - intros url Hne Hw Hy. unfold YouTubeUtils.extract_video_id.
    rewrite Hw, Hy. now destruct url.
  - intros url. unfold YouTubeUtils.validate_video_url.
    destruct url as [|c u]; [reflexivity|].
    destruct (extract_video_id_returns (String c u)) as [id ->];
      [discriminate|reflexivity].
Qed.

Lemma extract_video_id_shapes_witness :
  YouTubeUtils.extract_video_id "abc123" = Return "abc123".
Proof.
  apply (proj1 (proj2 (proj2 extract_video_id_shapes)) "abc123").
  - discriminate.
  - reflexivity.
  - reflexivity.
Defined.

(** ** Calendar *)

Section calendar_facts.
Context {E : Type} `{Environment E}.
Variable cfg : settings.

Lemma core_update_event_func_noop event_id calendar_id updates
      s svc s1 existing s2 :
  let cal := Py.or_str calendar_id (calendar_calendar_id cfg) in
  calendar_api (GetService false) s = (Return svc, s1) ->
  calendar_api (EventsGet cal event_id) s1 = (Return existing, s2) ->
  CalendarCore.update_event_body cfg updates = Return ∅ ->
  CalendarCore.core_update_event_func cfg event_id calendar_id updates s
  = (Return existing, s2,
     [EvCalendar (GetService false); EvCalendar (EventsGet cal event_id)]).
Proof.
  intros cal Hsvc Hget Hbody.
  unfold CalendarCore.core_update_event_func,
    CalendarCore.get_calendar_service, bind, try_except, calendar, perform,
    lift_result, ret.
  fold cal. rewrite Hsvc, Hget, Hbody. reflexivity.
Qed.

Lemma core_update_event_func_patch event_id calendar_id updates
      s svc s1 existing s2 body r s3 :
  let cal := Py.or_str calendar_id (calendar_calendar_id cfg) in
  calendar_api (GetService false) s = (Return svc, s1) ->
  calendar_api (EventsGet cal event_id) s1 = (Return existing, s2) ->
  CalendarCore.update_event_body cfg updates = Return body ->
  size body <> 0%nat ->
  calendar_api (EventsPatch cal event_id body) s2 = (r, s3) ->
  CalendarCore.core_update_event_func cfg event_id calendar_id updates s
  = (r, s3,
     [EvCalendar (GetService false); EvCalendar (EventsGet cal event_id);
      EvCalendar (EventsPatch cal event_id body)]).
Proof.
  intros cal Hsvc Hget Hbody Hsize Hpatch.
  unfold CalendarCore.core_update_event_func,
    CalendarCore.get_calendar_service, bind, try_except, calendar, perform,
    lift_result, ret.
  fold cal. rewrite Hsvc, Hget, Hbody.
  rewrite bool_decide_eq_false_2 by exact Hsize.
  rewrite Hpatch. now destruct r.
Qed.

(** The patch holds the fields of [updates], under the provider's
    names, and nothing else. *)
Lemma update_event_body_fields (updates : gmap string pyval) :
  (forall a, updates !! "attendees" = Some a ->
             a = PNone \/ exists l, a = PList l) ->
  exists body : gmap string pyval,
    CalendarCore.update_event_body cfg updates = Return body
    /\ body !! "summary" = updates !! "summary"
    /\ body !! "description" = updates !! "description"
    /\ body !! "location" = updates !! "location"
    /\ body !! "start" = CalendarCore.timed cfg <$> updates !! "start_time"
    /\ body !! "end" = CalendarCore.timed cfg <$> updates !! "end_time"
    /\ body !! "attendees"
       = match updates !! "attendees" with
         | Some (PList l) =>
             Some (PList (map (fun email => PDict [("email", email)]) l))
         | _ => None
         end
    /\ (forall k,
          k ∉ ["summary"; "description"; "location"; "start"; "end";
               "attendees"] ->
          body !! k = None).
Proof.
  intros Hatt. unfold CalendarCore.update_event_body.
  destruct (updates !! "attendees") as [a|] eqn:Ha;
    [destruct (Hatt a eq_refl) as [->|[l ->]]|];
    destruct (updates !! "summary"), (updates !! "description"),
      (updates !! "location"), (updates !! "start_time"),
      (updates !! "end_time");
    cbn [CalendarCore.attendee_records Py.iter];
    (eexists; split; [reflexivity|]);
    (repeat split; try (vm_compute; reflexivity));
    intros k Hk;
    rewrite ?lookup_insert_ne
      by (intros <-; apply Hk; by_evaluation);
    apply lookup_empty.
Qed.
End calendar_facts.

(** C4, counterexample.  [attendees] is one of the recognised fields, but
    when it is there with the value [None] the patch stays empty: no write
    is issued and the fetched event is returned. *)
Lemma update_with_null_attendees_issues_no_write :
  let updates : gmap string pyval := {["attendees" := PNone]} in
  updates !! "attendees" = Some PNone
  /\ CalendarCore.core_update_event Fixture.config "e1" None updates
       Fixture.agreeable
     = (Return (PDict [("id", PStr "e1"); ("summary", PStr "Revue")]),
        Fixture.agreeable,
        [EvCalendar (GetService false);
         EvCalendar (EventsGet "primary" "e1")]).
Proof. split; vm_compute; reflexivity. Qed.

(** C4, as the code has it.  Once the event has been fetched, the patch
    holds exactly the fields the caller supplied, under the provider's
    names ([start_time] as [start] and [end_time] as [end], each with the
    configured time zone; [attendees] as a list of address records, and
    only when its value is not [None]).  When that leaves the patch empty
    (none of the fields is there, or only [attendees] with [None]) no write
    is issued and the fetched event is returned unchanged; otherwise one
    partial update with that patch is issued and what the provider answers
    is returned. *)
Theorem core_update_event_sparse_patch :
  forall (E : Type) (Env : Environment E) (cfg : settings)
         (event_id : string) (calendar_id : option string)
         (updates : gmap string pyval) (s s1 s2 : E) (svc existing : pyval),
    let cal := Py.or_str calendar_id (calendar_calendar_id cfg) in
    calendar_api (GetService false) s = (Return svc, s1) ->
    calendar_api (EventsGet cal event_id) s1 = (Return existing, s2) ->
    (forall a, updates !! "attendees" = Some a ->
               a = PNone \/ exists l, a = PList l) ->
    exists body : gmap string pyval,
      CalendarCore.update_event_body cfg updates = Return body
      /\ body !! "summary" = updates !! "summary"
      /\ body !! "description" = updates !! "description"
      /\ body !! "location" = updates !! "location"
      /\ body !! "start" = CalendarCore.timed cfg <$> updates !! "start_time"
      /\ body !! "end" = CalendarCore.timed cfg <$> updates !! "end_time"
      /\ body !! "attendees"
         = match updates !! "attendees" with
           | Some (PList l) =>
               Some (PList (map (fun email => PDict [("email", email)]) l))
           | _ => None
           end
      /\ (forall k,
            k ∉ ["summary"; "description"; "location"; "start"; "end";
                 "attendees"] ->
            body !! k = None)
      /\ ((forall k,
              k ∈ ["summary"; "description"; "location"; "start_time";
                   "end_time"] ->
              updates !! k = None) ->
          (forall l, updates !! "attendees" <> Some (PList l)) ->
          CalendarCore.core_update_event cfg event_id calendar_id updates s
          = (Return existing, s2,
             [EvCalendar (GetService false);
              EvCalendar (EventsGet cal event_id)]))
      /\ (((exists k,
               k ∈ ["summary"; "description"; "location"; "start_time";
                    "end_time"]
               /\ is_Some (updates !! k))
           \/ (exists l, updates !! "attendees" = Some (PList l))) ->
          forall updated s3,
            calendar_api (EventsPatch cal event_id body) s2
            = (Return updated, s3) ->
            CalendarCore.core_update_event cfg event_id calendar_id updates s
            = (Return updated, s3,
               [EvCalendar (GetService false);
                EvCalendar (EventsGet cal event_id);
                EvCalendar (EventsPatch cal event_id body)])).
Proof.
  intros E Env cfg event_id calendar_id updates s s1 s2 svc existing cal
         Hsvc Hget Hatt.
  destruct (update_event_body_fields cfg updates Hatt)
    as (body & Hbody & Hsum & Hdesc & Hloc & Hstart & Hend & Hat & Hother).
  exists body. repeat (split; [assumption|]). split.
  - intros Hnone Hnolist.
    assert (Hempty : body = ∅).
    { apply map_empty. intros k.
      destruct (decide (k ∈ ["summary"; "description"; "location"; "start";
                             "end"; "attendees"])) as [Hin|Hout];
        [|exact (Hother k Hout)].
      repeat (apply elem_of_cons in Hin as [->|Hin]);
        try (apply elem_of_nil in Hin; contradiction).
      - rewrite Hsum. apply Hnone. by_evaluation.
      - rewrite Hdesc. apply Hnone. by_evaluation.
      - rewrite Hloc. apply Hnone. by_evaluation.
      - rewrite Hstart, (Hnone "start_time"); [reflexivity|by_evaluation].
      - rewrite Hend, (Hnone "end_time"); [reflexivity|by_evaluation].
      - rewrite Hat. destruct (updates !! "attendees") as [[]|] eqn:Ha;
          try reflexivity. exfalso. eapply Hnolist. reflexivity. }
    subst body. unfold CalendarCore.core_update_event.
    apply calendar_with_retry_return.
    exact (core_update_event_func_noop cfg event_id calendar_id updates
             s svc s1 existing s2 Hsvc Hget Hbody).
  - intros Hsome updated s3 Hpatch.
    assert (Hsize : size body <> 0%nat).
    { intros Hz. apply map_size_empty_inv in Hz. subst body.
      destruct Hsome as [(k & Hin & [v Hv])|[l Hl]].
      - repeat (apply elem_of_cons in Hin as [->|Hin]);
          try (apply elem_of_nil in Hin; contradiction);
          rewrite Hv in *; rewrite lookup_empty in *; discriminate.
      - rewrite Hl, lookup_empty in Hat. discriminate. }
    unfold CalendarCore.core_update_event.
    apply calendar_with_retry_return.
    exact (core_update_event_func_patch cfg event_id calendar_id updates
             s svc s1 existing s2 body (Return updated) s3
             Hsvc Hget Hbody Hsize Hpatch).
Qed.

Lemma core_update_event_sparse_patch_witness :
  exists body : gmap string pyval,
    CalendarCore.update_event_body Fixture.config {["summary" := PStr "Point"]}
    = Return body
    /\ CalendarCore.core_update_event Fixture.config "e1" None
         {["summary" := PStr "Point"]} Fixture.agreeable
       = (Return (PDict [("id", PStr "e1"); ("summary", PStr "Revue")]),
          Fixture.agreeable,
          [EvCalendar (GetService false);
           EvCalendar (EventsGet "primary" "e1");
           EvCalendar (EventsPatch "primary" "e1" body)]).
Proof.
  destruct (core_update_event_sparse_patch
              Fixture.tables Fixture.tables_environment Fixture.config
              "e1" None {["summary" := PStr "Point"]}
              Fixture.agreeable Fixture.agreeable Fixture.agreeable
              (PDict [("id", PStr "e1"); ("summary", PStr "Revue")])
              (PDict [("id", PStr "e1"); ("summary", PStr "Revue")])
              eq_refl eq_refl)
    as (body & Hbody & _ & _ & _ & _ & _ & _ & _ & _ & Hpatch).
  - intros a Ha. vm_compute in Ha. discriminate.
  - exists body. split; [exact Hbody|].
    apply Hpatch; [|reflexivity].
    left. exists "summary". split; [by_evaluation|].
    exists (PStr "Point"). vm_compute. reflexivity.
Defined.

Section delete_facts.
Context {E : Type} `{Environment E}.
Variable cfg : settings.

Lemma core_delete_event_func_absent event_id calendar_id s svc s1 msg s2 :
  let cal := Py.or_str calendar_id (calendar_calendar_id cfg) in
  calendar_api (GetService false) s = (Return svc, s1) ->
  calendar_api (EventsDelete cal event_id) s1
  = (Raise (HttpError 404 msg), s2) ->
  CalendarCore.core_delete_event_func cfg event_id calendar_id s
  = (Return false, s2,
     [EvCalendar (GetService false);
      EvCalendar (EventsDelete cal event_id)]).
Proof.
  intros cal Hsvc Hdel.
  unfold CalendarCore.core_delete_event_func,
    CalendarCore.get_calendar_service, bind, try_except, calendar, perform,
    ret.
  fold cal. rewrite Hsvc, Hdel. reflexivity.
Qed.

Lemma core_delete_event_func_done event_id calendar_id s svc s1 r s2 :
  let cal := Py.or_str calendar_id (calendar_calendar_id cfg) in
  calendar_api (GetService false) s = (Return svc, s1) ->
  calendar_api (EventsDelete cal event_id) s1 = (Return r, s2) ->
  CalendarCore.core_delete_event_func cfg event_id calendar_id s
  = (Return true, s2,
     [EvCalendar (GetService false);
      EvCalendar (EventsDelete cal event_id)]).
Proof.
  intros cal Hsvc Hdel.
  unfold CalendarCore.core_delete_event_func,
    CalendarCore.get_calendar_service, bind, try_except, calendar, perform,
    ret.
  fold cal. rewrite Hsvc, Hdel. reflexivity.
Qed.
End delete_facts.

(** C6.  When the provider answers the delete with 404,
    [core_delete_event] returns [False]; when the delete succeeds it
    returns [True]; in both cases after one call of the provider, without
    a retry and without a sleep.  So with a provider that answers a delete
    either way, deleting the same identifier again never raises. *)
Theorem core_delete_event_is_idempotent :
  forall (E : Type) (Env : Environment E) (cfg : settings)
         (event_id : string) (calendar_id : option string),
    let cal := Py.or_str calendar_id (calendar_calendar_id cfg) in
    let trace :=
      [EvCalendar (GetService false); EvCalendar (EventsDelete cal event_id)] in
    (forall s svc s1 msg s2,
        calendar_api (GetService false) s = (Return svc, s1) ->
        calendar_api (EventsDelete cal event_id) s1
        = (Raise (HttpError 404 msg), s2) ->
        CalendarCore.core_delete_event cfg event_id calendar_id s
        = (Return false, s2, trace))
    /\
    (forall s svc s1 r s2,
        calendar_api (GetService false) s = (Return svc, s1) ->
        calendar_api (EventsDelete cal event_id) s1 = (Return r, s2) ->
        CalendarCore.core_delete_event cfg event_id calendar_id s
        = (Return true, s2, trace))
    /\
    ((forall s, exists svc s1,
           calendar_api (GetService false) s = (Return svc, s1)) ->
     (forall s,
         (exists r s2,
             calendar_api (EventsDelete cal event_id) s = (Return r, s2))
         \/ (exists msg s2,
                calendar_api (EventsDelete cal event_id) s
                = (Raise (HttpError 404 msg), s2))) ->
     forall s, exists (first second : bool) s',
       (do first <- CalendarCore.core_delete_event cfg event_id calendar_id;
        do second <- CalendarCore.core_delete_event cfg event_id calendar_id;
        ret (first, second)) s
       = (Return (first, second), s', trace ++ trace)).
Proof.
  intros E Env cfg event_id calendar_id cal trace.
  assert (Habsent : forall s svc s1 msg s2,
    calendar_api (GetService false) s = (Return svc, s1) ->
    calendar_api (EventsDelete cal event_id) s1
    = (Raise (HttpError 404 msg), s2) ->
    CalendarCore.core_delete_event cfg event_id calendar_id s
    = (Return false, s2, trace)).
  { intros s svc s1 msg s2 Hsvc Hdel.
    unfold CalendarCore.core_delete_event.
    apply calendar_with_retry_return.
    exact (core_delete_event_func_absent cfg event_id calendar_id
             s svc s1 msg s2 Hsvc Hdel). }
  assert (Hdone : forall s svc s1 r s2,
    calendar_api (GetService false) s = (Return svc, s1) ->
    calendar_api (EventsDelete cal event_id) s1 = (Return r, s2) ->
    CalendarCore.core_delete_event cfg event_id calendar_id s
    = (Return true, s2, trace)).
  { intros s svc s1 r s2 Hsvc Hdel.
    unfold CalendarCore.core_delete_event.
    apply calendar_with_retry_return.
    exact (core_delete_event_func_done cfg event_id calendar_id
             s svc s1 r s2 Hsvc Hdel). }
  split; [exact Habsent|]. split; [exact Hdone|].
  intros Hsvc Hdel.
  assert (Hone : forall s, exists (b : bool) s',
    CalendarCore.core_delete_event cfg event_id calendar_id s
    = (Return b, s', trace)).
  { intros s. destruct (Hsvc s) as (svc & s1 & Hs).
    destruct (Hdel s1) as [(r & s2 & Hd)|(msg & s2 & Hd)].
    - exists true, s2. exact (Hdone s svc s1 r s2 Hs Hd).
    - exists false, s2. exact (Habsent s svc s1 msg s2 Hs Hd). }
  intros s. destruct (Hone s) as (b1 & s1 & H1).
  destruct (Hone s1) as (b2 & s2 & H2).
  exists b1, b2, s2. unfold bind, ret. rewrite H1, H2.
  now rewrite app_nil_r.
Qed.

Lemma core_delete_event_is_idempotent_witness :
  (do first <- CalendarCore.core_delete_event Fixture.config "e1" None;
   do second <- CalendarCore.core_delete_event Fixture.config "e1" None;
   ret (first, second)) ["e0"; "e1"]
  = (Return (true, false), ["e0"],
     [EvCalendar (GetService false); EvCalendar (EventsDelete "primary" "e1");
      EvCalendar (GetService false); EvCalendar (EventsDelete "primary" "e1")])
  /\ CalendarCore.core_delete_event Fixture.config "e1" None ["e0"]
     = (Return false, ["e0"],
        [EvCalendar (GetService false);
         EvCalendar (EventsDelete "primary" "e1")]).
Proof.
  split.
  - destruct (proj2 (proj2 (core_delete_event_is_idempotent
                (list string) Fixture.store_environment Fixture.config
                "e1" None))) with (s := ["e0"; "e1"])
      as (b1 & b2 & s' & Hrun).
    + intros s. exists (PDict []), s. reflexivity.
    + intros s. simpl.
      destruct (bool_decide ("e1" ∈ s)); [left|right]; eauto.
    + rewrite Hrun. vm_compute in Hrun.
      inversion Hrun; subst. reflexivity.
  - apply (proj1 (core_delete_event_is_idempotent
             (list string) Fixture.store_environment Fixture.config
             "e1" None) ["e0"] (PDict []) ["e0"] "Not Found" ["e0"]);
      reflexivity.
Defined.

(** ** E-mail: choosing the body of a retrieved message *)

(** A part that announces [text/html] has a Content-Type field, so it is
    never without header fields. *)
Lemma html_part_has_headers m :
  get_content_type_is_html m = true -> CommunicationCore.msg_truthy m = true.
Proof.
  unfold get_content_type_is_html, CommunicationCore.get_content_type,
    CommunicationCore.msg_truthy.
  destruct (CommunicationCore.hdrs_of m); [discriminate|reflexivity].
Qed.

(** With a [text/html] part in the walk, the first one is chosen. *)
Lemma pick_parts_html parts : forall plain_part p,
  List.find get_content_type_is_html parts = Some p ->
  fst (CommunicationCore.pick_parts parts plain_part) = Some p.
Proof.
  induction parts as [|q parts IH]; intros plain_part p Hfind; [discriminate|].
  simpl in *. unfold get_content_type_is_html in Hfind at 1.
  destruct (String.eqb (CommunicationCore.get_content_type q) "text/html").
  - now inversion Hfind.
  - destruct (String.eqb (CommunicationCore.get_content_type q) "text/plain");
      now apply IH.
Qed.

Lemma last_cons_default {X} (l : list X) : forall x d,
  List.last (x :: l) d = List.last l x.
Proof.
  induction l as [|y l IH]; intros x d; [reflexivity|].
  change (List.last (x :: y :: l) d) with (List.last (y :: l) d).
  rewrite (IH y d). symmetry. apply IH.
Qed.

(** Without one, the last [text/plain] part seen is kept. *)
Lemma pick_parts_plain parts : forall plain_part,
  List.find get_content_type_is_html parts = None ->
  CommunicationCore.pick_parts parts plain_part
  = (None,
     match last_text_plain parts with
     | Some p => Some p
     | None => plain_part
     end).
Proof.
  induction parts as [|q parts IH]; intros plain_part Hfind; [reflexivity|].
  cbn [List.find] in Hfind. cbn [CommunicationCore.pick_parts].
  unfold get_content_type_is_html in Hfind at 1.
  destruct (String.eqb (CommunicationCore.get_content_type q) "text/html");
    [discriminate|].
  unfold last_text_plain. cbn [List.filter].
  unfold get_content_type_is_plain at 1.
  destruct (String.eqb (CommunicationCore.get_content_type q) "text/plain");
    rewrite (IH _ Hfind); unfold last_text_plain;
    destruct (List.filter get_content_type_is_plain parts) as [|x l];
    try reflexivity.
  now rewrite last_cons_default.
Qed.

(** What [_get_email_body] selects, in general. *)
Lemma _get_email_body_selection msg :
  (CommunicationCore.is_multipart msg = true ->
   forall p,
     List.find get_content_type_is_html (CommunicationCore.walk msg) = Some p ->
     CommunicationCore._get_email_body msg = part_text p)
  /\
  (CommunicationCore.is_multipart msg = true ->
   List.find get_content_type_is_html (CommunicationCore.walk msg) = None ->
   CommunicationCore._get_email_body msg
   = match last_text_plain (CommunicationCore.walk msg) with
     | Some p =>
         if CommunicationCore.msg_truthy p then part_text p else EmptyString
     | None => EmptyString
     end)
  /\
  (CommunicationCore.is_multipart msg = false ->
   CommunicationCore._get_email_body msg
   = if bool_decide (CommunicationCore.get_content_type msg
                     ∈ ["text/plain"; "text/html"])
     then part_text msg else EmptyString).
Proof.
  unfold CommunicationCore._get_email_body. repeat split.
  - intros Hm p Hfind. rewrite Hm.
    pose proof (pick_parts_html _ None p Hfind) as Hpick.
    destruct (CommunicationCore.pick_parts (CommunicationCore.walk msg) None)
      as [html plain]. simpl in Hpick. subst html.
    assert (Hp : get_content_type_is_html p = true).
    { apply List.find_some in Hfind. tauto. }
    rewrite (html_part_has_headers p Hp). cbv beta iota.
    rewrite (html_part_has_headers p Hp). reflexivity.
  - intros Hm Hfind. rewrite Hm, (pick_parts_plain _ None Hfind).
    now destruct (last_text_plain (CommunicationCore.walk msg)).
  - intros Hm. rewrite Hm. reflexivity.
Qed.

(** C5.  A multipart message whose only text part has no header fields:
    that part is [text/plain] by default, it is the last [text/plain]
    part of the walk and there is no [text/html] part, yet the body comes
    out empty, because a message without header fields counts as false
    in the test [if target_part:]. *)
Theorem headerless_text_part_is_dropped :
  let part := Msg [] (Leaf (Some "Hello")) in
  let msg :=
    Msg [("Content-Type", "multipart/mixed; boundary=b")] (Parts [part]) in
  CommunicationCore.is_multipart msg = true
  /\ CommunicationCore.walk msg = [msg; part]
  /\ CommunicationCore.get_content_type part = "text/plain"
  /\ List.find get_content_type_is_html (CommunicationCore.walk msg) = None
  /\ last_text_plain (CommunicationCore.walk msg) = Some part
  /\ preferred_body msg = "Hello"
  /\ CommunicationCore._get_email_body msg = EmptyString.
Proof. repeat split; vm_compute; reflexivity. Qed.

(** ** E-mail: sending *)

Section send_facts.
Context {E : Type} `{Environment E} `{PyLib}.

(** The attachment loop embeds the files that can be read, in the order
    of the paths, and changes nothing. *)
Lemma attach_all_embeds attachments : forall parts s,
  CommunicationCore.attach_all attachments parts s
  = (Return
       (parts ++
        omap (fun file_path =>
                match file_at file_path s with
                | Readable content =>
                    Some (CommunicationCore.basename file_path, content)
                | _ => None
                end) attachments),
     s, []).
Proof.
  induction attachments as [|p l IH]; intros parts s; simpl.
  - now rewrite app_nil_r.
  - unfold bind, read_file.
    destruct (file_at p s); rewrite IH; [reflexivity|reflexivity|].
    now rewrite <- app_assoc.
Qed.

Lemma send_email_func_without_recipient
      self subject body cc bcc attachments s :
  CommunicationCore.send_email_func self [] subject body cc bcc attachments s
  = (Return (CommunicationCore.NotSent "Aucun destinataire spécifié"), s, []).
Proof. reflexivity. Qed.

(** One call of the undecorated [send_email] with a recipient, when the
    message cannot be built: the exception of [formataddr], or else the
    one of [MIMEText], leaves the function before anything is called. *)
Lemma send_email_func_unbuilt self to subject body cc bcc attachments e s :
  to <> [] ->
  CommunicationCore.get_formatted_sender self = Raise e
  \/ (exists sender,
         CommunicationCore.get_formatted_sender self = Return sender
         /\ MIMEText body (CommunicationCore.body_type body) = Raise e) ->
  CommunicationCore.send_email_func self to subject body cc bcc attachments s
  = (Raise e, s, []).
Proof.
  intros Hto Hbuild. unfold CommunicationCore.send_email_func.
  destruct to as [|a to]; [congruence|].
  unfold bind at 1, lift_result.
  destruct Hbuild as [->|(sender & -> & Htext)]; [reflexivity|].
  cbv zeta. unfold bind at 1. now rewrite Htext.
Qed.

(** One call of the undecorated [send_email] with a recipient, when the
    message can be built: the message, and the calls the function gets to
    make. *)
Lemma send_email_func_session self to subject body cc bcc attachments
      sender s :
  to <> [] ->
  CommunicationCore.get_formatted_sender self = Return sender ->
  MIMEText body (CommunicationCore.body_type body) = Return tt ->
  let msg :=
    MimeMessage
      (headers_set sender to subject cc)
      (CommunicationCore.body_type body)
      body
      (omap (fun file_path =>
               match file_at file_path s with
               | Readable content =>
                   Some (CommunicationCore.basename file_path, content)
               | _ => None
               end) (Py.or_nil attachments)) in
  let opening :=
    if CommunicationCore.smtp_port self =? 465
    then [EvSmtp (SmtpSSL (CommunicationCore.smtp_host self)
                          (CommunicationCore.smtp_port self))]
    else EvSmtp (SmtpPlain (CommunicationCore.smtp_host self)
                           (CommunicationCore.smtp_port self))
         :: (if CommunicationCore.use_tls self then [EvSmtp SmtpStartTls]
             else []) in
  let session :=
    opening
    ++ [EvSmtp (SmtpLogin (CommunicationCore.username self)
                          (CommunicationCore.password self));
        EvSmtp (SmtpSendMessage msg (CommunicationCore.username self)
                  (to ++ Py.or_nil cc ++ Py.or_nil bcc))] in
  exists out s' t,
    CommunicationCore.send_email_func self to subject body cc bcc
                                      attachments s
    = (Return out, s', t)
    /\ t `prefix_of` session
    /\ t <> []
    /\ match out with
       | CommunicationCore.Sent to' cc' bcc' subject' attachment_count =>
           t = session
           /\ to' = to /\ cc' = Py.or_nil cc /\ bcc' = Py.or_nil bcc
           /\ subject' = subject
           /\ attachment_count = Z.of_nat (length (Py.or_nil attachments))
       | CommunicationCore.NotSent error =>
           exists e,
             error = match e with
                     | SMTPAuthenticationError _ =>
                         "Authentification SMTP échouée pour "
                         +:+ CommunicationCore.username self +:+ ": "
                         +:+ str_exn e
                     | _ => "Erreur SMTP lors de l'envoi: " +:+ str_exn e
                     end
       end.
Proof.
  intros Hto Hsender Htext msg opening session.
  unfold CommunicationCore.send_email_func.
  destruct to as [|a to]; [congruence|].
  unfold bind at 1, lift_result. rewrite Hsender. cbv zeta.
  unfold bind at 1. rewrite Htext.
  unfold bind at 1. rewrite attach_all_embeds. cbn [app].
  match goal with
  | |- context [MimeMessage ?h ?b ?x ?p] =>
      replace (MimeMessage h b x p) with msg
        by (unfold msg, headers_set; simpl; now destruct (Py.or_nil cc))
  end.
  subst session opening. clearbody msg.
  unfold try_except, bind, smtp, perform, ret.
  destruct (CommunicationCore.smtp_port self =? 465);
    try destruct (CommunicationCore.use_tls self);
    repeat match goal with
           | |- context [smtp_api ?c ?st] =>
               let r := fresh "r" in
               let st' := fresh "s" in
               destruct (smtp_api c st) as [[r|r] st']
           end;
    simpl;
    try (eexists _, _, _; split; [reflexivity|];
         split; [eexists; reflexivity|]; split; [discriminate|];
         repeat split);
    match goal with
    | |- context [match ?e with SMTPAuthenticationError _ => _
                              | _ => _ end] =>
        exists (CommunicationCore.NotSent
                  match e with
                  | SMTPAuthenticationError _ =>
                      "Authentification SMTP échouée pour "
                      +:+ CommunicationCore.username self +:+ ": "
                      +:+ str_exn e
                  | _ => "Erreur SMTP lors de l'envoi: " +:+ str_exn e
                  end);
        eexists _, _; split; [now destruct e|];
        split; [eexists; reflexivity|]; split; [discriminate|];
        now exists e
    end.
Qed.

(** The same against a server that accepts every call: the whole session
    takes place and the result is the success. *)
Lemma send_email_func_accepted (accepting : E -> Prop)
      self to subject body cc bcc attachments sender s :
  to <> [] ->
  CommunicationCore.get_formatted_sender self = Return sender ->
  MIMEText body (CommunicationCore.body_type body) = Return tt ->
  (forall c st, accepting st ->
                exists st', smtp_api c st = (Return tt, st') /\ accepting st') ->
  accepting s ->
  let msg :=
    MimeMessage
      (headers_set sender to subject cc)
      (CommunicationCore.body_type body)
      body
      (omap (fun file_path =>
               match file_at file_path s with
               | Readable content =>
                   Some (CommunicationCore.basename file_path, content)
               | _ => None
               end) (Py.or_nil attachments)) in
  let opening :=
    if CommunicationCore.smtp_port self =? 465
    then [EvSmtp (SmtpSSL (CommunicationCore.smtp_host self)
                          (CommunicationCore.smtp_port self))]
    else EvSmtp (SmtpPlain (CommunicationCore.smtp_host self)
                           (CommunicationCore.smtp_port self))
         :: (if CommunicationCore.use_tls self then [EvSmtp SmtpStartTls]
             else []) in
  exists s',
    CommunicationCore.send_email_func self to subject body cc bcc
                                      attachments s
    = (Return (CommunicationCore.Sent to (Py.or_nil cc) (Py.or_nil bcc)
                 subject (Z.of_nat (length (Py.or_nil attachments)))),
       s',
       opening
       ++ [EvSmtp (SmtpLogin (CommunicationCore.username self)
                             (CommunicationCore.password self));
           EvSmtp (SmtpSendMessage msg (CommunicationCore.username self)
                     (to ++ Py.or_nil cc ++ Py.or_nil bcc))])
    /\ accepting s'.
Proof.
  intros Hto Hsender Htext Haccept Hs msg opening.
  unfold CommunicationCore.send_email_func.
  destruct to as [|a to]; [congruence|].
  unfold bind at 1, lift_result. rewrite Hsender. cbv zeta.
  unfold bind at 1. rewrite Htext.
  unfold bind at 1. rewrite attach_all_embeds. cbn [app].
  match goal with
  | |- context [MimeMessage ?h ?b ?x ?p] =>
      replace (MimeMessage h b x p) with msg
        by (unfold msg, headers_set; simpl; now destruct (Py.or_nil cc))
  end.
  subst opening. clearbody msg.
  unfold try_except, bind, smtp, perform, ret.
  destruct (CommunicationCore.smtp_port self =? 465);
    try destruct (CommunicationCore.use_tls self);
    repeat match goal with
           | |- context [smtp_api ?c ?st] =>
               let st' := fresh "s" in
               let Hcall := fresh "Hcall" in
               let Hst := fresh "Hs" in
               assert (accepting st) as Hst by assumption;
               destruct (Haccept c st Hst) as (st' & Hcall & ?);
               rewrite Hcall; clear Hcall Hst
           end;
    eexists; (split; [reflexivity|assumption]).
Qed.
End send_facts.

(** The decorated [send_email], by the three ways one call of the
    function can go: without a recipient, and with a message that can be
    built, the function returns and the wrapper passes that on; with a
    message that cannot be built every attempt raises, and the wrapper
    sleeps, raises in the end, and has called nothing. *)
Lemma send_email_cases {E} `{Environment E} `{PyLib}
      self to subject body cc bcc attachments (s : E) :
  (to = []
   /\ CommunicationCore.send_email self to subject body cc bcc attachments s
      = (Return (CommunicationCore.NotSent "Aucun destinataire spécifié"),
         s, []))
  \/ (to <> []
      /\ exists e t,
           CommunicationCore.send_email self to subject body cc bcc
                                        attachments s
           = (Raise e, s, t)
           /\ Forall (fun ev => exists q, ev = EvSleep q) t)
  \/ (to <> []
      /\ exists sender,
           CommunicationCore.get_formatted_sender self = Return sender
           /\ MIMEText body (CommunicationCore.body_type body) = Return tt
           /\ CommunicationCore.send_email self to subject body cc bcc
                                           attachments s
              = CommunicationCore.send_email_func self to subject body cc bcc
                                                  attachments s).
Proof.
  destruct to as [|a to].
  { left. split; [reflexivity|].
    unfold CommunicationCore.send_email.
    now apply communication_with_retry_return. }
  right.
  assert (Hto : a :: to <> []) by discriminate.
  assert (Hsilent : forall e,
    (forall s0,
        CommunicationCore.send_email_func self (a :: to) subject body cc bcc
                                          attachments s0
        = (Raise e, s0, [])) ->
    exists e' t,
      CommunicationCore.send_email self (a :: to) subject body cc bcc
                                   attachments s
      = (Raise e', s, t)
      /\ Forall (fun ev => exists q, ev = EvSleep q) t).
  { intros e Hfail.
    unfold CommunicationCore.send_email, CommunicationCore.with_retry,
      CommunicationCore.wrapper_run.
    destruct (communication_loop_silent 2 2
                (CommunicationCore.send_email_func self (a :: to) subject
                   body cc bcc attachments) (started s))
      as (Henv & (l & Hl & Hsleeps) & e' & He').
    { intros s0. exists e. apply Hfail. }
    destruct (CommunicationCore.wrapper_loop 2 2
                (CommunicationCore.send_email_func self (a :: to) subject
                   body cc bcc attachments) (started s)) as [r a'].
    simpl in *. subst r. exists e', l. rewrite Henv, Hl. now split. }
  destruct (CommunicationCore.get_formatted_sender self) as [sender|e]
    eqn:Hsender.
  2:{ left. split; [exact Hto|]. apply (Hsilent e). intros s0.
      apply send_email_func_unbuilt; [exact Hto|now left]. }
  destruct (MIMEText body (CommunicationCore.body_type body)) as [[]|e]
    eqn:Htext.
  2:{ left. split; [exact Hto|]. apply (Hsilent e). intros s0.
      apply send_email_func_unbuilt; [exact Hto|right; eauto]. }
  right. split; [exact Hto|]. exists sender. repeat split.
  destruct (send_email_func_session self (a :: to) subject body cc bcc
              attachments sender s Hto Hsender Htext)
    as (out & s' & t & Hfunc & _).
  rewrite Hfunc. unfold CommunicationCore.send_email.
  now apply communication_with_retry_return.
Qed.

(** The field names of the header set, whatever the arguments. *)
Lemma headers_set_names sender to subject cc :
  (forall name, name ∈ map fst (headers_set sender to subject cc) ->
                name ∈ ["Content-Type"; "MIME-Version"; "From"; "To";
                        "Subject"; "Cc"])
  /\ "Bcc" ∉ map fst (headers_set sender to subject cc).
Proof.
  unfold headers_set. split.
  - intros name Hname. destruct (Py.or_nil cc); simpl in Hname;
      repeat (apply elem_of_cons in Hname as [->|Hname]; [by_evaluation|]);
      apply elem_of_nil in Hname; contradiction.
  - intros Hname. destruct (Py.or_nil cc); simpl in Hname;
      repeat (apply elem_of_cons in Hname as [Hname|Hname];
              [discriminate|]);
      apply elem_of_nil in Hname; contradiction.
Qed.

(** What [send_email] submits, when it submits: the message built from
    the arguments. *)
Lemma send_email_submitted {E} `{Environment E} `{PyLib}
      self to subject body cc bcc attachments (s s' : E) r t
      msg from_addr to_addrs :
  CommunicationCore.send_email self to subject body cc bcc attachments s
  = (r, s', t) ->
  EvSmtp (SmtpSendMessage msg from_addr to_addrs) ∈ t ->
  exists sender,
    CommunicationCore.get_formatted_sender self = Return sender
    /\ msg = MimeMessage
               (headers_set sender to subject cc)
               (CommunicationCore.body_type body)
               body
               (omap (fun file_path =>
                        match file_at file_path s with
                        | Readable content =>
                            Some (CommunicationCore.basename file_path,
                                  content)
                        | _ => None
                        end) (Py.or_nil attachments))
    /\ from_addr = CommunicationCore.username self
    /\ to_addrs = to ++ Py.or_nil cc ++ Py.or_nil bcc.
Proof.
  intros Hrun Hin.
  destruct (send_email_cases self to subject body cc bcc attachments s)
    as [(_ & Hnone)|[(_ & e & t0 & Hfail & Hsleeps)
                    |(Hto & sender & Hsender & Htext & Hone)]].
  - rewrite Hnone in Hrun. inversion Hrun; subst. inversion Hin.
  - rewrite Hfail in Hrun. inversion Hrun; subst.
    rewrite Forall_forall in Hsleeps.
    destruct (Hsleeps _ Hin) as [q Hq]. discriminate.
  - exists sender. split; [exact Hsender|].
    destruct (send_email_func_session self to subject body cc bcc
                attachments sender s Hto Hsender Htext)
      as (out & s0 & t0 & Hfunc & [k Hsession] & _).
    rewrite Hone, Hfunc in Hrun. inversion Hrun; subst.
    assert (Hin' : EvSmtp (SmtpSendMessage msg from_addr to_addrs) ∈ t ++ k)
      by (apply elem_of_app; now left).
    rewrite <- Hsession in Hin'. clear Hsession Hin Hfunc Hone Hrun.
    destruct (CommunicationCore.smtp_port self =? 465);
      try destruct (CommunicationCore.use_tls self);
      repeat (apply elem_of_cons in Hin' as [Hin'|Hin'];
              [try discriminate; inversion Hin'; auto|]);
      now apply elem_of_nil in Hin'.
Qed.

(** C8.  Whatever [send_email] submits to the SMTP server is addressed to
    the concatenation of To, Cc and Bcc, and its header fields are the two
    fields every multipart message starts with, From, To, Subject and,
    when there are Cc addresses, Cc: no field is named Bcc and the Bcc
    argument has no part in any field.  And it does submit: with a
    recipient, a message that can be built and a server that accepts
    every call, the call returns its success result after one session
    that ends with the submission of that message to those addresses. *)
Theorem send_email_envelope_and_headers :
  forall (E : Type) (Env : Environment E) (Lib : PyLib)
         (self : CommunicationCore.EmailClient) (to : list string)
         (subject body : string) (cc bcc attachments : option (list string)),
    let recipients := to ++ Py.or_nil cc ++ Py.or_nil bcc in
    let opening :=
      if CommunicationCore.smtp_port self =? 465
      then [EvSmtp (SmtpSSL (CommunicationCore.smtp_host self)
                            (CommunicationCore.smtp_port self))]
      else EvSmtp (SmtpPlain (CommunicationCore.smtp_host self)
                             (CommunicationCore.smtp_port self))
           :: (if CommunicationCore.use_tls self then [EvSmtp SmtpStartTls]
               else []) in
    (forall (s s' : E) (r : result CommunicationCore.send_outcome)
            (t : list event) (msg : mime_message) (from_addr : string)
            (to_addrs : list string),
        CommunicationCore.send_email self to subject body cc bcc attachments s
        = (r, s', t) ->
        EvSmtp (SmtpSendMessage msg from_addr to_addrs) ∈ t ->
        to_addrs = recipients
        /\ (exists sender,
               CommunicationCore.get_formatted_sender self = Return sender
               /\ headers msg = headers_set sender to subject cc)
        /\ (forall name, name ∈ map fst (headers msg) ->
                         name ∈ ["Content-Type"; "MIME-Version"; "From"; "To";
                                 "Subject"; "Cc"])
        /\ "Bcc" ∉ map fst (headers msg))
    /\
    (forall (sender : string) (accepting : E -> Prop) (s : E),
        to <> [] ->
        CommunicationCore.get_formatted_sender self = Return sender ->
        MIMEText body (CommunicationCore.body_type body) = Return tt ->
        (forall c st, accepting st ->
                      exists st', smtp_api c st = (Return tt, st')
                                  /\ accepting st') ->
        accepting s ->
        exists (s' : E) (msg : mime_message),
          CommunicationCore.send_email self to subject body cc bcc
                                       attachments s
          = (Return (CommunicationCore.Sent to (Py.or_nil cc) (Py.or_nil bcc)
                       subject (Z.of_nat (length (Py.or_nil attachments)))),
             s',
             opening
             ++ [EvSmtp (SmtpLogin (CommunicationCore.username self)
                                   (CommunicationCore.password self));
                 EvSmtp (SmtpSendMessage msg (CommunicationCore.username self)
                           recipients)])
          /\ headers msg = headers_set sender to subject cc
          /\ (forall name, name ∈ map fst (headers msg) ->
                           name ∈ ["Content-Type"; "MIME-Version"; "From";
                                   "To"; "Subject"; "Cc"])
          /\ "Bcc" ∉ map fst (headers msg)).
Proof.
  intros E Env Lib self to subject body cc bcc attachments recipients opening.
  split.
  - intros s s' r t msg from_addr to_addrs Hrun Hin.
    destruct (send_email_submitted self to subject body cc bcc attachments
                s s' r t msg from_addr to_addrs Hrun Hin)
      as (sender & Hsender & -> & _ & Hto).
    cbn [headers].
    destruct (headers_set_names sender to subject cc) as [Hnames Hbcc].
    repeat split; eauto.
  - intros sender accepting s Hto Hsender Htext Haccept Hs.
    destruct (send_email_func_accepted accepting self to subject body cc bcc
                attachments sender s Hto Hsender Htext Haccept Hs)
      as (s' & Hfunc & _).
    eexists s', _. split.
    + unfold CommunicationCore.send_email.
      apply communication_with_retry_return. exact Hfunc.
    + cbn [headers].
      destruct (headers_set_names sender to subject cc) as [Hnames Hbcc].
      repeat split; assumption.
Qed.

Lemma send_email_envelope_and_headers_witness :
  exists (s' : Fixture.tables) (msg : mime_message),
    CommunicationCore.send_email Fixture.client
      ["a@example.org"; "b@example.org"] "Rapport" "<div>Bonjour</div>"
      (Some ["c@example.org"]) (Some ["d@example.org"]) None Fixture.agreeable
    = (Return (CommunicationCore.Sent ["a@example.org"; "b@example.org"]
                 ["c@example.org"] ["d@example.org"] "Rapport" 0),
       s',
       [EvSmtp (SmtpPlain "smtp.example.org" 587); EvSmtp SmtpStartTls;
        EvSmtp (SmtpLogin "me@example.org" "secret");
        EvSmtp (SmtpSendMessage msg "me@example.org"
                  ["a@example.org"; "b@example.org"; "c@example.org";
                   "d@example.org"])])
    /\ headers msg
       = [("Content-Type", "multipart/mixed"); ("MIME-Version", "1.0");
          ("From", "me@example.org"); ("To", "a@example.org, b@example.org");
          ("Subject", "Rapport"); ("Cc", "c@example.org")]
    /\ "Bcc" ∉ map fst (headers msg).
Proof.
  edestruct (proj2 (send_email_envelope_and_headers
                      Fixture.tables Fixture.tables_environment
                      Fixture.plain_pylib Fixture.client
                      ["a@example.org"; "b@example.org"] "Rapport"
                      "<div>Bonjour</div>" (Some ["c@example.org"])
                      (Some ["d@example.org"]) None)
               "me@example.org" (fun st => st = Fixture.agreeable)
               Fixture.agreeable)
    as (s' & msg & Hrun & Hheaders & _ & Hbcc).
  - discriminate.
  - reflexivity.
  - reflexivity.
  - intros c st ->. exists Fixture.agreeable. split; reflexivity.
  - reflexivity.
  - exists s', msg. split; [exact Hrun|]. split; [exact Hheaders|exact Hbcc].
Defined.

(** C10.  When [send_email] reports success, [attachment_count] is the
    length of the [attachments] argument (zero when there is none), whether
    or not the files were there; in the example the one path given does
    not exist, the message goes out with no attachment, and the count is
    one. *)
Theorem attachment_count_is_argument_length :
  (forall (E : Type) (Env : Environment E) (Lib : PyLib)
          (self : CommunicationCore.EmailClient) (to : list string)
          (subject body : string) (cc bcc attachments : option (list string))
          (s s' : E) (t : list event)
          (to' cc' bcc' : list string) (subject' : string)
          (attachment_count : Z),
      CommunicationCore.send_email self to subject body cc bcc attachments s
      = (Return (CommunicationCore.Sent to' cc' bcc' subject'
                                        attachment_count), s', t) ->
      attachment_count = Z.of_nat (length (Py.or_nil attachments)))
  /\
  CommunicationCore.send_email Fixture.client ["a@example.org"] "Rapport"
    "Bonjour" None None (Some ["/tmp/rapport.pdf"]) Fixture.agreeable
  = (Return (CommunicationCore.Sent ["a@example.org"] [] [] "Rapport" 1),
     Fixture.agreeable,
     [EvSmtp (SmtpPlain "smtp.example.org" 587); EvSmtp SmtpStartTls;
      EvSmtp (SmtpLogin "me@example.org" "secret");
      EvSmtp (SmtpSendMessage
                (MimeMessage
                   [("Content-Type", "multipart/mixed");
                    ("MIME-Version", "1.0"); ("From", "me@example.org");
                    ("To", "a@example.org"); ("Subject", "Rapport")]
                   "plain" "Bonjour" [])
                "me@example.org" ["a@example.org"])]).
Proof.
  split; [|vm_compute; reflexivity].
  intros E Env Lib self to subject body cc bcc attachments s s' t
         to' cc' bcc' subject' n Hrun.
  destruct (send_email_cases self to subject body cc bcc attachments s)
    as [(_ & Hnone)|[(_ & e & t0 & Hfail & _)
                    |(Hto & sender & Hsender & Htext & Hone)]].
  - rewrite Hnone in Hrun. discriminate.
  - rewrite Hfail in Hrun. discriminate.
  - destruct (send_email_func_session self to subject body cc bcc
                attachments sender s Hto Hsender Htext)
      as (out & s0 & t0 & Hfunc & _ & _ & Hout).
    rewrite Hone, Hfunc in Hrun. inversion Hrun; subst.
    now destruct Hout as (_ & _ & _ & _ & _ & Hn).
Qed.

Lemma attachment_count_is_argument_length_witness :
  1 = Z.of_nat (length (Py.or_nil (Some ["/tmp/rapport.pdf"]))).
Proof.
  apply (proj1 attachment_count_is_argument_length
           Fixture.tables Fixture.tables_environment Fixture.plain_pylib
           Fixture.client ["a@example.org"] "Rapport" "Bonjour" None None
           (Some ["/tmp/rapport.pdf"]) Fixture.agreeable Fixture.agreeable
           [EvSmtp (SmtpPlain "smtp.example.org" 587); EvSmtp SmtpStartTls;
            EvSmtp (SmtpLogin "me@example.org" "secret");
            EvSmtp (SmtpSendMessage
                      (MimeMessage
                         [("Content-Type", "multipart/mixed");
                          ("MIME-Version", "1.0"); ("From", "me@example.org");
                          ("To", "a@example.org"); ("Subject", "Rapport")]
                         "plain" "Bonjour" [])
                      "me@example.org" ["a@example.org"])]
           ["a@example.org"] [] [] "Rapport" 1).
  vm_compute. reflexivity.
Defined.

(** ** The tool boundary *)

Lemma try_except_never_raises {E A} (block : M E A) (on_error : exn -> A) :
  never_raises (try_except block (fun e => Some (ret (on_error e)))).
Proof.
  intros s. unfold try_except, ret.
  destruct (block s) as [[[v|e] s1] t1]; eauto.
Qed.

Lemma try_except_converts {E A} (block : M E A) (on_error : exn -> A) :
  converts (try_except block (fun e => Some (ret (on_error e))))
           block on_error.
Proof.
  intros s. unfold try_except, ret.
  destruct (block s) as [[[v|e] s1] t1]; [reflexivity|].
  now rewrite app_nil_r.
Qed.

Lemma ret_never_raises {E A} (v : A) : never_raises (@ret E A v).
Proof. intros s. unfold ret. eauto. Qed.

(** C9, counterexample.  Two failures that come back as text without the
    marker.  With the mailbox server down, the retrieval absorbs the
    error and the tool reports that no e-mail was found.  Asked to update
    an event the provider does not know, the core raises [ValueError]
    (after three retries) and the tool returns the bare message. *)
Lemma failures_without_error_marker :
  (exists t,
     CommunicationTool.recuperer_emails Fixture.config "INBOX" 10 false None
       Fixture.mailbox_down
     = (Return
          "Aucun email trouvé dans le dossier 'INBOX' avec les critères spécifiés.",
        Fixture.mailbox_down, t)
     /\ In (EvImap (ImapConnect "imap.example.org" 993)) t)
  /\ has_error_marker
       "Aucun email trouvé dans le dossier 'INBOX' avec les critères spécifiés."
     = false
  /\ (exists t,
        CalendarCore.core_update_event Fixture.config "e1" None
          {["summary" := PStr "Point"]} Fixture.no_such_event
        = (Raise (ValueError "Événement e1 non trouvé."),
           Fixture.no_such_event, t)
        /\ CalendarTool.mettre_a_jour_evenement_calendrier Fixture.config
             "e1" None (Some "Point") None None None None None
             Fixture.no_such_event
           = (Return "Événement e1 non trouvé.", Fixture.no_such_event, t))
  /\ has_error_marker "Événement e1 non trouvé." = false.
Proof.
  split; [|split; [|split]].
  - eexists. split; [vm_compute; reflexivity|]. simpl. tauto.
  - vm_compute. reflexivity.
  - eexists. split; vm_compute; reflexivity.
  - vm_compute. reflexivity.
Qed.

Section boundary.
Context {E : Type} `{Environment E} `{PyLib}.
Variable cfg : settings.

Lemma envoyer_message_whatsapp_boundary phone_number message account_id :
  never_raises
    (CommunicationTool.envoyer_message_whatsapp cfg phone_number message
                                                account_id)
  /\ ((exists text,
          CommunicationTool.envoyer_message_whatsapp cfg phone_number message
                                                     account_id
          = ret text
          /\ has_error_marker text = true)
      \/ converts
           (CommunicationTool.envoyer_message_whatsapp cfg phone_number
                                                       message account_id)
           (CommunicationTool.envoyer_message_whatsapp_try cfg
              (CommunicationCore.format_phone_number phone_number) message)
           CommunicationTool.envoyer_message_whatsapp_except).
Proof.
  unfold CommunicationTool.envoyer_message_whatsapp.
  repeat match goal with
         | |- context [if ?c then _ else _] => destruct c
         end;
    (split;
     [ first [apply ret_never_raises | apply try_except_never_raises]
     | first [ right; apply try_except_converts
             | left; eexists; split; reflexivity ] ]).
Qed.

Lemma repondre_chat_whatsapp_boundary chat_id message :
  never_raises (CommunicationTool.repondre_chat_whatsapp cfg chat_id message)
  /\ ((exists text,
          CommunicationTool.repondre_chat_whatsapp cfg chat_id message
          = ret text
          /\ has_error_marker text = true)
      \/ converts
           (CommunicationTool.repondre_chat_whatsapp cfg chat_id message)
           (CommunicationTool.repondre_chat_whatsapp_try cfg chat_id message)
           CommunicationTool.repondre_chat_whatsapp_except).
Proof.
  unfold CommunicationTool.repondre_chat_whatsapp.
  repeat match goal with
         | |- context [if ?c then _ else _] => destruct c
         end;
    (split;
     [ first [apply ret_never_raises | apply try_except_never_raises]
     | first [ right; apply try_except_converts
             | left; eexists; split; reflexivity ] ]).
Qed.

Lemma envoyer_email_boundary to subject body cc bcc attachments :
  never_raises
    (CommunicationTool.envoyer_email cfg to subject body cc bcc attachments)
  /\ ((exists text,
          CommunicationTool.envoyer_email cfg to subject body cc bcc
                                          attachments
          = ret text
          /\ has_error_marker text = true)
      \/ converts
           (CommunicationTool.envoyer_email cfg to subject body cc bcc
                                            attachments)
           (CommunicationTool.envoyer_email_try cfg to subject body cc bcc
                                                attachments)
           CommunicationTool.envoyer_email_except).
Proof.
  unfold CommunicationTool.envoyer_email.
  destruct to;
    repeat match goal with
           | |- context [if ?c then _ else _] => destruct c
           end;
    (split;
     [ first [apply ret_never_raises | apply try_except_never_raises]
     | first [ right; apply try_except_converts
             | left; eexists; split; reflexivity ] ]).
Qed.

Lemma mettre_a_jour_evenement_calendrier_boundary
      event_id calendar_id summary start_time end_time description location
      attendees :
  never_raises
    (CalendarTool.mettre_a_jour_evenement_calendrier cfg event_id calendar_id
       summary start_time end_time description location attendees)
  /\ (CalendarTool.mettre_a_jour_evenement_calendrier cfg event_id
        calendar_id summary start_time end_time description location
        attendees
      = ret "Aucune information de mise à jour fournie."
      \/ converts
           (CalendarTool.mettre_a_jour_evenement_calendrier cfg event_id
              calendar_id summary start_time end_time description location
              attendees)
           (CalendarTool.mettre_a_jour_evenement_calendrier_try cfg event_id
              calendar_id
              (CalendarTool.given_updates summary start_time end_time
                 description location attendees))
           (CalendarTool.mettre_a_jour_evenement_calendrier_except event_id)).
Proof.
  unfold CalendarTool.mettre_a_jour_evenement_calendrier.
  destruct (bool_decide _);
    (split;
     [ first [apply ret_never_raises | apply try_except_never_raises]
     | first [ right; apply try_except_converts | left; reflexivity ] ]).
Qed.

Lemma except_clauses_mark_errors :
  (forall e, has_error_marker
               (CommunicationTool.envoyer_message_whatsapp_except e) = true)
  /\ (forall e, has_error_marker
                  (CommunicationTool.repondre_chat_whatsapp_except e) = true)
  /\ (forall e, has_error_marker
                  (CommunicationTool.envoyer_email_except e) = true)
  /\ (forall e, has_error_marker
                  (CommunicationTool.recuperer_emails_except e) = true)
  /\ (forall e, has_error_marker
                  (CalendarTool.lister_evenements_calendrier_except e) = true)
  /\ (forall e, has_error_marker
                  (CalendarTool.creer_evenement_calendrier_except e) = true)
  /\ (forall event_id e,
         has_error_marker
           (CalendarTool.supprimer_evenement_calendrier_except event_id e)
         = true)
  /\ (forall event_id e,
         CalendarTool.mettre_a_jour_evenement_calendrier_except event_id e
         = if is_ValueError e then str_exn e
           else "Erreur lors de la mise à jour de l'événement "
                +:+ event_id +:+ ": " +:+ str_exn e)
  /\ (forall event_id e,
         is_ValueError e = false ->
         has_error_marker
           (CalendarTool.mettre_a_jour_evenement_calendrier_except event_id e)
         = true)
  /\ (forall e, YouTubeTool.success
                  (YouTubeTool.get_video_transcript_except e) = false).
Proof.
  repeat split; intros; try (destruct e; reflexivity).
  destruct e; first [reflexivity | discriminate].
Qed.
End boundary.

(** C9, as the code has it.  No tool lets an exception through: each one
    returns, whatever its arguments and whatever the outside answers.  A
    tool returns what its [try] block returns, and when the block raises
    it returns the text of the [except] clause, which begins with
    [Erreur]; the transcript tool returns a response with
    [success = False].  The one exception is the calendar update tool,
    which returns the bare message of a [ValueError] (the not-found
    message of the core).  A failure that the e-mail client has already
    absorbed is no failure at the boundary: an empty retrieval, whatever
    its cause, is reported as no e-mail found, and a failed submission
    as [Échec de l'envoi de l'email]. *)
Theorem tools_return_and_convert_failures :
  forall (E : Type) (Env : Environment E) (Lib : PyLib) (cfg : settings)
         (youtube : YouTubeCore.YouTubeCore),
    (forall phone_number message account_id,
        never_raises
          (CommunicationTool.envoyer_message_whatsapp cfg phone_number message
                                                      account_id)
        /\ ((exists text,
                CommunicationTool.envoyer_message_whatsapp cfg phone_number
                                                           message account_id
                = ret text
                /\ has_error_marker text = true)
            \/ converts
                 (CommunicationTool.envoyer_message_whatsapp cfg phone_number
                                                             message account_id)
                 (CommunicationTool.envoyer_message_whatsapp_try cfg
                    (CommunicationCore.format_phone_number phone_number)
                    message)
                 CommunicationTool.envoyer_message_whatsapp_except))
    /\ (forall chat_id message,
           never_raises
             (CommunicationTool.repondre_chat_whatsapp cfg chat_id message)
           /\ ((exists text,
                   CommunicationTool.repondre_chat_whatsapp cfg chat_id message
                   = ret text
                   /\ has_error_marker text = true)
               \/ converts
                    (CommunicationTool.repondre_chat_whatsapp cfg chat_id
                                                              message)
                    (CommunicationTool.repondre_chat_whatsapp_try cfg chat_id
                                                                  message)
                    CommunicationTool.repondre_chat_whatsapp_except))
    /\ (forall to subject body cc bcc attachments,
           never_raises
             (CommunicationTool.envoyer_email cfg to subject body cc bcc
                                              attachments)
           /\ ((exists text,
                   CommunicationTool.envoyer_email cfg to subject body cc bcc
                                                   attachments
                   = ret text
                   /\ has_error_marker text = true)
               \/ converts
                    (CommunicationTool.envoyer_email cfg to subject body cc
                                                     bcc attachments)
                    (CommunicationTool.envoyer_email_try cfg to subject body
                                                         cc bcc attachments)
                    CommunicationTool.envoyer_email_except))
    /\ (forall folder limit unread_only search_query,
           never_raises
             (CommunicationTool.recuperer_emails cfg folder limit unread_only
                                                 search_query)
           /\ converts
                (CommunicationTool.recuperer_emails cfg folder limit
                                                    unread_only search_query)
                (CommunicationTool.recuperer_emails_try cfg folder limit
                                                        unread_only
                                                        search_query)
                CommunicationTool.recuperer_emails_except)
    /\ (forall count calendar_id,
           never_raises
             (CalendarTool.lister_evenements_calendrier cfg count calendar_id)
           /\ converts
                (CalendarTool.lister_evenements_calendrier cfg count
                                                           calendar_id)
                (CalendarTool.lister_evenements_calendrier_try cfg count
                                                               calendar_id)
                CalendarTool.lister_evenements_calendrier_except)
    /\ (forall summary start_time end_time description location attendees
               calendar_id,
           never_raises
             (CalendarTool.creer_evenement_calendrier cfg summary start_time
                end_time description location attendees calendar_id)
           /\ converts
                (CalendarTool.creer_evenement_calendrier cfg summary
                   start_time end_time description location attendees
                   calendar_id)
                (CalendarTool.creer_evenement_calendrier_try cfg summary
                   start_time end_time description location attendees
                   calendar_id)
                CalendarTool.creer_evenement_calendrier_except)
    /\ (forall event_id calendar_id summary start_time end_time description
               location attendees,
           never_raises
             (CalendarTool.mettre_a_jour_evenement_calendrier cfg event_id
                calendar_id summary start_time end_time description location
                attendees)
           /\ (CalendarTool.mettre_a_jour_evenement_calendrier cfg event_id
                 calendar_id summary start_time end_time description location
                 attendees
               = ret "Aucune information de mise à jour fournie."
               \/ converts
                    (CalendarTool.mettre_a_jour_evenement_calendrier cfg
                       event_id calendar_id summary start_time end_time
                       description location attendees)
                    (CalendarTool.mettre_a_jour_evenement_calendrier_try cfg
                       event_id calendar_id
                       (CalendarTool.given_updates summary start_time end_time
                          description location attendees))
                    (CalendarTool.mettre_a_jour_evenement_calendrier_except
                       event_id)))
    /\ (forall event_id calendar_id,
           never_raises
             (CalendarTool.supprimer_evenement_calendrier cfg event_id
                                                          calendar_id)
           /\ converts
                (CalendarTool.supprimer_evenement_calendrier cfg event_id
                                                             calendar_id)
                (CalendarTool.supprimer_evenement_calendrier_try cfg event_id
                                                                 calendar_id)
                (CalendarTool.supprimer_evenement_calendrier_except event_id))
    /\ (forall request_url,
           never_raises (YouTubeTool.get_video_transcript youtube request_url)
           /\ converts
                (YouTubeTool.get_video_transcript youtube request_url)
                (YouTubeTool.get_video_transcript_try youtube request_url)
                YouTubeTool.get_video_transcript_except)
    /\ (forall e, has_error_marker
                    (CommunicationTool.envoyer_message_whatsapp_except e)
                  = true)
    /\ (forall e, has_error_marker
                    (CommunicationTool.repondre_chat_whatsapp_except e) = true)
    /\ (forall e, has_error_marker
                    (CommunicationTool.envoyer_email_except e) = true)
    /\ (forall e, has_error_marker
                    (CommunicationTool.recuperer_emails_except e) = true)
    /\ (forall e, has_error_marker
                    (CalendarTool.lister_evenements_calendrier_except e) = true)
    /\ (forall e, has_error_marker
                    (CalendarTool.creer_evenement_calendrier_except e) = true)
    /\ (forall event_id e,
           has_error_marker
             (CalendarTool.supprimer_evenement_calendrier_except event_id e)
           = true)
    /\ (forall event_id e,
           CalendarTool.mettre_a_jour_evenement_calendrier_except event_id e
           = if is_ValueError e then str_exn e
             else "Erreur lors de la mise à jour de l'événement "
                  +:+ event_id +:+ ": " +:+ str_exn e)
    /\ (forall event_id e,
           is_ValueError e = false ->
           has_error_marker
             (CalendarTool.mettre_a_jour_evenement_calendrier_except event_id e)
           = true)
    /\ (forall e, YouTubeTool.success
                    (YouTubeTool.get_video_transcript_except e) = false)
    /\ (forall client folder limit unread_only search_query s s' t,
           CommunicationCore.get_email_client cfg = Return client ->
           CommunicationCore.retrieve_emails client folder limit unread_only
                                             search_query s
           = (Return [], s', t) ->
           CommunicationTool.recuperer_emails cfg folder limit unread_only
                                              search_query s
           = (Return ("Aucun email trouvé dans le dossier '" +:+ folder
                      +:+ "' avec les critères spécifiés."), s', t))
    /\ (forall client to subject body cc bcc attachments error s s' t,
           CommunicationCore.get_email_client cfg = Return client ->
           to <> [] -> subject <> EmptyString -> body <> EmptyString ->
           CommunicationCore.send_email client to subject body cc bcc
                                        attachments s
           = (Return (CommunicationCore.NotSent error), s', t) ->
           CommunicationTool.envoyer_email cfg to subject body cc bcc
                                           attachments s
           = (Return ("Échec de l'envoi de l'email: " +:+ error), s', t)).
Proof.
  intros E Env Lib cfg youtube.
  split; [exact (envoyer_message_whatsapp_boundary cfg)|].
  split; [exact (repondre_chat_whatsapp_boundary cfg)|].
  split; [exact (envoyer_email_boundary cfg)|].
  split; [intros; split;
          [apply try_except_never_raises|apply try_except_converts]|].
  split; [intros; split;
          [apply try_except_never_raises|apply try_except_converts]|].
  split; [intros; split;
          [apply try_except_never_raises|apply try_except_converts]|].
  split; [exact (mettre_a_jour_evenement_calendrier_boundary cfg)|].
  split; [intros; split;
          [apply try_except_never_raises|apply try_except_converts]|].
  split; [intros; split;
          [apply try_except_never_raises|apply try_except_converts]|].
  destruct (@except_clauses_mark_errors)
    as (M1 & M2 & M3 & M4 & M5 & M6 & M7 & M8 & M9 & M10).
  repeat (split; [assumption|]).
  split.
  - intros client folder limit unread_only search_query s s' t Hclient Hrun.
    unfold CommunicationTool.recuperer_emails, try_except,
      CommunicationTool.recuperer_emails_try, bind, lift_result, ret.
    rewrite Hclient, Hrun. simpl. now rewrite app_nil_r.
  - intros client to subject body cc bcc attachments error s s' t
           Hclient Hto Hsubject Hbody Hrun.
    unfold CommunicationTool.envoyer_email.
    destruct to; [congruence|].
    destruct subject; [congruence|]. destruct body; [congruence|].
    cbn [Str.nonempty negb orb].
    unfold try_except, CommunicationTool.envoyer_email_try, bind,
      lift_result, ret.
    rewrite Hclient, Hrun. simpl. now rewrite app_nil_r.
Qed.

Lemma tools_return_and_convert_failures_witness :
  CommunicationTool.recuperer_emails Fixture.config "INBOX" 10 false None
    Fixture.mailbox_down
  = (Return ("Aucun email trouvé dans le dossier '" +:+ "INBOX"
             +:+ "' avec les critères spécifiés."),
     Fixture.mailbox_down,
     [EvImap (ImapConnect "imap.example.org" 993)])
  /\ has_error_marker
       (CalendarTool.mettre_a_jour_evenement_calendrier_except "e1"
          (HttpError 500 "Backend Error"))
     = true.
Proof.
  destruct (tools_return_and_convert_failures
              Fixture.tables Fixture.tables_environment Fixture.plain_pylib
              Fixture.config {| YouTubeCore.api_key := "key" |})
    as (_ & _ & _ & _ & _ & _ & _ & _ & _ & _ & _ & _ & _ & _ & _ & _ & _
        & Hmarked & _ & Hnone & _).
  split.
  - apply (Hnone Fixture.client "INBOX" 10 false None Fixture.mailbox_down);
      vm_compute; reflexivity.
  - apply Hmarked. reflexivity.
Defined.

(** * Further properties of the code *)

(** ** What the retry wrappers do for any wrapped function *)

(** X1.  Whatever the wrapped function does, a decorated call invokes it
    at least once and at most [max_retries + 1] times (once for a negative
    [max_retries]), and sleeps exactly once between two consecutive
    invocations: the number of invocations is the number of sleeps plus
    one, and there are at most [max_retries] sleeps.  This holds for the
    wrapper of communication/core.py and for that of calendar/core.py. *)
Theorem with_retry_effort_is_bounded :
  forall (E A : Type) (max_retries : Z) (delay : Q) (func : M E A) (s : E),
    let relay := CommunicationCore.wrapper_run max_retries delay func s in
    let provider := CalendarCore.wrapper_run max_retries delay func s in
    (invocations (snd relay) = S (length (slept (snd relay)))
     /\ Z.of_nat (length (slept (snd relay))) <= Z.max 0 max_retries)
    /\ (invocations (snd provider) = S (length (slept (snd provider)))
        /\ Z.of_nat (length (slept (snd provider))) <= Z.max 0 max_retries).
Proof.
  intros E A max_retries delay func s relay provider. split.
  - destruct (communication_loop_effort max_retries delay func (started s))
      as (k & Hi & Hs & Hk & _).
    fold (CommunicationCore.wrapper_run max_retries delay func s) in Hi, Hs.
    fold relay in Hi, Hs. simpl in *. rewrite Hi, Hs. lia.
  - destruct (calendar_loop_effort max_retries delay func (started s))
      as (k & Hi & Hs & Hk & _).
    fold (CalendarCore.wrapper_run max_retries delay func s) in Hi, Hs.
    fold provider in Hi, Hs. simpl in *. rewrite Hi, Hs. lia.
Qed.

(** X2.  A decorated call never invents its outcome.  When it returns
    [v], the last invocation of the wrapped function returned [v]; when it
    raises [e], the last invocation raised [e], or raised something else
    and [e] is one of the two exceptions the wrapper's own statements can
    raise ([time.sleep] on a negative duration; [e.response.status_code]
    on an HTTP error without a response, in communication/core.py).  The
    state of the world it leaves is the one that last invocation left. *)
Theorem with_retry_outcome_is_last_call :
  forall (E A : Type) (max_retries : Z) (delay : Q) (func : M E A) (s : E),
    (forall v a',
        CommunicationCore.wrapper_run max_retries delay func s
        = (Return v, a') ->
        exists s0 t, func s0 = (Return v, env a', t))
    /\ (forall e a',
           CommunicationCore.wrapper_run max_retries delay func s
           = (Raise e, a') ->
           exists s0 e0 t,
             func s0 = (Raise e0, env a', t)
             /\ (e0 = e
                 \/ e = ValueError "sleep length must be non-negative"
                 \/ e = AttributeError
                          "'NoneType' object has no attribute 'status_code'"))
    /\ (forall v a',
           CalendarCore.wrapper_run max_retries delay func s
           = (Return v, a') ->
           exists s0 t, func s0 = (Return v, env a', t))
    /\ (forall e a',
           CalendarCore.wrapper_run max_retries delay func s
           = (Raise e, a') ->
           exists s0 e0 t,
             func s0 = (Raise e0, env a', t)
             /\ (e0 = e
                 \/ e = ValueError "sleep length must be non-negative"
                 \/ e = AttributeError
                          "'NoneType' object has no attribute 'status_code'")).
Proof.
  intros E A max_retries delay func s.
  pose proof (communication_loop_effort max_retries delay func (started s))
    as (_ & _ & _ & _ & Hc).
  pose proof (calendar_loop_effort max_retries delay func (started s))
    as (_ & _ & _ & _ & Hk).
  fold (CommunicationCore.wrapper_run max_retries delay func s) in Hc.
  fold (CalendarCore.wrapper_run max_retries delay func s) in Hk.
  repeat split; intros x a' Hrun;
    [rewrite Hrun in Hc; destruct Hc as (s0 & r0 & t & Hf & Hr)
    |rewrite Hrun in Hc; destruct Hc as (s0 & r0 & t & Hf & Hr)
    |rewrite Hrun in Hk; destruct Hk as (s0 & r0 & t & Hf & Hr)
    |rewrite Hrun in Hk; destruct Hk as (s0 & r0 & t & Hf & Hr)];
    simpl in *.
  - subst r0. eauto.
  - destruct Hr as [->|(e0 & -> & He)];
      [exists s0, x, t; split; [exact Hf|now left]
      |exists s0, e0, t; split; [exact Hf|right; exact He]].
  - subst r0. eauto.
  - destruct Hr as [->|(e0 & -> & He)];
      [exists s0, x, t; split; [exact Hf|now left]
      |exists s0, e0, t; split; [exact Hf|right; exact He]].
Qed.

Lemma with_retry_outcome_is_last_call_witness :
  exists s0 t,
    replay 0 s0 = (Return 7, env (Attempt 1 2 [2%Q] [] [EvSleep 2]), t).
Proof.
  apply (proj1 (with_retry_outcome_is_last_call (list (result Z)) Z 2 2
                  (replay 0) [Raise (Timeout "timed out"); Return 7])).
  vm_compute. reflexivity.
Defined.

(** ** Telephone numbers *)

Lemma filter_isdigit_idempotent s :
  Str.filter Str.isdigit (Str.filter Str.isdigit s) = Str.filter Str.isdigit s.
Proof.
  induction s as [|c s IH]; simpl; [reflexivity|].
  destruct (Str.isdigit c) eqn:Hc; simpl; [rewrite Hc, IH|]; auto.
Qed.

Lemma filter_all_digits s :
  Forall (fun c => Str.isdigit c = true)
         (list_ascii_of_string (Str.filter Str.isdigit s)).
Proof.
  induction s as [|c s IH]; simpl; [constructor|].
  destruct (Str.isdigit c) eqn:Hc; simpl; [constructor|]; auto.
Qed.

Lemma drop_all_digits n : forall s,
  Forall (fun c => Str.isdigit c = true) (list_ascii_of_string s) ->
  Forall (fun c => Str.isdigit c = true) (list_ascii_of_string (Str.drop n s)).
Proof.
  induction n as [|n IH]; intros [|c s] Hs; simpl; auto.
  apply IH. now inversion Hs.
Qed.

Lemma str_filter_length keep s :
  (String.length (Str.filter keep s) <= String.length s)%nat.
Proof.
  induction s as [|c s IH]; simpl; [lia|].
  destruct (keep c); simpl; lia.
Qed.

Lemma str_drop_length n : forall s,
  (String.length (Str.drop n s) <= String.length s)%nat.
Proof.
  induction n as [|n IH]; intros [|c s]; simpl; try lia.
  specialize (IH s). lia.
Qed.

(** X3.  On an argument of ASCII characters, where [str.isdigit] holds of
    the ten characters 0 to 9 and of no other, [format_phone_number] keeps
    the decimal digits of its argument in their order and drops one
    leading "00" of them, and nothing else matters: the result consists of
    digits only, is no longer than the digit string, and is the same for
    any two arguments with the same digits (spaces, punctuation, a plus
    sign and letters are all ignored).  An argument with other characters
    is left out: Python counts digits of other scripts and superscripts as
    digits too. *)
Theorem format_phone_number_keeps_digits_only :
  forall phone_number : string,
    Str.isascii phone_number = true ->
    let digits := Str.filter Str.isdigit phone_number in
    CommunicationCore.format_phone_number phone_number
    = (if Str.startswith digits "00" then Str.drop 2 digits else digits)
    /\ Forall (fun c => Str.isdigit c = true)
         (list_ascii_of_string
            (CommunicationCore.format_phone_number phone_number))
    /\ (String.length (CommunicationCore.format_phone_number phone_number)
        <= String.length digits)%nat
    /\ CommunicationCore.format_phone_number digits
       = CommunicationCore.format_phone_number phone_number.
Proof.
  intros phone_number _ digits. subst digits.
  rewrite !format_phone_number_digits. cbv zeta.
  rewrite filter_isdigit_idempotent.
  repeat split.
  - destruct (Str.startswith _ "00");
      [apply drop_all_digits|]; apply filter_all_digits.
  - destruct (Str.startswith _ "00"); [apply str_drop_length|lia].
Qed.

Lemma format_phone_number_keeps_digits_only_witness :
  CommunicationCore.format_phone_number "0033 (0)6 12-34"
  = Str.drop 2 "0033061234"%string
  /\ Forall (fun c => Str.isdigit c = true)
       (list_ascii_of_string
          (CommunicationCore.format_phone_number "0033 (0)6 12-34"))
  /\ (String.length (CommunicationCore.format_phone_number "0033 (0)6 12-34")
      <= String.length "0033061234")%nat
  /\ CommunicationCore.format_phone_number "0033061234"
     = CommunicationCore.format_phone_number "0033 (0)6 12-34".
Proof.
  exact (format_phone_number_keeps_digits_only "0033 (0)6 12-34" eq_refl).
Defined.

Lemma short_phone_number_is_refused phone_number :
  (String.length (Str.filter Str.isdigit phone_number) < 8)%nat ->
  negb (Str.nonempty (CommunicationCore.format_phone_number phone_number))
  || (String.length (CommunicationCore.format_phone_number phone_number) <? 8)%nat
  = true.
Proof.
  intros Hlen. rewrite format_phone_number_digits. cbv zeta.
  apply orb_true_iff. right. apply Nat.ltb_lt.
  destruct (Str.startswith _ "00"); [|exact Hlen].
  eapply Nat.le_lt_trans; [apply str_drop_length|exact Hlen].
Qed.

(** X4.  [envoyer_message_whatsapp] refuses, with a text that starts with
    "Erreur" and before any network call, a call without message, and a
    telephone number of ASCII characters with fewer than eight decimal
    digits, whatever else the number holds. *)
Theorem envoyer_message_whatsapp_refuses_short_numbers :
  forall (E : Type) (Env : Environment E) (Lib : PyLib) (cfg : settings)
         (phone_number message : string) (account_id : option string) (s : E),
    (Str.isascii phone_number = true
     /\ (String.length (Str.filter Str.isdigit phone_number) < 8)%nat)
    \/ message = EmptyString ->
    exists text,
      CommunicationTool.envoyer_message_whatsapp cfg phone_number message
                                                 account_id s
      = (Return text, s, [])
      /\ has_error_marker text = true.
Proof.
  intros E Env Lib cfg phone_number message account_id s Hbad.
  unfold CommunicationTool.envoyer_message_whatsapp.
  destruct (negb (Str.nonempty (whatsapp_account_id cfg)) && _);
    [eexists; split; [reflexivity|reflexivity]|].
  destruct (negb (Str.nonempty phone_number) || negb (Str.nonempty message))
    eqn:Hreq; [eexists; split; [reflexivity|reflexivity]|].
  destruct Hbad as [[_ Hshort]| ->];
    [|now destruct phone_number].
  cbv zeta. rewrite (short_phone_number_is_refused phone_number Hshort).
  eexists; split; [reflexivity|reflexivity].
Qed.

Lemma envoyer_message_whatsapp_refuses_short_numbers_witness :
  exists text,
    CommunicationTool.envoyer_message_whatsapp Fixture.config
      "+33 (0)6 12" "Bonjour" None Fixture.agreeable
    = (Return text, Fixture.agreeable, [])
    /\ has_error_marker text = true.
Proof.
  apply (envoyer_message_whatsapp_refuses_short_numbers
           Fixture.tables _ _ Fixture.config "+33 (0)6 12" "Bonjour" None
           Fixture.agreeable).
  left. split; [reflexivity|vm_compute; lia].
Defined.

(** ** The relay client *)

Section relay_facts.
Context {E : Type} `{Environment E}.
Variable cfg : settings.
Variable self : CommunicationCore.UniPileWhatsAppClient.

Lemma get_contact_id_func_answers phone s r s1 :
  let url := CommunicationCore.base_url self +:+ "/contacts" in
  let call :=
    HttpGet url [("account_id", whatsapp_account_id cfg); ("msisdn", phone)] in
  requests_api call s = (r, s1) ->
  exists v,
    CommunicationCore.get_contact_id_func cfg self phone s
    = (Return v, s1, [EvHttp call])
    /\ (v = PStr (phone +:+ "@c.us")
        \/ exists resp body data entry,
             r = Return resp
             /\ CommunicationCore.raise_for_status resp = Return tt
             /\ json resp = Some body
             /\ Py.get body "data" (PList []) = Return data
             /\ Py.first data = Return entry
             /\ Py.getitem entry "id" = Return v)
    /\ (forall e, r = Raise e -> v = PStr (phone +:+ "@c.us"))
    /\ (forall resp,
           r = Return resp ->
           400 <= status_code resp < 600 \/ json resp = None ->
           v = PStr (phone +:+ "@c.us")).
Proof.
  intros url call Hcall.
  unfold CommunicationCore.get_contact_id_func, try_except, bind, requests,
    perform, lift_result, ret.
  fold url. fold call. rewrite Hcall.
  destruct r as [resp|e].
  - destruct (CommunicationCore.raise_for_status resp) as [[]|e] eqn:Hok;
      simpl.
    2:{ eexists; repeat split; eauto. }
    unfold CommunicationCore.json_of.
    destruct (json resp) as [body|] eqn:Hjson; simpl.
    2:{ eexists; repeat split; eauto. }
    destruct (Py.get body "data" (PList [])) as [data|e] eqn:Hdata; simpl.
    2:{ eexists; repeat split; eauto. }
    destruct (Py.truthy data) eqn:Htruthy; simpl.
    2:{ eexists; repeat split; eauto. }
    destruct (Py.first data) as [entry|e] eqn:Hfirst; simpl.
    2:{ eexists; repeat split; eauto. }
    destruct (Py.getitem entry "id") as [contact_id|e] eqn:Hid; simpl.
    2:{ eexists; repeat split; eauto. }
    exists contact_id. repeat split.
    + right. exists resp, body, data, entry. repeat split; auto.
    + discriminate.
    + intros resp' Heq Hbad; inversion Heq; subst resp'.
      destruct Hbad as [Hbad|Hnone].
      * unfold CommunicationCore.raise_for_status in Hok.
        destruct ((400 <=? status_code resp) && (status_code resp <? 500))
          eqn:Hclient; [discriminate|].
        destruct ((500 <=? status_code resp) && (status_code resp <? 600))
          eqn:Hserver; [discriminate|].
        apply andb_false_iff in Hclient, Hserver. lia.
      * congruence.
  - simpl. eexists; repeat split; eauto.
Qed.
End relay_facts.



Section send_message_facts.
Context {E : Type} `{Environment E}.
Variable cfg : settings.
Variable self : CommunicationCore.UniPileWhatsAppClient.
Variables phone text : string.

(** One invocation of the body of [send_message]: a contact lookup, then
    the POST. *)
Lemma send_message_func_calls s :
  let lookup :=
    HttpGet (CommunicationCore.base_url self +:+ "/contacts")
            [("account_id", whatsapp_account_id cfg); ("msisdn", phone)] in
  let url := CommunicationCore.base_url self +:+ "/chats" in
  exists whatsapp_id,
    let s1 := snd (requests_api lookup s) in
    let payload :=
      PDict [("account_id", PStr (whatsapp_account_id cfg));
             ("text", PStr text);
             ("attendees_ids", PList [whatsapp_id])] in
    CommunicationCore.send_message_func cfg self phone text s
    = match requests_api (HttpPost url payload) s1 with
      | (Return resp, s2) =>
          (let! _ := CommunicationCore.raise_for_status resp in
           CommunicationCore.json_of resp,
           s2, [EvHttp lookup; EvHttp (HttpPost url payload)])
      | (Raise e, s2) =>
          (Raise e, s2, [EvHttp lookup; EvHttp (HttpPost url payload)])
      end.
Proof.
  intros lookup url.
  destruct (requests_api lookup s) as [r s1] eqn:Hlookup.
  destruct (get_contact_id_func_answers cfg self phone s r s1 Hlookup)
    as (whatsapp_id & Hfunc & _).
  exists whatsapp_id. simpl snd.
  unfold CommunicationCore.send_message_func, CommunicationCore.get_contact_id.
  unfold bind at 1.
  rewrite (communication_with_retry_return 3 1 _ _ _ _ _ Hfunc).
  unfold bind, requests, perform, lift_result. fold url.
  destruct (requests_api (HttpPost url _) s1) as [[resp|e] s2]; simpl;
    [|reflexivity].
  now destruct (CommunicationCore.raise_for_status resp) as [[]|e],
               (CommunicationCore.json_of resp).
Qed.

(** The same, for a relay that answers the POST with the status code
    [status] of an error, the reason phrase [phrase] and the address
    [address] as long as it is in a state of [outage]. *)
Lemma send_message_func_refused (outage : E -> Prop) status phrase address s :
  let lookup :=
    HttpGet (CommunicationCore.base_url self +:+ "/contacts")
            [("account_id", whatsapp_account_id cfg); ("msisdn", phone)] in
  let chats := CommunicationCore.base_url self +:+ "/chats" in
  400 <= status < 600 ->
  (forall s, outage s -> outage (snd (requests_api lookup s))) ->
  (forall s payload,
      outage s ->
      exists resp s',
        requests_api (HttpPost chats payload) s = (Return resp, s')
        /\ status_code resp = status /\ reason resp = phrase
        /\ url resp = address /\ outage s') ->
  outage s ->
  exists payload s',
    CommunicationCore.send_message_func cfg self phone text s
    = (Raise (HTTPError (Some status)
                (pretty status
                 +:+ (if status <? 500 then " Client Error: "
                      else " Server Error: ")
                 +:+ phrase +:+ " for url: " +:+ address)),
       s', [EvHttp lookup; EvHttp (HttpPost chats payload)])
    /\ outage s'.
Proof.
  intros lookup chats Hstatus Hlookup Hpost Hs.
  destruct (send_message_func_calls s) as (whatsapp_id & Hfunc).
  cbv zeta in Hfunc. fold chats lookup in Hfunc.
  match type of Hfunc with
  | context [HttpPost chats ?p] =>
      destruct (Hpost (snd (requests_api lookup s)) p (Hlookup s Hs))
        as (resp & s2 & Hcall & Hcode & Hphrase & Haddress & Hs2);
      exists p, s2; rewrite Hfunc, Hcall
  end.
  unfold CommunicationCore.raise_for_status.
  rewrite Hcode, Hphrase, Haddress.
  split; [|exact Hs2].
  destruct (status <? 500) eqn:Hclass.
  - replace ((400 <=? status) && true) with true by lia. reflexivity.
  - replace ((400 <=? status) && false) with false by lia.
    replace ((500 <=? status) && (status <? 600)) with true by lia.
    reflexivity.
Qed.
End send_message_facts.

(** X6.  Every attempt of [send_message] runs the contact lookup again
    before it posts.  Against a relay that, for as long as its outage
    lasts, answers the POST on [/chats] with an error status, the call
    ends with the HTTP error of that status, whose text is the one of
    [raise_for_status]: the status, "Client Error" below 500 and "Server
    Error" from 500 on, the reason phrase and the address of the answer.
    It ends after one lookup and one POST when the status is 400, 401, 403
    or 422, and otherwise after four lookups and four POSTs, with sleeps
    of 1, 2 and 4 seconds between the attempts. *)
Theorem send_message_retry_repeats_lookup :
  forall (E : Type) (Env : Environment E) (cfg : settings)
         (self : CommunicationCore.UniPileWhatsAppClient)
         (phone text : string) (status : Z) (phrase address : string)
         (outage : E -> Prop),
    let lookup :=
      HttpGet (CommunicationCore.base_url self +:+ "/contacts")
              [("account_id", whatsapp_account_id cfg); ("msisdn", phone)] in
    let chats := CommunicationCore.base_url self +:+ "/chats" in
    let failure :=
      HTTPError (Some status)
        (pretty status
         +:+ (if status <? 500 then " Client Error: " else " Server Error: ")
         +:+ phrase +:+ " for url: " +:+ address) in
    400 <= status < 600 ->
    (forall s, outage s -> outage (snd (requests_api lookup s))) ->
    (forall s payload,
        outage s ->
        exists resp s',
          requests_api (HttpPost chats payload) s = (Return resp, s')
          /\ status_code resp = status /\ reason resp = phrase
          /\ url resp = address /\ outage s') ->
    forall s : E,
      outage s ->
      (status ∈ [400; 401; 403; 422] ->
       exists p s',
         CommunicationCore.send_message cfg self phone text s
         = (Raise failure, s', [EvHttp lookup; EvHttp (HttpPost chats p)]))
      /\
      (status ∉ [400; 401; 403; 422] ->
       exists p1 p2 p3 p4 s',
         CommunicationCore.send_message cfg self phone text s
         = (Raise failure, s',
            [EvHttp lookup; EvHttp (HttpPost chats p1); EvSleep 1;
             EvHttp lookup; EvHttp (HttpPost chats p2); EvSleep 2;
             EvHttp lookup; EvHttp (HttpPost chats p3); EvSleep 4;
             EvHttp lookup; EvHttp (HttpPost chats p4)])).
Proof.
  intros E Env cfg self phone text status phrase address outage lookup chats
         failure Hstatus Hlookup Hpost s Hs.
  assert (Hdelay : (0 <= 1)%Q) by (unfold Qle; simpl; lia).
  unfold CommunicationCore.send_message, CommunicationCore.with_retry,
    CommunicationCore.wrapper_run.
  destruct (send_message_func_refused cfg self phone text outage status
              phrase address s Hstatus Hlookup Hpost Hs)
    as (p1 & s1 & H1 & Hs1).
  fold chats failure in H1.
  split; intros Hcode.
  - exists p1, s1. rewrite communication_loop_unfold.
    unfold CommunicationCore.wrapper_round. simpl env. rewrite H1.
    unfold failure. rewrite bool_decide_eq_true_2 by exact Hcode.
    reflexivity.
  - assert (Hretry : RetryPolicy.communication_retryable failure)
      by exact Hcode.
    destruct (send_message_func_refused cfg self phone text outage status
                phrase address s1 Hstatus Hlookup Hpost Hs1)
      as (p2 & s2 & H2 & Hs2).
    destruct (send_message_func_refused cfg self phone text outage status
                phrase address s2 Hstatus Hlookup Hpost Hs2)
      as (p3 & s3 & H3 & Hs3).
    destruct (send_message_func_refused cfg self phone text outage status
                phrase address s3 Hstatus Hlookup Hpost Hs3)
      as (p4 & s4 & H4 & _).
    fold chats failure in H2, H3, H4.
    exists p1, p2, p3, p4, s4.
    rewrite communication_loop_unfold.
    erewrite communication_round_retry;
      [|exact Hdelay|simpl; exact H1|exact Hretry|simpl; lia].
    rewrite communication_loop_unfold.
    erewrite communication_round_retry;
      [|exact Hdelay|simpl; exact H2|exact Hretry|simpl; lia].
    rewrite communication_loop_unfold.
    erewrite communication_round_retry;
      [|exact Hdelay|simpl; exact H3|exact Hretry|simpl; lia].
    rewrite communication_loop_unfold.
    erewrite communication_round_exhausted;
      [|simpl; exact H4|exact Hretry|simpl; lia].
    reflexivity.
Qed.

Lemma send_message_retry_repeats_lookup_witness :
  let self := {| CommunicationCore.base_url := "https://api.example/api/v1";
                 CommunicationCore.api_key := "key" |} in
  let lookup :=
    EvHttp (HttpGet "https://api.example/api/v1/contacts"
              [("account_id", "acct"); ("msisdn", "33612345678")]) in
  exists p1 p2 p3 p4 s',
    CommunicationCore.send_message Fixture.config self "33612345678" "Bonjour"
                                   Scenario.relay_unavailable
    = (Raise (HTTPError (Some 503)
                ("503 Server Error: Service Unavailable for url: "
                 +:+ "https://api.example/api/v1/chats")),
       s',
       [lookup; EvHttp (HttpPost "https://api.example/api/v1/chats" p1);
        EvSleep 1;
        lookup; EvHttp (HttpPost "https://api.example/api/v1/chats" p2);
        EvSleep 2;
        lookup; EvHttp (HttpPost "https://api.example/api/v1/chats" p3);
        EvSleep 4;
        lookup; EvHttp (HttpPost "https://api.example/api/v1/chats" p4)]).
Proof.
  intros self lookup.
  refine (proj2 (send_message_retry_repeats_lookup Fixture.tables _
                   Fixture.config self "33612345678" "Bonjour" 503
                   "Service Unavailable" "https://api.example/api/v1/chats"
                   (fun s => s = Scenario.relay_unavailable)
                   _ _ _ Scenario.relay_unavailable eq_refl) _).
  - lia.
  - intros s ->. reflexivity.
  - intros s payload ->.
    exists (HttpResponse 503 "Service Unavailable"
              "https://api.example/api/v1/chats" None),
           Scenario.relay_unavailable.
    repeat split.
  - by_evaluation.
Defined.

(** ** Configuration errors at the tool boundary *)

Lemma get_whatsapp_client_incomplete cfg :
  api_keys_unipile cfg = EmptyString \/ whatsapp_unipile_dsn cfg = EmptyString ->
  CommunicationCore.get_whatsapp_client cfg
  = Raise (ValueError "Configuration Unipile incomplète.").
Proof.
  unfold CommunicationCore.get_whatsapp_client.
  intros [->| ->]; [reflexivity|].
  now destruct (api_keys_unipile cfg).
Qed.

Lemma get_email_client_incomplete cfg :
  email_username cfg = EmptyString \/ email_password cfg = EmptyString
  \/ email_smtp_host cfg = EmptyString \/ email_smtp_port cfg = 0
  \/ email_imap_host cfg = EmptyString \/ email_imap_port cfg = 0 ->
  CommunicationCore.get_email_client cfg
  = Raise (ValueError "Configuration email (SMTP/IMAP) incomplète.").
Proof.
  unfold CommunicationCore.get_email_client.
  intros [->|[->|[->|[->|[->| ->]]]]]; simpl;
    repeat match goal with
           | |- context [Str.nonempty ?s] => destruct (Str.nonempty s); simpl
           | |- context [?n =? 0] => destruct (n =? 0); simpl
           end; reflexivity.
Qed.

(** X7.  Without an API key or without a DSN for the relay, both WhatsApp
    tools return, whatever their arguments, a text that starts with
    "Erreur" without any network call and without retry; for arguments
    that pass the tool's own checks the text is the configuration error of
    [get_whatsapp_client]. *)
Theorem whatsapp_tools_need_configuration :
  forall (E : Type) (Env : Environment E) (Lib : PyLib) (cfg : settings)
         (phone_number chat_id message : string) (account_id : option string)
         (s : E),
    api_keys_unipile cfg = EmptyString
    \/ whatsapp_unipile_dsn cfg = EmptyString ->
    (exists text,
        CommunicationTool.envoyer_message_whatsapp cfg phone_number message
                                                   account_id s
        = (Return text, s, [])
        /\ has_error_marker text = true)
    /\ (exists text,
           CommunicationTool.repondre_chat_whatsapp cfg chat_id message s
           = (Return text, s, [])
           /\ has_error_marker text = true)
    /\ (whatsapp_account_id cfg <> EmptyString ->
        chat_id <> EmptyString -> message <> EmptyString ->
        CommunicationTool.repondre_chat_whatsapp cfg chat_id message s
        = (Return
             "Erreur de configuration WhatsApp: Configuration Unipile incomplète.",
           s, [])).
Proof.
  intros E Env Lib cfg phone_number chat_id message account_id s Hcfg.
  pose proof (get_whatsapp_client_incomplete cfg Hcfg) as Hclient.
  repeat split.
  - unfold CommunicationTool.envoyer_message_whatsapp.
    repeat match goal with
           | |- context [if ?b then _ else _] =>
               destruct b; [eexists; split; reflexivity|]
           end.
    cbv zeta.
    repeat match goal with
           | |- context [if ?b then _ else _] =>
               destruct b; [eexists; split; reflexivity|]
           end.
    unfold CommunicationTool.envoyer_message_whatsapp_try, try_except, bind,
      lift_result.
    rewrite Hclient. eexists; split; reflexivity.
  - unfold CommunicationTool.repondre_chat_whatsapp.
    repeat match goal with
           | |- context [if ?b then _ else _] =>
               destruct b; [eexists; split; reflexivity|]
           end.
    unfold CommunicationTool.repondre_chat_whatsapp_try, try_except, bind,
      lift_result.
    rewrite Hclient. eexists; split; reflexivity.
  - intros Hacct Hchat Hmsg.
    unfold CommunicationTool.repondre_chat_whatsapp.
    destruct (whatsapp_account_id cfg); [contradiction|].
    destruct chat_id; [contradiction|]. destruct message; [contradiction|].
    simpl negb. cbn [orb].
    unfold CommunicationTool.repondre_chat_whatsapp_try, try_except, bind,
      lift_result.
    rewrite Hclient. reflexivity.
Qed.

Lemma whatsapp_tools_need_configuration_witness :
  let cfg := {|
    calendar_calendar_id := "primary"; calendar_timezone := "Europe/Paris";
    whatsapp_account_id := "acct"; whatsapp_unipile_dsn := "api.example";
    api_keys_unipile := EmptyString; api_keys_rapid_api := "key";
    email_username := "me@example.org"; email_password := "secret";
    email_smtp_host := "smtp.example.org"; email_smtp_port := 587;
    email_imap_host := "imap.example.org"; email_imap_port := 993;
    email_sender_name := None; email_use_tls := true |} in
  CommunicationTool.repondre_chat_whatsapp cfg "c1" "Bonjour" Fixture.agreeable
  = (Return
       "Erreur de configuration WhatsApp: Configuration Unipile incomplète.",
     Fixture.agreeable, []).
Proof.
  intros cfg.
  refine (proj2 (proj2 (whatsapp_tools_need_configuration Fixture.tables _ _
                          cfg "33612345678" "c1" "Bonjour" None
                          Fixture.agreeable _)) _ _ _);
    [left; reflexivity|discriminate..].
Defined.

(** X8.  When one of the six e-mail settings (user name, password, SMTP
    host and port, IMAP host and port; a port of 0 counts as missing) is
    not there, [recuperer_emails] returns the configuration error of
    [get_email_client] as a text, and so does [envoyer_email] for
    arguments that pass its own checks: no connection to a mail server is
    opened. *)
Theorem email_tools_need_configuration :
  forall (E : Type) (Env : Environment E) (Lib : PyLib) (cfg : settings)
         (folder : string) (limit : Z) (unread_only : bool)
         (search_query : option string)
         (to : list string) (subject body : string)
         (cc bcc attachments : option (list string)) (s : E),
    email_username cfg = EmptyString \/ email_password cfg = EmptyString
    \/ email_smtp_host cfg = EmptyString \/ email_smtp_port cfg = 0
    \/ email_imap_host cfg = EmptyString \/ email_imap_port cfg = 0 ->
    CommunicationTool.recuperer_emails cfg folder limit unread_only
                                       search_query s
    = (Return
         "Erreur de configuration Email: Configuration email (SMTP/IMAP) incomplète.",
       s, [])
    /\ (to <> [] -> subject <> EmptyString -> body <> EmptyString ->
        CommunicationTool.envoyer_email cfg to subject body cc bcc attachments s
        = (Return
             "Erreur de configuration Email: Configuration email (SMTP/IMAP) incomplète.",
           s, [])).
Proof.
  intros E Env Lib cfg folder limit unread_only search_query to subject body
         cc bcc attachments s Hcfg.
  pose proof (get_email_client_incomplete cfg Hcfg) as Hclient.
  split.
  - unfold CommunicationTool.recuperer_emails,
      CommunicationTool.recuperer_emails_try, try_except, bind, lift_result.
    rewrite Hclient. reflexivity.
  - intros Hto Hsubject Hbody.
    unfold CommunicationTool.envoyer_email.
    destruct to; [contradiction|].
    destruct subject; [contradiction|]. destruct body; [contradiction|].
    simpl negb. cbn [orb].
    unfold CommunicationTool.envoyer_email_try, try_except, bind, lift_result.
    rewrite Hclient. reflexivity.
Qed.

Lemma email_tools_need_configuration_witness :
  let cfg := {|
    calendar_calendar_id := "primary"; calendar_timezone := "Europe/Paris";
    whatsapp_account_id := "acct"; whatsapp_unipile_dsn := "api.example";
    api_keys_unipile := "key"; api_keys_rapid_api := "key";
    email_username := "me@example.org"; email_password := "secret";
    email_smtp_host := "smtp.example.org"; email_smtp_port := 0;
    email_imap_host := "imap.example.org"; email_imap_port := 993;
    email_sender_name := None; email_use_tls := true |} in
  CommunicationTool.recuperer_emails cfg "INBOX" 10 false None Fixture.agreeable
  = (Return
       "Erreur de configuration Email: Configuration email (SMTP/IMAP) incomplète.",
     Fixture.agreeable, []).
Proof.
  intros cfg.
  refine (proj1 (email_tools_need_configuration Fixture.tables _ _ cfg
                   "INBOX" 10 false None ["a@example.org"] "Rapport" "Bonjour"
                   None None None Fixture.agreeable _)).
  right; right; right; left. reflexivity.
Defined.

(** ** Transcripts and video identifiers *)

Lemma str_append_nil_r s : s +:+ EmptyString = s.
Proof.
  induction s as [|c s IH]; cbv [String.append]; [reflexivity|].
  fold String.append. now rewrite IH.
Qed.

Lemma str_append_assoc s1 s2 s3 : (s1 +:+ s2) +:+ s3 = s1 +:+ (s2 +:+ s3).
Proof.
  induction s1 as [|c s1 IH]; cbv [String.append]; [reflexivity|].
  fold String.append. now rewrite IH.
Qed.

Lemma str_append_cons c s1 s2 : String c s1 +:+ s2 = String c (s1 +:+ s2).
Proof. reflexivity. Qed.

(** A string in which the separator does not occur is not cut. *)
Lemma split_from_absent sep s : forall cur,
  Str.contains sep s = false ->
  Str.split_from sep 0 cur s = [cur +:+ s].
Proof.
  induction s as [|c s IH]; intros cur Hno.
  - cbn [Str.split_from]. now rewrite str_append_nil_r.
  - cbn [Str.contains] in Hno. apply orb_false_iff in Hno as [Hp Hno].
    cbn [Str.split_from]. rewrite Hp, (IH _ Hno), str_append_assoc.
    reflexivity.
Qed.

(** The first piece of a split starts with what had been read. *)
Lemma split_from_head sep s : forall skip cur,
  exists u l, Str.split_from sep skip cur s = (cur +:+ u) :: l.
Proof.
  induction s as [|c s IH]; intros skip cur; cbn [Str.split_from].
  - exists EmptyString, []. now rewrite str_append_nil_r.
  - destruct skip as [|n]; [|apply IH].
    destruct (String.prefix sep (String c s)).
    + exists EmptyString. rewrite str_append_nil_r. eauto.
    + destruct (IH 0%nat (cur +:+ String c EmptyString)) as (u & l & ->).
      exists (String c u), l. now rewrite str_append_assoc.
Qed.

(** The first piece of a split at a character ends before the first
    occurrence of that character. *)
Lemma split_from_char_first ch id rest : forall cur,
  Str.contains_char ch id = false ->
  exists l,
    Str.split_from (String ch EmptyString) 0 cur
                   (id +:+ String ch rest)
    = (cur +:+ id) :: l.
Proof.
  induction id as [|c id IH]; intros cur Hno.
  - rewrite str_append_nil_r. cbv [String.append]. cbn [Str.split_from String.prefix].
    destruct (Ascii.ascii_dec ch ch) as [_|Hne]; [|congruence].
    destruct rest; eauto.
  - cbn [Str.contains_char] in Hno. apply orb_false_iff in Hno as [Hc Hno].
    rewrite str_append_cons. cbn [Str.split_from String.prefix].
    destruct (Ascii.ascii_dec ch c) as [->|_].
    { now rewrite Ascii.eqb_refl in Hc. }
    destruct (IH (cur +:+ String c EmptyString) Hno) as (l & ->).
    exists l. now rewrite str_append_assoc.
Qed.

(** Up to the first ampersand that follows an identifier without "v=",
    a split at "v=" cuts nothing. *)
Lemma split_from_v_param id rest : forall cur,
  Str.contains "v=" id = false ->
  exists u l,
    Str.split_from "v=" 0 cur (id +:+ String "&" rest)
    = (cur +:+ id +:+ String "&" u) :: l.
Proof.
  induction id as [|c id IH]; intros cur Hno.
  - cbv [String.append]. fold String.append.
    cbn [Str.split_from String.prefix].
    destruct (Ascii.ascii_dec "v" "&") as [Heq|_]; [discriminate|].
    destruct (split_from_head "v=" rest 0 (cur +:+ "&")) as (u & l & ->).
    exists u, l. now rewrite str_append_assoc.
  - cbn [Str.contains] in Hno. apply orb_false_iff in Hno as [Hp Hno].
    rewrite str_append_cons. cbn [Str.split_from].
    assert (Hp' : String.prefix "v=" (String c (id +:+ String "&" rest))
                  = false).
    { cbn [String.prefix] in *.
      destruct (Ascii.ascii_dec "v" c) as [_|_]; [|reflexivity].
      destruct id as [|d id]; cbv [String.append]; fold String.append;
        cbn [String.prefix] in *.
      - now destruct (Ascii.ascii_dec "=" "&").
      - destruct (Ascii.ascii_dec "=" d); [|reflexivity].
        rewrite prefix_empty in Hp. discriminate. }
    rewrite Hp'.
    destruct (IH (cur +:+ String c EmptyString) Hno) as (u & l & ->).
    exists u, l. now rewrite !str_append_assoc.
Qed.

Lemma segment_texts_spec segments : forall texts,
  YouTubeUtils.segment_texts segments = Return texts
  <-> Forall2 (fun segment text =>
                 Py.getitem segment "text" = Return (PStr text))
              segments texts.
Proof.
  induction segments as [|segment segments IH]; intros texts; simpl.
  - split.
    + intros Heq; inversion Heq; constructor.
    + intros Hall; inversion Hall; reflexivity.
  - destruct (Py.getitem segment "text") as [text|e] eqn:Htext; simpl.
    2:{ split; [discriminate|]. intros Hall; inversion Hall; congruence. }
    destruct (YouTubeUtils.segment_texts segments) as [rest|e] eqn:Hrest;
      simpl.
    + destruct text;
        try (split; [discriminate|];
             intros Hall; inversion Hall; subst; congruence).
      split.
      * intros Heq; inversion Heq; subst. constructor; [exact Htext|].
        now apply IH.
      * intros Hall; inversion Hall as [|? t ? l Hhead Htail]; subst.
        apply IH in Htail. congruence.
    + split; [discriminate|].
      intros Hall; inversion Hall as [|? t ? l Hhead Htail]; subst.
      apply IH in Htail. congruence.
Qed.

(** X9.  [format_transcript] returns exactly when every segment of the
    list has a string under the key "text", and what it returns is those
    strings in order with one space between two of them (the empty string
    for no segment); [None] gives the empty string as well.  A segment
    without that key, or with a value that is not a string, makes it
    raise. *)
Theorem format_transcript_joins_texts :
  forall (segments : list pyval) (r : string),
    (YouTubeUtils.format_transcript (PList segments) = Return r
     <-> exists texts,
           Forall2 (fun segment text =>
                      Py.getitem segment "text" = Return (PStr text))
                   segments texts
           /\ r = Str.join " " texts)
    /\ YouTubeUtils.format_transcript PNone = Return EmptyString.
Proof.
  intros segments r. split; [|reflexivity].
  unfold YouTubeUtils.format_transcript.
  destruct segments as [|segment segments].
  - simpl. split.
    + intros Heq; inversion Heq. exists []. split; [constructor|reflexivity].
    + intros (texts & Hall & ->). inversion Hall. reflexivity.
  - cbn [Py.truthy negb Py.iter and_then].
    destruct (YouTubeUtils.segment_texts (segment :: segments))
      as [texts|e] eqn:Htexts; simpl.
    + split.
      * intros Heq; inversion Heq. exists texts. split; [|reflexivity].
        now apply segment_texts_spec.
      * intros (texts' & Hall & ->). apply segment_texts_spec in Hall.
        congruence.
    + split; [discriminate|].
      intros (texts' & Hall & ->). apply segment_texts_spec in Hall.
      congruence.
Qed.

(** X10.  Extraction undoes the construction of a URL.  For an identifier
    that contains neither "v=" nor "&", the watch URL of the identifier
    gives the identifier back, with or without further query parameters
    behind an ampersand; for an identifier that does not contain
    "youtu.be/", so does its short URL. *)
Theorem extract_video_id_round_trip :
  forall id : string,
    (Str.contains "v=" id = false ->
     Str.contains_char "&" id = false ->
     YouTubeUtils.extract_video_id ("https://www.youtube.com/watch?v=" +:+ id)
     = Return id
     /\ forall rest,
          YouTubeUtils.extract_video_id
            ("https://www.youtube.com/watch?v=" +:+ id +:+ "&" +:+ rest)
          = Return id)
    /\ (Str.contains "youtu.be/" id = false ->
        YouTubeUtils.extract_video_id ("https://youtu.be/" +:+ id)
        = Return id).
Proof.
  intros id. split.
  - intros Hv Hamp. split.
    + unfold YouTubeUtils.extract_video_id, Str.startswith, Str.split.
      cbv [String.append]. fold String.append. cbn.
      rewrite prefix_empty. cbn.
      destruct id as [|c id]; [reflexivity|].
      rewrite (split_from_absent "v=" _ _ Hv). cbn.
      unfold Str.split.
      rewrite (split_from_absent "&" (String c id)). 
      * reflexivity.
      * clear Hv. revert Hamp. generalize (String c id). intros s.
        induction s as [|d s IH]; [reflexivity|].
        cbn [Str.contains_char Str.contains String.prefix].
        intros Hno. apply orb_false_iff in Hno as [Hd Hno].
        rewrite (IH Hno).
        destruct (Ascii.ascii_dec "&" d) as [<-|_]; [discriminate|].
        reflexivity.
    + intros rest.
      unfold YouTubeUtils.extract_video_id, Str.startswith, Str.split.
      cbv [String.append]. fold String.append. cbn.
      rewrite prefix_empty. cbn.
      destruct (split_from_v_param id rest EmptyString Hv) as (u & l & ->).
      cbn [lookup list_lookup]. cbv [String.append]. fold String.append.
      destruct (split_from_char_first "&" id u EmptyString Hamp) as (l' & ->).
      reflexivity.
  - intros Hy.
    unfold YouTubeUtils.extract_video_id, Str.startswith, Str.split.
    cbv [String.append]. fold String.append. cbn.
    rewrite prefix_empty. cbn.
    destruct id as [|c id]; [reflexivity|].
    now rewrite (split_from_absent "youtu.be/" _ _ Hy).
Qed.

Lemma extract_video_id_round_trip_witness :
  YouTubeUtils.extract_video_id
    ("https://www.youtube.com/watch?v=" +:+ "dQw4w9WgXcQ" +:+ "&" +:+ "t=42&v=x")
  = Return "dQw4w9WgXcQ".
Proof.
  apply (proj1 (extract_video_id_round_trip "dQw4w9WgXcQ"));
    reflexivity.
Defined.

(** ** The transcript lookup *)

Section transcript_facts.
Context {E : Type} `{Environment E}.
Variable self : YouTubeCore.YouTubeCore.

Lemma _make_api_request_outcome endpoint params s r s1 :
  let call :=
    HttpGet ("https://youtube-v2.p.rapidapi.com/" +:+ endpoint) params in
  requests_api call s = (r, s1) ->
  YouTubeCore._make_api_request self endpoint params s
  = (match r with
     | Return response =>
         if negb (status_code response =? 200)
         then Raise (YouTubeAPIError
                       ("API request failed with status code: "
                        +:+ pretty (status_code response)))
         else match json response with
              | Some v => Return v
              | None =>
                  Raise (YouTubeAPIError
                           "API request failed: Expecting value")
              end
     | Raise e =>
         if is_RequestException e
         then Raise (YouTubeAPIError ("API request failed: " +:+ str_exn e))
         else Raise e
     end, s1, [EvHttp call]).
Proof.
  intros call Hcall.
  unfold YouTubeCore._make_api_request, try_except, bind, requests, perform,
    raise, ret.
  fold call. rewrite Hcall.
  destruct r as [response|e].
  - destruct (negb (status_code response =? 200)); [reflexivity|].
    now destruct (json response).
  - now destruct e.
Qed.

Lemma get_transcript_returns video_url s :
  exists text s' t,
    YouTubeCore.get_transcript self video_url s = (Return text, s', t).
Proof.
  unfold YouTubeCore.get_transcript, try_except.
  match goal with
  | |- context [match ?m s with _ => _ end] =>
      destruct (m s) as [[[text|e] s'] t]
  end; [eauto|].
  destruct e; simpl; eauto.
Qed.
End transcript_facts.

(** X11.  [get_transcript] never raises, and its text tells the outcome.
    The empty URL gives "Erreur: URL cannot be empty" without any request.
    Otherwise one GET on [video/subtitles] is made for the extracted
    identifier: a status other than 200 gives "Erreur: API request failed
    with status code: <status>", a request that raises a requests
    exception gives "Erreur: API request failed: <message>" (the clause
    with the prefix "Erreur API" is never reached, the API error being a
    [YouTubeError]), an answer without subtitles gives the text "Aucune
    transcription disponible pour cette vidéo", and an answer with
    subtitles gives their formatted text. *)
Theorem get_transcript_outcomes :
  forall (E : Type) (Env : Environment E) (self : YouTubeCore.YouTubeCore)
         (video_url : string) (s : E),
    (exists text s' t,
        YouTubeCore.get_transcript self video_url s = (Return text, s', t))
    /\ YouTubeCore.get_transcript self EmptyString s
       = (Return "Erreur: URL cannot be empty", s, [])
    /\ forall id r s1,
         let call :=
           HttpGet "https://youtube-v2.p.rapidapi.com/video/subtitles"
                   [("video_id", id)] in
         YouTubeUtils.extract_video_id video_url = Return id ->
         requests_api call s = (r, s1) ->
         (forall response,
             r = Return response -> status_code response <> 200 ->
             YouTubeCore.get_transcript self video_url s
             = (Return ("Erreur: API request failed with status code: "
                        +:+ pretty (status_code response)),
                s1, [EvHttp call]))
         /\ (forall e,
                r = Raise e -> is_RequestException e = true ->
                YouTubeCore.get_transcript self video_url s
                = (Return ("Erreur: API request failed: " +:+ str_exn e),
                   s1, [EvHttp call]))
         /\ (forall response data,
                r = Return response -> status_code response = 200 ->
                json response = Some (PDict data) ->
                Py.assoc "subtitles" data = None
                \/ (exists subtitles,
                       Py.assoc "subtitles" data = Some subtitles
                       /\ Py.truthy subtitles = false) ->
                YouTubeCore.get_transcript self video_url s
                = (Return "Aucune transcription disponible pour cette vidéo",
                   s1, [EvHttp call]))
         /\ (forall response data subtitles transcript,
                r = Return response -> status_code response = 200 ->
                json response = Some (PDict data) ->
                Py.assoc "subtitles" data = Some subtitles ->
                Py.truthy subtitles = true ->
                YouTubeUtils.format_transcript subtitles = Return transcript ->
                YouTubeCore.get_transcript self video_url s
                = (Return transcript, s1, [EvHttp call])).
Proof.
  intros E Env self video_url s.
  split; [apply get_transcript_returns|]. split; [reflexivity|].
  intros id r s1 call Hid Hcall.
  pose proof (_make_api_request_outcome self "video/subtitles"
                [("video_id", id)] s r s1 Hcall) as Hreq.
  unfold YouTubeCore.get_transcript, try_except, bind, lift_result.
  rewrite Hid, Hreq. clear Hreq.
  repeat split.
  - intros response -> Hstatus.
    replace (status_code response =? 200) with false by lia. reflexivity.
  - intros e -> He. rewrite He. reflexivity.
  - intros response data -> Hstatus Hjson Hsub.
    rewrite Hstatus, Hjson. cbn [negb Z.eqb Pos.eqb Py.contains].
    destruct Hsub as [Hnone|(subtitles & Hsome & Hfalsy)].
    + rewrite Hnone. reflexivity.
    + rewrite Hsome. cbn. rewrite Hsome. cbn. rewrite Hfalsy. reflexivity.
  - intros response data subtitles transcript -> Hstatus Hjson Hsome Htruthy
           Hformat.
    rewrite Hstatus, Hjson. cbn [negb Z.eqb Pos.eqb Py.contains].
    rewrite Hsome. cbn. rewrite Hsome. cbn. rewrite Htruthy. cbn.
    rewrite Hformat. reflexivity.
Qed.

Lemma get_transcript_outcomes_witness :
  YouTubeCore.get_transcript {| YouTubeCore.api_key := "key" |}
    "https://youtu.be/dQw4w9WgXcQ" Fixture.agreeable
  = (Return "Aucune transcription disponible pour cette vidéo",
     Fixture.agreeable,
     [EvHttp (HttpGet "https://youtube-v2.p.rapidapi.com/video/subtitles"
                      [("video_id", "dQw4w9WgXcQ")])]).
Proof.
  refine (proj1 (proj2 (proj2
            (proj2 (proj2 (get_transcript_outcomes Fixture.tables _
                             {| YouTubeCore.api_key := "key" |}
                             "https://youtu.be/dQw4w9WgXcQ" Fixture.agreeable))
               "dQw4w9WgXcQ"
               (Return (HttpResponse 200 "OK"
                  "https://youtube-v2.p.rapidapi.com/video/subtitles"
                  (Some (PDict [("chat_id", PStr "c1")]))))
               Fixture.agreeable _ _)))
            (HttpResponse 200 "OK"
                  "https://youtube-v2.p.rapidapi.com/video/subtitles"
                  (Some (PDict [("chat_id", PStr "c1")])))
            [("chat_id", PStr "c1")] _ _ _ _);
    try reflexivity.
  left. reflexivity.
Defined.

(** X12.  [get_video_transcript] never raises and sets its failure flag by
    the text of [get_transcript] alone: [success] is false, with the text
    as [error], exactly when the text starts with "Erreur", and true with
    the text as [transcript] otherwise.  So the empty URL is a failure,
    and a video for which the API has no subtitles is reported as a
    success whose transcript is the sentence "Aucune transcription
    disponible pour cette vidéo". *)
Theorem get_video_transcript_flags_by_text :
  forall (E : Type) (Env : Environment E) (youtube : YouTubeCore.YouTubeCore)
         (url : string) (s : E),
    (exists text s' t,
        YouTubeCore.get_transcript youtube url s = (Return text, s', t)
        /\ YouTubeTool.get_video_transcript youtube url s
           = (Return
                (if Str.startswith text "Erreur"
                 then {| YouTubeTool.success := false;
                         YouTubeTool.transcript := None;
                         YouTubeTool.error := Some text |}
                 else {| YouTubeTool.success := true;
                         YouTubeTool.transcript := Some text;
                         YouTubeTool.error := None |}),
              s', t))
    /\ YouTubeTool.get_video_transcript youtube EmptyString s
       = (Return {| YouTubeTool.success := false;
                    YouTubeTool.transcript := None;
                    YouTubeTool.error := Some "Erreur: URL cannot be empty" |},
          s, [])
    /\ forall s' t,
         YouTubeCore.get_transcript youtube url s
         = (Return "Aucune transcription disponible pour cette vidéo", s', t) ->
         YouTubeTool.get_video_transcript youtube url s
         = (Return {| YouTubeTool.success := true;
                      YouTubeTool.transcript :=
                        Some "Aucune transcription disponible pour cette vidéo";
                      YouTubeTool.error := None |},
            s', t).
Proof.
  intros E Env youtube url s.
  assert (Htool : forall url text s' t,
    YouTubeCore.get_transcript youtube url s = (Return text, s', t) ->
    YouTubeTool.get_video_transcript youtube url s
    = (Return
         (if Str.startswith text "Erreur"
          then {| YouTubeTool.success := false;
                  YouTubeTool.transcript := None;
                  YouTubeTool.error := Some text |}
          else {| YouTubeTool.success := true;
                  YouTubeTool.transcript := Some text;
                  YouTubeTool.error := None |}),
       s', t)).
  { intros url0 text s' t Hcore.
    unfold YouTubeTool.get_video_transcript,
      YouTubeTool.get_video_transcript_try, try_except, bind.
    rewrite Hcore.
    destruct (Str.startswith text "Erreur"); simpl;
      now rewrite app_nil_r. }
  split; [|split].
  - destruct (get_transcript_returns youtube url s) as (text & s' & t & Hcore).
    exists text, s', t. split; [exact Hcore|]. now apply Htool.
  - now rewrite (Htool EmptyString "Erreur: URL cannot be empty" s []).
  - intros s' t Hcore. now rewrite (Htool url _ s' t Hcore).
Qed.

Lemma get_video_transcript_flags_by_text_witness :
  YouTubeTool.get_video_transcript {| YouTubeCore.api_key := "key" |}
    "https://youtu.be/dQw4w9WgXcQ" Fixture.agreeable
  = (Return {| YouTubeTool.success := true;
               YouTubeTool.transcript :=
                 Some "Aucune transcription disponible pour cette vidéo";
               YouTubeTool.error := None |},
     Fixture.agreeable,
     [EvHttp (HttpGet "https://youtube-v2.p.rapidapi.com/video/subtitles"
                      [("video_id", "dQw4w9WgXcQ")])]).
Proof.
  apply (proj2 (proj2 (get_video_transcript_flags_by_text Fixture.tables _
                         {| YouTubeCore.api_key := "key" |}
                         "https://youtu.be/dQw4w9WgXcQ" Fixture.agreeable))).
  vm_compute. reflexivity.
Defined.

(** ** Calendar: updates of a missing event *)

Section update_missing.
Context {E : Type} `{Environment E}.
Variable cfg : settings.

Lemma core_update_event_func_missing event_id calendar_id updates
      s svc s1 msg s2 :
  let cal := Py.or_str calendar_id (calendar_calendar_id cfg) in
  calendar_api (GetService false) s = (Return svc, s1) ->
  calendar_api (EventsGet cal event_id) s1 = (Raise (HttpError 404 msg), s2) ->
  CalendarCore.core_update_event_func cfg event_id calendar_id updates s
  = (Raise (ValueError ("Événement " +:+ event_id +:+ " non trouvé.")), s2,
     [EvCalendar (GetService false); EvCalendar (EventsGet cal event_id)]).
Proof.
  intros cal Hsvc Hget.
  unfold CalendarCore.core_update_event_func,
    CalendarCore.get_calendar_service, bind, try_except, calendar, perform,
    raise.
  fold cal. rewrite Hsvc, Hget. reflexivity.
Qed.
End update_missing.

(** X13.  An update of an event that the provider does not know is not
    reported at once: the 404 of the fetch is turned into a [ValueError],
    which the decorator retries like any other exception.  As long as the
    event stays missing, [core_update_event] fetches four times, sleeps one
    second after each of the first three, never issues a write, and then
    raises "Événement <id> non trouvé."; the update tool returns that
    message as its text. *)
Theorem core_update_event_missing_is_retried :
  forall (E : Type) (Env : Environment E) (Lib : PyLib) (cfg : settings)
         (event_id : string) (calendar_id : option string)
         (missing : E -> Prop),
    let cal := Py.or_str calendar_id (calendar_calendar_id cfg) in
    let attempt :=
      [EvCalendar (GetService false); EvCalendar (EventsGet cal event_id)] in
    let trace :=
      attempt ++ [EvSleep 1] ++ attempt ++ [EvSleep 1] ++ attempt
      ++ [EvSleep 1] ++ attempt in
    (forall s, missing s ->
               exists svc s1,
                 calendar_api (GetService false) s = (Return svc, s1)
                 /\ missing s1) ->
    (forall s, missing s ->
               exists msg s1,
                 calendar_api (EventsGet cal event_id) s
                 = (Raise (HttpError 404 msg), s1)
                 /\ missing s1) ->
    forall s : E,
      missing s ->
      exists s',
        (forall updates,
            CalendarCore.core_update_event cfg event_id calendar_id updates s
            = (Raise (ValueError ("Événement " +:+ event_id +:+ " non trouvé.")),
               s', trace))
        /\ (forall summary,
               CalendarTool.mettre_a_jour_evenement_calendrier cfg event_id
                 calendar_id (Some summary) None None None None None s
               = (Return ("Événement " +:+ event_id +:+ " non trouvé."),
                  s', trace)).
Proof.
  intros E Env Lib cfg event_id calendar_id missing cal attempt trace
         Hsvc Hget s Hs.
  assert (Hdelay : (0 <= 1)%Q) by (unfold Qle; simpl; lia).
  assert (Hfunc : forall s, missing s -> exists s2,
    (forall updates,
        CalendarCore.core_update_event_func cfg event_id calendar_id updates s
        = (Raise (ValueError ("Événement " +:+ event_id +:+ " non trouvé.")),
           s2, attempt))
    /\ missing s2).
  { intros s0 Hs0.
    destruct (Hsvc s0 Hs0) as (svc & s1 & Hcall1 & Hs1).
    destruct (Hget s1 Hs1) as (msg & s2 & Hcall2 & Hs2).
    exists s2. split; [|exact Hs2]. intros updates.
    exact (core_update_event_func_missing cfg event_id calendar_id updates
             s0 svc s1 msg s2 Hcall1 Hcall2). }
  destruct (Hfunc s Hs) as (s1 & H1 & Hs1).
  destruct (Hfunc s1 Hs1) as (s2 & H2 & Hs2).
  destruct (Hfunc s2 Hs2) as (s3 & H3 & Hs3).
  destruct (Hfunc s3 Hs3) as (s4 & H4 & _).
  exists s4.
  assert (Hcore : forall updates,
    CalendarCore.core_update_event cfg event_id calendar_id updates s
    = (Raise (ValueError ("Événement " +:+ event_id +:+ " non trouvé.")),
       s4, trace)).
  { intros updates.
    unfold CalendarCore.core_update_event, CalendarCore.with_retry,
      CalendarCore.wrapper_run.
    rewrite calendar_loop_unfold.
    erewrite calendar_round_retry;
      [|exact Hdelay|simpl; apply H1|exact I|simpl; lia].
    rewrite calendar_loop_unfold.
    erewrite calendar_round_retry;
      [|exact Hdelay|simpl; apply H2|exact I|simpl; lia].
    rewrite calendar_loop_unfold.
    erewrite calendar_round_retry;
      [|exact Hdelay|simpl; apply H3|exact I|simpl; lia].
    rewrite calendar_loop_unfold.
    erewrite calendar_round_exhausted;
      [|simpl; apply H4|exact I|simpl; lia].
    reflexivity. }
  split; [exact Hcore|].
  intros summary.
  unfold CalendarTool.mettre_a_jour_evenement_calendrier.
  rewrite bool_decide_eq_false_2 by (vm_compute; discriminate).
  unfold CalendarTool.mettre_a_jour_evenement_calendrier_try, try_except, bind.
  rewrite Hcore. reflexivity.
Qed.

Lemma core_update_event_missing_is_retried_witness :
  exists s',
    CalendarTool.mettre_a_jour_evenement_calendrier Fixture.config "e1" None
      (Some "Point") None None None None None ["e0"]
    = (Return "Événement e1 non trouvé.", s',
       [EvCalendar (GetService false); EvCalendar (EventsGet "primary" "e1");
        EvSleep 1;
        EvCalendar (GetService false); EvCalendar (EventsGet "primary" "e1");
        EvSleep 1;
        EvCalendar (GetService false); EvCalendar (EventsGet "primary" "e1");
        EvSleep 1;
        EvCalendar (GetService false); EvCalendar (EventsGet "primary" "e1")]).
Proof.
  destruct (core_update_event_missing_is_retried (list string) _ _
              Fixture.config "e1" None (fun s => "e1" ∉ s))
    with (s := ["e0"]) as (s' & _ & Htool).
  - intros s Hs. exists (PDict []), s. split; [reflexivity|exact Hs].
  - intros s Hs. exists "Not Found", s. split; [|exact Hs].
    cbn. now rewrite bool_decide_eq_false_2.
  - by_evaluation.
  - exists s'. exact (Htool "Point").
Defined.

(** ** Calendar: the tools *)

Lemma lookup_put (k k' : string) (v : option pyval) (m : gmap string pyval) :
  match v with Some v => <[k := v]> m | None => m end !! k'
  = if bool_decide (k = k')
    then match v with Some x => Some x | None => m !! k' end
    else m !! k'.
Proof.
  destruct (bool_decide (k = k')) eqn:Hk.
  - apply bool_decide_eq_true in Hk as ->.
    destruct v; [apply lookup_insert_eq|reflexivity].
  - apply bool_decide_eq_false in Hk.
    destruct v; [now apply lookup_insert_ne|reflexivity].
Qed.

(** The updates that the tool collects hold the arguments that were
    given, under the names of the parameters. *)
Lemma given_updates_lookup summary start_time end_time description location
      attendees :
  let updates :=
    CalendarTool.given_updates summary start_time end_time description
                               location attendees in
  updates !! "summary" = PStr <$> summary
  /\ updates !! "start_time" = PStr <$> start_time
  /\ updates !! "end_time" = PStr <$> end_time
  /\ updates !! "description" = PStr <$> description
  /\ updates !! "location" = PStr <$> location
  /\ updates !! "attendees" = (fun l => PList (map PStr l)) <$> attendees.
Proof.
  unfold CalendarTool.given_updates. cbv zeta beta.
  repeat split; rewrite !lookup_put;
    repeat match goal with
           | |- context [bool_decide (?a = ?b)] =>
               let d := eval vm_compute in (bool_decide (a = b)) in
               change (bool_decide (a = b)) with d; cbv iota
           end;
    rewrite ?lookup_empty;
    match goal with
    | |- context [?f <$> ?o] => now destruct o
    end.
Qed.

Section update_tool.
Context {E : Type} `{Environment E} `{PyLib}.
Variable cfg : settings.

Lemma given_updates_body summary start_time end_time description location
      attendees :
  exists body : gmap string pyval,
    CalendarCore.update_event_body cfg
      (CalendarTool.given_updates summary start_time end_time description
                                  location attendees)
    = Return body
    /\ body !! "summary" = PStr <$> summary
    /\ body !! "description" = PStr <$> description
    /\ body !! "location" = PStr <$> location
    /\ body !! "start" = (fun v => CalendarCore.timed cfg (PStr v)) <$> start_time
    /\ body !! "end" = (fun v => CalendarCore.timed cfg (PStr v)) <$> end_time
    /\ body !! "attendees"
       = (fun l => PList (map (fun email => PDict [("email", PStr email)]) l))
           <$> attendees.
Proof.
  destruct (given_updates_lookup summary start_time end_time description
              location attendees) as (Hs & Hst & He & Hd & Hl & Ha).
  cbv zeta in *.
  destruct (update_event_body_fields cfg
              (CalendarTool.given_updates summary start_time end_time
                 description location attendees))
    as (body & Hbody & Bs & Bd & Bl & Bst & Be & Ba & _).
  { intros a. rewrite Ha. destruct attendees; intros Heq; inversion Heq.
    right. eauto. }
  exists body. split; [exact Hbody|].
  rewrite Bs, Bd, Bl, Bst, Be, Ba, Hs, Hd, Hl, Hst, He, Ha.
  repeat split.
  - now destruct start_time.
  - now destruct end_time.
  - destruct attendees as [l|]; [|reflexivity]. simpl.
    now rewrite map_map.
Qed.
End update_tool.

(** X14.  Through the update tool the silent no-op of [core_update_event]
    cannot happen.  Called without any of the six optional fields, the
    tool answers "Aucune information de mise à jour fournie." and calls
    nothing.  Called with at least one, it hands the core a patch that is
    not empty and holds each given field (the times with the configured
    time zone, the attendees as address records), so that, for an event
    that exists, exactly one partial update is issued with it. *)
Theorem update_tool_always_writes :
  forall (E : Type) (Env : Environment E) (Lib : PyLib) (cfg : settings)
         (event_id : string) (calendar_id : option string)
         (summary start_time end_time description location : option string)
         (attendees : option (list string)),
    let cal := Py.or_str calendar_id (calendar_calendar_id cfg) in
    let tool :=
      CalendarTool.mettre_a_jour_evenement_calendrier cfg event_id calendar_id
        summary start_time end_time description location attendees in
    let nothing_given :=
      summary = None /\ start_time = None /\ end_time = None
      /\ description = None /\ location = None /\ attendees = None in
    (nothing_given ->
     forall s : E,
       tool s = (Return "Aucune information de mise à jour fournie.", s, []))
    /\
    (~ nothing_given ->
     exists body : gmap string pyval,
       CalendarCore.update_event_body cfg
         (CalendarTool.given_updates summary start_time end_time description
                                     location attendees)
       = Return body
       /\ body <> ∅
       /\ body !! "summary" = PStr <$> summary
       /\ body !! "description" = PStr <$> description
       /\ body !! "location" = PStr <$> location
       /\ body !! "start"
          = (fun v => CalendarCore.timed cfg (PStr v)) <$> start_time
       /\ body !! "end"
          = (fun v => CalendarCore.timed cfg (PStr v)) <$> end_time
       /\ body !! "attendees"
          = (fun l => PList (map (fun email => PDict [("email", PStr email)]) l))
              <$> attendees
       /\ forall (s s1 s2 s3 : E) (svc existing updated title : pyval),
            calendar_api (GetService false) s = (Return svc, s1) ->
            calendar_api (EventsGet cal event_id) s1 = (Return existing, s2) ->
            calendar_api (EventsPatch cal event_id body) s2
            = (Return updated, s3) ->
            Py.get updated "summary" PNone = Return title ->
            tool s
            = (Return ("Événement '" +:+ py_str title +:+ "' (ID: "
                       +:+ event_id +:+ ") mis à jour avec succès."),
               s3,
               [EvCalendar (GetService false);
                EvCalendar (EventsGet cal event_id);
                EvCalendar (EventsPatch cal event_id body)])).
Proof.
  intros E Env Lib cfg event_id calendar_id summary start_time end_time
         description location attendees cal tool nothing_given.
  split.
  - intros (-> & -> & -> & -> & -> & ->) s. reflexivity.
  - intros Hgiven.
    destruct (given_updates_body cfg summary start_time end_time description
                location attendees)
      as (body & Hbody & Bs & Bd & Bl & Bst & Be & Ba).
    assert (Hne : body <> ∅).
    { intros ->. rewrite !lookup_empty in *.
      apply Hgiven. unfold nothing_given.
      destruct summary, start_time, end_time, description, location,
        attendees; try discriminate. repeat split. }
    exists body. repeat split; try assumption.
    intros s s1 s2 s3 svc existing updated title Hsvc Hget Hpatch Htitle.
    assert (Hsize : size body <> 0%nat)
      by (intros Hz; now apply map_size_empty_iff in Hz).
    pose proof (core_update_event_func_patch cfg event_id calendar_id _
                  s svc s1 existing s2 body (Return updated) s3
                  Hsvc Hget Hbody Hsize Hpatch) as Hfunc.
    unfold tool, CalendarTool.mettre_a_jour_evenement_calendrier.
    destruct (given_updates_lookup summary start_time end_time description
                location attendees) as (Hs & Hst & He & Hd & Hl & Ha).
    cbv zeta in *.
    rewrite bool_decide_eq_false_2.
    2:{ intros Hz. apply map_size_empty_iff in Hz. rewrite Hz in *.
        rewrite !lookup_empty in *. apply Hgiven. unfold nothing_given.
        destruct summary, start_time, end_time, description, location,
          attendees; try discriminate. repeat split. }
    unfold CalendarTool.mettre_a_jour_evenement_calendrier_try,
      CalendarCore.core_update_event, try_except, bind, lift_result.
    rewrite (calendar_with_retry_return 3 1 _ _ _ _ _ Hfunc).
    rewrite Htitle. simpl. reflexivity.
Qed.

Lemma update_tool_always_writes_witness :
  CalendarTool.mettre_a_jour_evenement_calendrier Fixture.config "e1" None
    None None None None None None Fixture.agreeable
  = (Return "Aucune information de mise à jour fournie.",
     Fixture.agreeable, []).
Proof.
  apply (proj1 (update_tool_always_writes Fixture.tables _ _ Fixture.config
                  "e1" None None None None None None None)).
  repeat split.
Defined.

(** X15.  [lister_evenements_calendrier] asks for the read-only service
    and lists once; when the provider's answer has no "items" entry, or an
    empty one, the core returns an empty (false) value and the tool
    answers "Aucun événement à venir trouvé." *)
Theorem lister_evenements_calendrier_without_events :
  forall (E : Type) (Env : Environment E) (Lib : PyLib) (cfg : settings)
         (count : Z) (calendar_id : option string)
         (s s1 s2 : E) (svc : pyval) (answer : list (string * pyval)),
    let cal := Py.or_str calendar_id (calendar_calendar_id cfg) in
    let trace :=
      [EvCalendar (GetService true); EvCalendar (EventsList cal count)] in
    calendar_api (GetService true) s = (Return svc, s1) ->
    calendar_api (EventsList cal count) s1 = (Return (PDict answer), s2) ->
    Py.assoc "items" answer = None
    \/ (exists items,
           Py.assoc "items" answer = Some items /\ Py.truthy items = false) ->
    (exists events,
        CalendarCore.core_list_events cfg count calendar_id s
        = (Return events, s2, trace)
        /\ Py.truthy events = false)
    /\ CalendarTool.lister_evenements_calendrier cfg count calendar_id s
       = (Return "Aucun événement à venir trouvé.", s2, trace).
Proof.
  intros E Env Lib cfg count calendar_id s s1 s2 svc answer cal trace
         Hsvc Hlist Hitems.
  assert (Hfunc : exists events,
    CalendarCore.core_list_events_func cfg count calendar_id s
    = (Return events, s2, trace) /\ Py.truthy events = false).
  { unfold CalendarCore.core_list_events_func,
      CalendarCore.get_calendar_service, bind, try_except, calendar, perform,
      lift_result.
    fold cal. rewrite Hsvc, Hlist. cbn [Py.get].
    destruct Hitems as [->|(items & -> & Hfalse)]; eauto. }
  destruct Hfunc as (events & Hfunc & Hfalse).
  assert (Hcore : CalendarCore.core_list_events cfg count calendar_id s
                  = (Return events, s2, trace))
    by (now apply calendar_with_retry_return).
  split; [eauto|].
  unfold CalendarTool.lister_evenements_calendrier,
    CalendarTool.lister_evenements_calendrier_try, try_except, bind.
  rewrite Hcore, Hfalse. reflexivity.
Qed.

Lemma lister_evenements_calendrier_without_events_witness :
  CalendarTool.lister_evenements_calendrier Fixture.config 5 None
    Fixture.no_such_event
  = (Return "Aucun événement à venir trouvé.", Fixture.no_such_event,
     [EvCalendar (GetService true); EvCalendar (EventsList "primary" 5)]).
Proof.
  refine (proj2 (lister_evenements_calendrier_without_events Fixture.tables
                   _ _ Fixture.config 5 None Fixture.no_such_event
                   Fixture.no_such_event Fixture.no_such_event (PDict []) []
                   _ _ _));
    [reflexivity|reflexivity|left; reflexivity].
Defined.

(** X16.  What [supprimer_evenement_calendrier] answers, with the service
    at hand and after one delete call in each case: "... supprimé avec
    succès." when the provider deletes, "... non trouvé ou déjà supprimé."
    when it answers 404, and for a refusal with status 400, 401 or 403 the
    text "Erreur lors de la suppression de l'événement <id>: <message>",
    without retry. *)
Theorem supprimer_evenement_calendrier_reports :
  forall (E : Type) (Env : Environment E) (Lib : PyLib) (cfg : settings)
         (event_id : string) (calendar_id : option string)
         (s s1 s2 : E) (svc : pyval) (r : result pyval),
    let cal := Py.or_str calendar_id (calendar_calendar_id cfg) in
    let trace :=
      [EvCalendar (GetService false); EvCalendar (EventsDelete cal event_id)] in
    calendar_api (GetService false) s = (Return svc, s1) ->
    calendar_api (EventsDelete cal event_id) s1 = (r, s2) ->
    (forall v,
        r = Return v ->
        CalendarTool.supprimer_evenement_calendrier cfg event_id calendar_id s
        = (Return ("Événement " +:+ event_id +:+ " supprimé avec succès."),
           s2, trace))
    /\ (forall msg,
           r = Raise (HttpError 404 msg) ->
           CalendarTool.supprimer_evenement_calendrier cfg event_id
                                                       calendar_id s
           = (Return ("Événement " +:+ event_id
                      +:+ " non trouvé ou déjà supprimé."),
              s2, trace))
    /\ (forall status msg,
           r = Raise (HttpError status msg) ->
           status ∈ [400; 401; 403] ->
           CalendarTool.supprimer_evenement_calendrier cfg event_id
                                                       calendar_id s
           = (Return ("Erreur lors de la suppression de l'événement "
                      +:+ event_id +:+ ": " +:+ msg),
              s2, trace)).
Proof.
  intros E Env Lib cfg event_id calendar_id s s1 s2 svc r cal trace
         Hsvc Hdel.
  split; [|split].
  - intros v ->.
    pose proof (core_delete_event_func_done cfg event_id calendar_id
                  s svc s1 v s2 Hsvc Hdel) as Hfunc.
    unfold CalendarTool.supprimer_evenement_calendrier,
      CalendarTool.supprimer_evenement_calendrier_try,
      CalendarCore.core_delete_event, try_except, bind.
    rewrite (calendar_with_retry_return 3 1 _ _ _ _ _ Hfunc).
    reflexivity.
  - intros msg ->.
    pose proof (core_delete_event_func_absent cfg event_id calendar_id
                  s svc s1 msg s2 Hsvc Hdel) as Hfunc.
    unfold CalendarTool.supprimer_evenement_calendrier,
      CalendarTool.supprimer_evenement_calendrier_try,
      CalendarCore.core_delete_event, try_except, bind.
    rewrite (calendar_with_retry_return 3 1 _ _ _ _ _ Hfunc).
    reflexivity.
  - intros status msg -> Hstatus.
    assert (Hfunc :
      CalendarCore.core_delete_event_func cfg event_id calendar_id s
      = (Raise (HttpError status msg), s2, trace)).
    { unfold CalendarCore.core_delete_event_func,
        CalendarCore.get_calendar_service, bind, try_except, calendar,
        perform, raise.
      fold cal. rewrite Hsvc, Hdel.
      replace (status =? 404) with false; [reflexivity|].
      symmetry. apply Z.eqb_neq. intros ->.
      revert Hstatus. by_evaluation. }
    unfold CalendarTool.supprimer_evenement_calendrier,
      CalendarTool.supprimer_evenement_calendrier_try,
      CalendarCore.core_delete_event, CalendarCore.with_retry,
      CalendarCore.wrapper_run, try_except, bind.
    rewrite calendar_loop_unfold.
    unfold CalendarCore.wrapper_round. simpl env. rewrite Hfunc.
    rewrite bool_decide_eq_true_2.
    + reflexivity.
    + revert Hstatus. rewrite !elem_of_cons. tauto.
Qed.

Lemma supprimer_evenement_calendrier_reports_witness :
  CalendarTool.supprimer_evenement_calendrier Fixture.config "e1" None ["e0"]
  = (Return "Événement e1 non trouvé ou déjà supprimé.", ["e0"],
     [EvCalendar (GetService false); EvCalendar (EventsDelete "primary" "e1")]).
Proof.
  refine (proj1 (proj2 (supprimer_evenement_calendrier_reports (list string)
                          _ _ Fixture.config "e1" None ["e0"] ["e0"] ["e0"]
                          (PDict []) (Raise (HttpError 404 "Not Found")) _ _))
                "Not Found" eq_refl);
    reflexivity.
Defined.

(** ** Sending e-mail *)

Lemma contains_char_app ch s1 s2 :
  Str.contains_char ch (s1 +:+ s2)
  = Str.contains_char ch s1 || Str.contains_char ch s2.
Proof.
  induction s1 as [|c s1 IH]; [reflexivity|].
  rewrite str_append_cons. cbn [Str.contains_char]. rewrite IH.
  now rewrite orb_assoc.
Qed.

(** No piece of a split at a character holds that character. *)
Lemma split_from_char_pieces ch s : forall cur,
  Str.contains_char ch cur = false ->
  Forall (fun piece => Str.contains_char ch piece = false)
         (Str.split_from (String ch EmptyString) 0 cur s).
Proof.
  induction s as [|c s IH]; intros cur Hcur; cbn [Str.split_from].
  - now constructor.
  - cbn [String.prefix].
    destruct (Ascii.ascii_dec ch c) as [<-|Hne].
    + rewrite prefix_empty. constructor; [exact Hcur|].
      now apply IH.
    + apply IH. rewrite contains_char_app, Hcur. cbn.
      rewrite orb_false_r. apply Ascii.eqb_neq. congruence.
Qed.

Lemma last_Forall {X} (P : X -> Prop) (l : list X) : forall d,
  Forall P l -> P d -> P (List.last l d).
Proof.
  induction l as [|x l IH]; intros d Hl Hd; [exact Hd|].
  inversion Hl; subst. destruct l; [assumption|].
  now apply IH.
Qed.

Lemma basename_has_no_slash file_path :
  Str.contains_char "/" (CommunicationCore.basename file_path) = false.
Proof.
  unfold CommunicationCore.basename, Str.split.
  apply (last_Forall (fun piece => Str.contains_char "/" piece = false));
    [|reflexivity].
  now apply split_from_char_pieces.
Qed.

(** The decorated [send_email] with a recipient and a message that cannot
    be built: three attempts, a sleep after the first and after the
    second, and no call. *)
Lemma send_email_unbuilt {E} `{Environment E} `{PyLib}
      self to subject body cc bcc attachments e (s : E) :
  to <> [] ->
  CommunicationCore.get_formatted_sender self = Raise e
  \/ (exists sender,
         CommunicationCore.get_formatted_sender self = Return sender
         /\ MIMEText body (CommunicationCore.body_type body) = Raise e) ->
  RetryPolicy.communication_retryable e ->
  CommunicationCore.send_email self to subject body cc bcc attachments s
  = (Raise e, s,
     [EvSleep (RetryPolicy.communication_delay 2 1 e);
      EvSleep (RetryPolicy.communication_delay 2 2 e)]).
Proof.
  intros Hto Hbuild Hretry.
  assert (Hdelay : (0 <= 2)%Q) by (unfold Qle; simpl; lia).
  assert (Hfunc : forall s0,
    CommunicationCore.send_email_func self to subject body cc bcc
                                      attachments s0
    = (Raise e, s0, []))
    by (intros s0; now apply send_email_func_unbuilt).
  unfold CommunicationCore.send_email, CommunicationCore.with_retry,
    CommunicationCore.wrapper_run.
  rewrite communication_loop_unfold.
  erewrite communication_round_retry;
    [|exact Hdelay|simpl; apply Hfunc|exact Hretry|simpl; lia].
  rewrite communication_loop_unfold.
  erewrite communication_round_retry;
    [|exact Hdelay|simpl; apply Hfunc|exact Hretry|simpl; lia].
  rewrite communication_loop_unfold.
  erewrite communication_round_exhausted;
    [|simpl; apply Hfunc|exact Hretry|simpl; lia].
  reflexivity.
Qed.

Section send_theorems.
Context {E : Type} `{Environment E} `{PyLib}.

End send_theorems.



(** X18.  When the message can be built, a login that the server refuses
    ends [send_email] at once: the result is the failure "Authentification
    SMTP échouée pour <user>: <message>", the message is not submitted,
    and the call is not retried by the decorator, the exception never
    leaving the function.  (The QUIT that leaving the [with] block sends
    is taken to be answered.) *)
Theorem send_email_authentication_failure :
  forall (E : Type) (Env : Environment E) (Lib : PyLib)
         (self : CommunicationCore.EmailClient) (to : list string)
         (subject body : string) (cc bcc attachments : option (list string))
         (sender : string) (s s1 s2 s3 : E) (message : string),
    let connect :=
      if CommunicationCore.smtp_port self =? 465
      then SmtpSSL (CommunicationCore.smtp_host self)
                   (CommunicationCore.smtp_port self)
      else SmtpPlain (CommunicationCore.smtp_host self)
                     (CommunicationCore.smtp_port self) in
    let starttls :=
      negb (CommunicationCore.smtp_port self =? 465)
      && CommunicationCore.use_tls self in
    let login :=
      SmtpLogin (CommunicationCore.username self)
                (CommunicationCore.password self) in
    to <> [] ->
    CommunicationCore.get_formatted_sender self = Return sender ->
    MIMEText body (CommunicationCore.body_type body) = Return tt ->
    smtp_api connect s = (Return tt, s1) ->
    (if starttls then smtp_api SmtpStartTls s1 = (Return tt, s2)
     else s2 = s1) ->
    smtp_api login s2 = (Raise (SMTPAuthenticationError message), s3) ->
    CommunicationCore.send_email self to subject body cc bcc attachments s
    = (Return (CommunicationCore.NotSent
                 ("Authentification SMTP échouée pour "
                  +:+ CommunicationCore.username self +:+ ": " +:+ message)),
       s3,
       [EvSmtp connect] ++ (if starttls then [EvSmtp SmtpStartTls] else [])
       ++ [EvSmtp login]).
Proof.
  intros E Env Lib self to subject body cc bcc attachments sender s s1 s2 s3
         message connect starttls login Hto Hsender Htext Hconnect Htls
         Hlogin.
  unfold CommunicationCore.send_email.
  apply communication_with_retry_return.
  unfold CommunicationCore.send_email_func.
  destruct to as [|a to]; [congruence|].
  unfold bind at 1, lift_result. rewrite Hsender. cbv zeta.
  unfold bind at 1. rewrite Htext.
  unfold bind at 1. rewrite attach_all_embeds.
  subst connect starttls login.
  unfold try_except, bind, smtp, perform, ret.
  destruct (CommunicationCore.smtp_port self =? 465); cbn [negb andb] in *.
  - subst s2. rewrite Hconnect, Hlogin. reflexivity.
  - rewrite Hconnect.
    destruct (CommunicationCore.use_tls self).
    + rewrite Htls, Hlogin. reflexivity.
    + subst s2. rewrite Hlogin. reflexivity.
Qed.

Lemma send_email_authentication_failure_witness :
  CommunicationCore.send_email Fixture.client ["a@example.org"] "Rapport"
    "Bonjour" None None None Scenario.login_refused
  = (Return (CommunicationCore.NotSent
               "Authentification SMTP échouée pour me@example.org: 535 Bad credentials"),
     Scenario.login_refused,
     [EvSmtp (SmtpPlain "smtp.example.org" 587); EvSmtp SmtpStartTls;
      EvSmtp (SmtpLogin "me@example.org" "secret")]).
Proof.
  apply (send_email_authentication_failure Fixture.tables
           Fixture.tables_environment Fixture.plain_pylib Fixture.client
           ["a@example.org"] "Rapport" "Bonjour" None None None
           "me@example.org"
           Scenario.login_refused Scenario.login_refused Scenario.login_refused
           Scenario.login_refused "535 Bad credentials");
    [discriminate|reflexivity..].
Defined.

(** X19.  The message that [send_email] submits carries the body text as
    given and, as attachments, exactly the files among the given paths
    that exist and can be read when the call starts, in the order of the
    paths, each under the last component of its path (a name without a
    slash) and with its content.  A path that does not exist or cannot be
    read is left out without failing the call: with a recipient, a
    message that can be built and a server that accepts every call, the
    call returns its success result, with the number of paths given as
    [attachment_count], after one session that ends with the submission
    of the message with exactly those attachments, whatever the paths. *)
Theorem send_email_embeds_readable_files :
  forall (E : Type) (Env : Environment E) (Lib : PyLib)
         (self : CommunicationCore.EmailClient) (to : list string)
         (subject body : string) (cc bcc attachments : option (list string)),
    let embedded (s : E) :=
      omap (fun file_path =>
              match file_at file_path s with
              | Readable content =>
                  Some (CommunicationCore.basename file_path, content)
              | _ => None
              end) (Py.or_nil attachments) in
    let opening :=
      if CommunicationCore.smtp_port self =? 465
      then [EvSmtp (SmtpSSL (CommunicationCore.smtp_host self)
                            (CommunicationCore.smtp_port self))]
      else EvSmtp (SmtpPlain (CommunicationCore.smtp_host self)
                             (CommunicationCore.smtp_port self))
           :: (if CommunicationCore.use_tls self then [EvSmtp SmtpStartTls]
               else []) in
    (forall (s s' : E) (r : result CommunicationCore.send_outcome)
            (t : list event) (msg : mime_message) (from_addr : string)
            (to_addrs : list string),
        CommunicationCore.send_email self to subject body cc bcc attachments s
        = (r, s', t) ->
        EvSmtp (SmtpSendMessage msg from_addr to_addrs) ∈ t ->
        body_text msg = body
        /\ attached msg = embedded s
        /\ Forall (fun part => Str.contains_char "/" (fst part) = false)
                  (attached msg)
        /\ (length (attached msg) <= length (Py.or_nil attachments))%nat)
    /\
    (forall (sender : string) (accepting : E -> Prop) (s : E),
        to <> [] ->
        CommunicationCore.get_formatted_sender self = Return sender ->
        MIMEText body (CommunicationCore.body_type body) = Return tt ->
        (forall c st, accepting st ->
                      exists st', smtp_api c st = (Return tt, st')
                                  /\ accepting st') ->
        accepting s ->
        exists s' : E,
          CommunicationCore.send_email self to subject body cc bcc
                                       attachments s
          = (Return (CommunicationCore.Sent to (Py.or_nil cc) (Py.or_nil bcc)
                       subject (Z.of_nat (length (Py.or_nil attachments)))),
             s',
             opening
             ++ [EvSmtp (SmtpLogin (CommunicationCore.username self)
                                   (CommunicationCore.password self));
                 EvSmtp (SmtpSendMessage
                           (MimeMessage (headers_set sender to subject cc)
                              (CommunicationCore.body_type body) body
                              (embedded s))
                           (CommunicationCore.username self)
                           (to ++ Py.or_nil cc ++ Py.or_nil bcc))])).
Proof.
  intros E Env Lib self to subject body cc bcc attachments embedded opening.
  split.
  - intros s s' r t msg from_addr to_addrs Hrun Hin.
    destruct (send_email_submitted self to subject body cc bcc attachments
                s s' r t msg from_addr to_addrs Hrun Hin)
      as (sender & _ & -> & _).
    cbn [body_text attached]. fold (embedded s). repeat split.
    + apply Forall_forall. intros [name content] Hpart.
      apply list_elem_of_omap in Hpart as (p & _ & Hp).
      destruct (file_at p s); inversion Hp; subst.
      apply basename_has_no_slash.
    + unfold embedded. generalize (Py.or_nil attachments). intros l.
      induction l as [|p l IH]; [reflexivity|].
      cbn [omap list_omap]. destruct (file_at p s); cbn [length]; lia.
  - intros sender accepting s Hto Hsender Htext Haccept Hs.
    destruct (send_email_func_accepted accepting self to subject body cc bcc
                attachments sender s Hto Hsender Htext Haccept Hs)
      as (s' & Hfunc & _).
    exists s'. unfold CommunicationCore.send_email.
    apply communication_with_retry_return. exact Hfunc.
Qed.

Lemma send_email_embeds_readable_files_witness :
  exists s' : Fixture.tables,
    CommunicationCore.send_email Fixture.client ["a@example.org"] "Rapport"
      "Bonjour" None None (Some ["/tmp/absent.pdf"; "/tmp/rapport.txt"])
      Scenario.one_file
    = (Return (CommunicationCore.Sent ["a@example.org"] [] [] "Rapport" 2),
       s',
       [EvSmtp (SmtpPlain "smtp.example.org" 587); EvSmtp SmtpStartTls;
        EvSmtp (SmtpLogin "me@example.org" "secret");
        EvSmtp (SmtpSendMessage
                  (MimeMessage
                     [("Content-Type", "multipart/mixed");
                      ("MIME-Version", "1.0"); ("From", "me@example.org");
                      ("To", "a@example.org"); ("Subject", "Rapport")]
                     "plain" "Bonjour" [("rapport.txt", "Chiffres")])
                  "me@example.org" ["a@example.org"])]).
Proof.
  exact (proj2 (send_email_embeds_readable_files Fixture.tables
                  Fixture.tables_environment Fixture.plain_pylib
                  Fixture.client ["a@example.org"] "Rapport" "Bonjour" None
                  None (Some ["/tmp/absent.pdf"; "/tmp/rapport.txt"]))
           "me@example.org" (fun st => st = Scenario.one_file)
           Scenario.one_file
           ltac:(discriminate) eq_refl eq_refl
           ltac:(intros c st ->; exists Scenario.one_file;
                 split; reflexivity)
           eq_refl).
Defined.

(** ** Retrieving e-mail *)

Section retrieve_facts.
Context {E : Type} `{Environment E} `{PyLib}.

Lemma email_record_id msg_id email_msg record :
  CommunicationCore.email_record msg_id email_msg = Return record ->
  CommunicationCore.mail_id record = msg_id.
Proof.
  unfold CommunicationCore.email_record, and_then.
  repeat match goal with
         | |- context [match ?r with Return _ => _ | Raise _ => _ end] =>
             destruct r; try discriminate
         end.
  intros Heq; inversion Heq; reflexivity.
Qed.

(** The loop over the identifiers fetches each of them once, in order,
    whatever the fetches answer, and adds at most one record for each. *)
Lemma fetch_all_trace msg_ids : forall emails_list s,
  exists more s',
    CommunicationCore.fetch_all msg_ids emails_list s
    = (Return (emails_list ++ more), s',
       map (fun msg_id => EvImap (ImapFetch msg_id)) msg_ids)
    /\ map CommunicationCore.mail_id more `sublist_of` msg_ids.
Proof.
  induction msg_ids as [|msg_id rest IH]; intros emails_list s.
  - exists [], s. simpl. rewrite app_nil_r. split; [reflexivity|constructor].
  - cbn [CommunicationCore.fetch_all].
    assert (Hone : exists added s1,
      try_except
        (do '(status, msg_data) <-
           perform (EvImap (ImapFetch msg_id)) (imap_fetch msg_id);
         match msg_data with
         | Some email_msg =>
             if negb (String.eqb status "OK") then ret emails_list
             else
               do email_data <-
                 lift_result (CommunicationCore.email_record msg_id email_msg);
               ret (emails_list ++ [email_data])
         | None => ret emails_list
         end)
        (fun e => Some (ret emails_list)) s
      = (Return (emails_list ++ added), s1, [EvImap (ImapFetch msg_id)])
      /\ map CommunicationCore.mail_id added `sublist_of` [msg_id]).
    { unfold try_except, bind, perform, lift_result, ret.
      destruct (imap_fetch msg_id s) as [[[status [email_msg|]]|e] s1].
      - destruct (negb (String.eqb status "OK")).
        + exists [], s1. rewrite !app_nil_r. split; [reflexivity|].
          apply sublist_nil_l.
        + destruct (CommunicationCore.email_record msg_id email_msg)
            as [record|e] eqn:Hrecord.
          * exists [record], s1. split; [reflexivity|].
            simpl. now rewrite (email_record_id _ _ _ Hrecord).
          * exists [], s1. rewrite !app_nil_r. split; [reflexivity|].
            apply sublist_nil_l.
      - exists [], s1. rewrite !app_nil_r. split; [reflexivity|].
        apply sublist_nil_l.
      - exists [], s1. rewrite !app_nil_r. split; [reflexivity|].
        apply sublist_nil_l. }
    destruct Hone as (added & s1 & Hone & Hadded).
    unfold bind at 1. rewrite Hone.
    destruct (IH (emails_list ++ added) s1) as (more & s' & -> & Hmore).
    exists (added ++ more), s'. split.
    + now rewrite app_assoc.
    + rewrite map_app.
      change (msg_id :: rest) with ([msg_id] ++ rest).
      now apply sublist_app.
Qed.
End retrieve_facts.

(** X20.  With the mailbox opened and the search answered, the identifiers
    that [retrieve_emails] fetches are those of the search answer, empty
    ones dropped, taken from the last one backwards and cut by [limit] as
    a Python slice (for a limit that is not negative: the [limit] newest
    ones).  Each is fetched once, in that order; the records returned are
    records of fetched identifiers in the same order, one at most for each,
    so that no more than [limit] come back.  The search criterion sent is
    "ALL" without a filter, and otherwise UNSEEN and the query, the ones
    that are given, in parentheses. *)
Theorem retrieve_emails_fetches_newest_first :
  forall (E : Type) (Env : Environment E) (Lib : PyLib)
         (self : CommunicationCore.EmailClient) (folder : string) (limit : Z)
         (unread_only : bool) (search_query : option string)
         (s s1 s2 s3 s4 : E) (found : list string),
    let quote := String (ascii_of_nat 34) EmptyString in
    let mailbox := quote +:+ folder +:+ quote in
    let criterion :=
      match unread_only, search_query with
      | true, Some (String c q) => "(UNSEEN " +:+ String c q +:+ ")"
      | true, _ => "(UNSEEN)"
      | false, Some (String c q) => "(" +:+ String c q +:+ ")"
      | false, _ => "ALL"
      end in
    let msg_ids :=
      Py.slice_to limit (rev (List.filter Str.nonempty found)) in
    imap_connect (CommunicationCore.imap_host self)
                 (CommunicationCore.imap_port self) s = (Return tt, s1) ->
    imap_login (CommunicationCore.username self)
               (CommunicationCore.password self) s1 = (Return tt, s2) ->
    imap_select mailbox s2 = (Return "OK", s3) ->
    imap_search criterion s3 = (Return ("OK", found), s4) ->
    exists emails s',
      CommunicationCore.retrieve_emails self folder limit unread_only
                                        search_query s
      = (Return emails, s',
         [EvImap (ImapConnect (CommunicationCore.imap_host self)
                              (CommunicationCore.imap_port self));
          EvImap (ImapLogin (CommunicationCore.username self)
                            (CommunicationCore.password self));
          EvImap (ImapSelect mailbox); EvImap (ImapSearch criterion)]
         ++ map (fun msg_id => EvImap (ImapFetch msg_id)) msg_ids)
      /\ map CommunicationCore.mail_id emails `sublist_of` msg_ids
      /\ (0 <= limit -> (length emails <= Z.to_nat limit)%nat).
Proof.
  intros E Env Lib self folder limit unread_only search_query s s1 s2 s3 s4
         found quote mailbox criterion msg_ids Hconnect Hlogin Hselect Hsearch.
  destruct (fetch_all_trace msg_ids [] s4) as (emails & s' & Hfetch & Hsub).
  exists emails, s'.
  assert (Hfunc :
    CommunicationCore.retrieve_emails_func self folder limit unread_only
                                           search_query s
    = (Return emails, s',
       [EvImap (ImapConnect (CommunicationCore.imap_host self)
                            (CommunicationCore.imap_port self));
        EvImap (ImapLogin (CommunicationCore.username self)
                          (CommunicationCore.password self));
        EvImap (ImapSelect mailbox); EvImap (ImapSearch criterion)]
       ++ map (fun msg_id => EvImap (ImapFetch msg_id)) msg_ids)).
  { unfold CommunicationCore.retrieve_emails_func.
    fold quote. fold mailbox.
    replace (match _ ++ _ with [] => "ALL" | _ => _ end) with criterion.
    2:{ unfold criterion.
        destruct unread_only, search_query as [[|c q]|]; reflexivity. }
    unfold try_except, bind, perform.
    rewrite Hconnect, Hlogin, Hselect.
    change (negb ("OK" =? "OK")%string) with false. cbv beta iota.
    rewrite Hsearch.
    change (negb ("OK" =? "OK")%string) with false. cbv beta iota.
    fold msg_ids. rewrite Hfetch. reflexivity. }
  split; [|split].
  - unfold CommunicationCore.retrieve_emails.
    now apply communication_with_retry_return.
  - exact Hsub.
  - intros Hlimit.
    apply sublist_length in Hsub. rewrite length_map in Hsub.
    etransitivity; [exact Hsub|].
    unfold msg_ids, Py.slice_to.
    replace (0 <=? limit) with true by lia.
    rewrite length_take. lia.
Qed.

Lemma retrieve_emails_fetches_newest_first_witness :
  exists emails s',
    CommunicationCore.retrieve_emails Fixture.client "INBOX" 2 false None
                                      Scenario.three_mails
    = (Return emails, s',
       [EvImap (ImapConnect "imap.example.org" 993);
        EvImap (ImapLogin "me@example.org" "secret");
        EvImap (ImapSelect
                  (String (ascii_of_nat 34) EmptyString +:+ "INBOX"
                   +:+ String (ascii_of_nat 34) EmptyString));
        EvImap (ImapSearch "ALL");
        EvImap (ImapFetch "3"); EvImap (ImapFetch "2")])
    /\ map CommunicationCore.mail_id emails `sublist_of` ["3"; "2"].
Proof.
  edestruct (retrieve_emails_fetches_newest_first Fixture.tables _ _
               Fixture.client "INBOX" 2 false None
               Scenario.three_mails Scenario.three_mails Scenario.three_mails
               Scenario.three_mails Scenario.three_mails ["1"; "2"; "3"])
    as (emails & s' & Hrun & Hsub & _); [reflexivity..|].
  exists emails, s'. split; [exact Hrun|exact Hsub].
Defined.

Section retrieve_failures.
Context {E : Type} `{Environment E} `{PyLib}.

Lemma fetch_events_are_fetches msg_ids :
  Forall (fun ev => match ev with
                    | EvImap (ImapConnect _ _) | EvSleep _ => False
                    | _ => True
                    end)
         (map (fun msg_id => EvImap (ImapFetch msg_id)) msg_ids).
Proof. induction msg_ids; now constructor. Qed.

(** One call of the undecorated [retrieve_emails]: it returns, and it
    opens one connection, first of all. *)
Lemma retrieve_emails_func_returns self folder limit unread_only
      search_query s :
  exists emails s' t,
    CommunicationCore.retrieve_emails_func self folder limit unread_only
                                           search_query s
    = (Return emails, s',
       EvImap (ImapConnect (CommunicationCore.imap_host self)
                           (CommunicationCore.imap_port self)) :: t)
    /\ Forall (fun ev => match ev with
                         | EvImap (ImapConnect _ _) | EvSleep _ => False
                         | _ => True
                         end) t.
Proof.
  unfold CommunicationCore.retrieve_emails_func, try_except, bind, perform.
  destruct (imap_connect _ _ s) as [[[]|e] s1];
    [|eexists _, _, _; split; [reflexivity|constructor]].
  destruct (imap_login _ _ s1) as [[[]|e] s2];
    [|eexists _, _, _; split; [reflexivity|repeat constructor]].
  destruct (imap_select _ s2) as [[status|e] s3];
    [|eexists _, _, _; split; [reflexivity|repeat constructor]].
  destruct (negb (String.eqb status "OK"));
    [eexists _, _, _; split; [reflexivity|repeat constructor]|].
  cbv beta.
  destruct (imap_search _ s3) as [[[status' found]|e] s4];
    [|eexists _, _, _; split; [reflexivity|repeat constructor]].
  destruct (negb (String.eqb status' "OK"));
    [eexists _, _, _; split; [reflexivity|repeat constructor]|].
  destruct (fetch_all_trace
              (Py.slice_to limit (rev (List.filter Str.nonempty found)))
              [] s4) as (emails & s' & -> & _).
  eexists _, _, _; split; [reflexivity|].
  do 3 (constructor; [exact I|]). apply fetch_events_are_fetches.
Qed.
End retrieve_failures.

(** X21.  [retrieve_emails] never raises and never retries, although it is
    decorated: every failure is caught inside the function.  One call
    opens exactly one IMAP connection, first of all, and never sleeps.  A
    connection or a login that fails, and a mailbox that cannot be
    selected, each give the empty list, which is also what a mailbox
    without matching message gives. *)
Theorem retrieve_emails_absorbs_failures :
  forall (E : Type) (Env : Environment E) (Lib : PyLib)
         (self : CommunicationCore.EmailClient) (folder : string) (limit : Z)
         (unread_only : bool) (search_query : option string) (s : E),
    let connect :=
      EvImap (ImapConnect (CommunicationCore.imap_host self)
                          (CommunicationCore.imap_port self)) in
    let login :=
      EvImap (ImapLogin (CommunicationCore.username self)
                        (CommunicationCore.password self)) in
    let mailbox :=
      String (ascii_of_nat 34) EmptyString +:+ folder
      +:+ String (ascii_of_nat 34) EmptyString in
    let retrieve :=
      CommunicationCore.retrieve_emails self folder limit unread_only
                                        search_query in
    (exists emails s' t,
        retrieve s = (Return emails, s', connect :: t)
        /\ Forall (fun ev => match ev with
                             | EvImap (ImapConnect _ _) | EvSleep _ => False
                             | _ => True
                             end) t)
    /\ (forall e s1,
           imap_connect (CommunicationCore.imap_host self)
                        (CommunicationCore.imap_port self) s = (Raise e, s1) ->
           retrieve s = (Return [], s1, [connect]))
    /\ (forall s1 e s2,
           imap_connect (CommunicationCore.imap_host self)
                        (CommunicationCore.imap_port self) s
           = (Return tt, s1) ->
           imap_login (CommunicationCore.username self)
                      (CommunicationCore.password self) s1 = (Raise e, s2) ->
           retrieve s = (Return [], s2, [connect; login]))
    /\ (forall s1 s2 r s3,
           imap_connect (CommunicationCore.imap_host self)
                        (CommunicationCore.imap_port self) s
           = (Return tt, s1) ->
           imap_login (CommunicationCore.username self)
                      (CommunicationCore.password self) s1 = (Return tt, s2) ->
           imap_select mailbox s2 = (r, s3) ->
           r <> Return "OK" ->
           retrieve s
           = (Return [], s3, [connect; login; EvImap (ImapSelect mailbox)])).
Proof.
  intros E Env Lib self folder limit unread_only search_query s connect login
         mailbox retrieve.
  unfold retrieve, CommunicationCore.retrieve_emails.
  split; [|split; [|split]].
  - destruct (retrieve_emails_func_returns self folder limit unread_only
                search_query s) as (emails & s' & t & Hfunc & Ht).
    exists emails, s', t. split; [|exact Ht].
    now apply communication_with_retry_return.
  - intros e s1 Hconnect. apply communication_with_retry_return.
    unfold CommunicationCore.retrieve_emails_func, try_except, bind, perform.
    now rewrite Hconnect.
  - intros s1 e s2 Hconnect Hlogin. apply communication_with_retry_return.
    unfold CommunicationCore.retrieve_emails_func, try_except, bind, perform.
    now rewrite Hconnect, Hlogin.
  - intros s1 s2 r s3 Hconnect Hlogin Hselect Hr.
    apply communication_with_retry_return.
    unfold CommunicationCore.retrieve_emails_func, try_except, bind, perform.
    fold mailbox. rewrite Hconnect, Hlogin, Hselect.
    destruct r as [status|e]; [|reflexivity].
    destruct (String.eqb_spec status "OK") as [->|_]; [congruence|].
    reflexivity.
Qed.

Lemma retrieve_emails_absorbs_failures_witness :
  CommunicationCore.retrieve_emails Fixture.client "INBOX" 10 false None
                                    Fixture.mailbox_down
  = (Return [], Fixture.mailbox_down,
     [EvImap (ImapConnect "imap.example.org" 993)]).
Proof.
  apply (proj1 (proj2 (retrieve_emails_absorbs_failures Fixture.tables _ _
                         Fixture.client "INBOX" 10 false None
                         Fixture.mailbox_down))
               (OtherException "Connection refused")).
  reflexivity.
Defined.

(** ** The body of a retrieved message *)

Lemma find_first_html before : forall part after,
  Forall (fun p => get_content_type_is_html p = false) before ->
  get_content_type_is_html part = true ->
  List.find get_content_type_is_html (before ++ part :: after) = Some part.
Proof.
  induction before as [|p before IH]; intros part after Hbefore Hpart; simpl.
  - now rewrite Hpart.
  - inversion Hbefore as [|? ? Hp Hrest]; subst. rewrite Hp. now apply IH.
Qed.

Lemma find_no_html parts :
  Forall (fun p => get_content_type_is_html p = false) parts ->
  List.find get_content_type_is_html parts = None.
Proof.
  induction parts as [|p parts IH]; intros Hparts; simpl; [reflexivity|].
  inversion Hparts as [|? ? Hp Hrest]; subst. rewrite Hp. now apply IH.
Qed.

Lemma filter_nothing {X} (f : X -> bool) (l : list X) :
  Forall (fun x => f x = false) l -> List.filter f l = [].
Proof.
  induction l as [|x l IH]; intros Hl; simpl; [reflexivity|].
  inversion Hl as [|? ? Hx Hrest]; subst. rewrite Hx. now apply IH.
Qed.

Lemma last_text_plain_last before part after :
  get_content_type_is_plain part = true ->
  Forall (fun p => get_content_type_is_plain p = false) after ->
  last_text_plain (before ++ part :: after) = Some part.
Proof.
  intros Hpart Hafter. unfold last_text_plain.
  rewrite List.filter_app. cbn [List.filter]. rewrite Hpart.
  rewrite (filter_nothing _ _ Hafter).
  destruct (List.filter get_content_type_is_plain before) as [|p l];
    [reflexivity|].
  cbn [app]. now rewrite List.last_last.
Qed.

(** X22.  How [_get_email_body] chooses in the walk of a multipart
    message.  The first part of type text/html decides alone, whatever
    comes before or after it: the body is its decoded text.  Without any
    text/html part, the body is the decoded text of the last text/plain
    part, provided that part has at least one header field, and empty
    otherwise.  A part whose payload cannot be decoded gives the empty
    body. *)
Theorem _get_email_body_choice :
  forall (msg part : Message) (before after : list Message),
    CommunicationCore.is_multipart msg = true ->
    CommunicationCore.walk msg = before ++ part :: after ->
    (Forall (fun p => CommunicationCore.get_content_type p <> "text/html")
            before ->
     CommunicationCore.get_content_type part = "text/html" ->
     CommunicationCore._get_email_body msg
     = match CommunicationCore.decode_payload part with
       | Some text => text
       | None => EmptyString
       end)
    /\
    (Forall (fun p => CommunicationCore.get_content_type p <> "text/html")
            (CommunicationCore.walk msg) ->
     CommunicationCore.get_content_type part = "text/plain" ->
     Forall (fun p => CommunicationCore.get_content_type p <> "text/plain")
            after ->
     CommunicationCore._get_email_body msg
     = match CommunicationCore.hdrs_of part,
             CommunicationCore.decode_payload part with
       | _ :: _, Some text => text
       | _, _ => EmptyString
       end).
Proof.
  intros msg part before after Hmulti Hwalk.
  destruct (_get_email_body_selection msg) as (Hhtml & Hplain & _).
  assert (Hnot : forall l ty,
    Forall (fun p => CommunicationCore.get_content_type p <> ty) l ->
    Forall (fun p => String.eqb (CommunicationCore.get_content_type p) ty
                     = false) l).
  { intros l ty Hl. eapply Forall_impl; [exact Hl|].
    intros p Hp. now apply String.eqb_neq. }
  split.
  - intros Hbefore Hpart.
    rewrite (Hhtml Hmulti part); [reflexivity|].
    rewrite Hwalk. apply find_first_html.
    + exact (Hnot _ _ Hbefore).
    + unfold get_content_type_is_html. now rewrite Hpart.
  - intros Hnone Hpart Hafter.
    rewrite (Hplain Hmulti (find_no_html _ (Hnot _ _ Hnone))).
    rewrite Hwalk, (last_text_plain_last before part after).
    + unfold CommunicationCore.msg_truthy, part_text.
      now destruct (CommunicationCore.hdrs_of part),
                   (CommunicationCore.decode_payload part).
    + unfold get_content_type_is_plain. now rewrite Hpart.
    + exact (Hnot _ _ Hafter).
Qed.

Lemma _get_email_body_choice_witness :
  let plain := Msg [("Content-Type", "text/plain")] (Leaf (Some "Bonjour")) in
  let html :=
    Msg [("Content-Type", "TEXT/HTML; charset=utf-8")]
        (Leaf (Some "<p>Bonjour</p>")) in
  let msg :=
    Msg [("Content-Type", "multipart/alternative")] (Parts [plain; html]) in
  CommunicationCore._get_email_body msg = "<p>Bonjour</p>".
Proof.
  intros plain html msg.
  refine (proj1 (_get_email_body_choice msg html [msg; plain] []
                   eq_refl eq_refl) _ eq_refl).
  repeat constructor; discriminate.
Defined.

(** ** The sending tools, end to end *)

(** X23.  [envoyer_email] with the e-mail settings complete, a recipient,
    a subject and a body.  When the message can be built and the server
    accepts every call, the tool submits once, after one session of
    connection and login, the message built from its arguments to the To,
    Cc and Bcc addresses, and answers "Email envoyé à N destinataire(s)...
    Sujet: <subject>", where N counts the To, Cc and Bcc addresses
    together and the attachment note, present when paths were given,
    counts the paths given.  When the message cannot be built, because
    [formataddr] or [MIMEText] raises a [ValueError] (which a
    [UnicodeEncodeError] is), the tool calls no server, sleeps twice for
    the two re-attempts of [send_email] and answers "Erreur de
    configuration Email: <message>". *)
Theorem envoyer_email_reports_counts :
  forall (E : Type) (Env : Environment E) (Lib : PyLib) (cfg : settings)
         (client : CommunicationCore.EmailClient) (to : list string)
         (subject body : string) (cc bcc attachments : option (list string))
         (s : E),
    let recipients := to ++ Py.or_nil cc ++ Py.or_nil bcc in
    let paths := Z.of_nat (length (Py.or_nil attachments)) in
    let opening :=
      if CommunicationCore.smtp_port client =? 465
      then [EvSmtp (SmtpSSL (CommunicationCore.smtp_host client)
                            (CommunicationCore.smtp_port client))]
      else EvSmtp (SmtpPlain (CommunicationCore.smtp_host client)
                             (CommunicationCore.smtp_port client))
           :: (if CommunicationCore.use_tls client then [EvSmtp SmtpStartTls]
               else []) in
    CommunicationCore.get_email_client cfg = Return client ->
    to <> [] -> subject <> EmptyString -> body <> EmptyString ->
    (forall (sender : string) (accepting : E -> Prop),
        CommunicationCore.get_formatted_sender client = Return sender ->
        MIMEText body (CommunicationCore.body_type body) = Return tt ->
        (forall c st, accepting st ->
                      exists st', smtp_api c st = (Return tt, st')
                                  /\ accepting st') ->
        accepting s ->
        let msg :=
          MimeMessage
            (headers_set sender to subject cc)
            (CommunicationCore.body_type body)
            body
            (omap (fun file_path =>
                     match file_at file_path s with
                     | Readable content =>
                         Some (CommunicationCore.basename file_path, content)
                     | _ => None
                     end) (Py.or_nil attachments)) in
        let session :=
          opening
          ++ [EvSmtp (SmtpLogin (CommunicationCore.username client)
                                (CommunicationCore.password client));
              EvSmtp (SmtpSendMessage msg (CommunicationCore.username client)
                        recipients)] in
        exists s',
          CommunicationTool.envoyer_email cfg to subject body cc bcc
                                          attachments s
          = (Return ("Email envoyé à "
                     +:+ pretty (Z.of_nat (length recipients))
                     +:+ " destinataire(s)"
                     +:+ (if paths >? 0
                          then " avec " +:+ pretty paths
                               +:+ " pièce(s) jointe(s)"
                          else EmptyString)
                     +:+ ". Sujet: " +:+ subject),
             s', session)
          /\ CommunicationCore.send_email client to subject body cc bcc
                                          attachments s
             = (Return (CommunicationCore.Sent to (Py.or_nil cc)
                          (Py.or_nil bcc) subject paths), s', session))
    /\
    (forall message : string,
        CommunicationCore.get_formatted_sender client
        = Raise (ValueError message)
        \/ (exists sender,
               CommunicationCore.get_formatted_sender client = Return sender
               /\ MIMEText body (CommunicationCore.body_type body)
                  = Raise (ValueError message)) ->
        CommunicationTool.envoyer_email cfg to subject body cc bcc
                                        attachments s
        = (Return ("Erreur de configuration Email: " +:+ message), s,
           [EvSleep 2; EvSleep 2])).
Proof.
  intros E Env Lib cfg client to subject body cc bcc attachments s
         recipients paths opening Hclient Hto Hsubject Hbody.
  assert (Htool : forall r s' t,
    CommunicationCore.send_email client to subject body cc bcc attachments s
    = (r, s', t) ->
    CommunicationTool.envoyer_email cfg to subject body cc bcc attachments s
    = try_except (CommunicationTool.envoyer_email_try cfg to subject body cc
                    bcc attachments)
        (fun e => Some (ret (CommunicationTool.envoyer_email_except e))) s).
  { intros r s' t _. unfold CommunicationTool.envoyer_email.
    destruct to as [|a to]; [congruence|].
    destruct subject; [congruence|]. destruct body; [congruence|].
    reflexivity. }
  split.
  - intros sender accepting Hsender Htext Haccept Hs msg session.
    destruct (send_email_func_accepted accepting client to subject body cc
                bcc attachments sender s Hto Hsender Htext Haccept Hs)
      as (s' & Hfunc & _).
    assert (Hsend :
      CommunicationCore.send_email client to subject body cc bcc attachments s
      = (Return (CommunicationCore.Sent to (Py.or_nil cc) (Py.or_nil bcc)
                   subject paths), s', session))
      by (now apply communication_with_retry_return).
    exists s'. split; [|exact Hsend].
    rewrite (Htool _ _ _ Hsend).
    unfold CommunicationTool.envoyer_email_try, try_except, bind, lift_result.
    rewrite Hclient, Hsend. cbn [app]. fold paths.
    unfold ret. rewrite app_nil_r. reflexivity.
  - intros message Hbuild.
    assert (Hsend :
      CommunicationCore.send_email client to subject body cc bcc attachments s
      = (Raise (ValueError message), s, [EvSleep 2; EvSleep 2]))
      by (now apply (send_email_unbuilt client to subject body cc bcc
                       attachments (ValueError message) s Hto Hbuild)).
    rewrite (Htool _ _ _ Hsend).
    unfold CommunicationTool.envoyer_email_try, try_except, bind, lift_result.
    rewrite Hclient, Hsend. reflexivity.
Qed.

Lemma envoyer_email_reports_counts_witness :
  (exists s',
      CommunicationTool.envoyer_email Fixture.config ["a@example.org"]
        "Rapport" "Bonjour" (Some ["c@example.org"]) (Some ["d@example.org"])
        (Some ["/tmp/rapport.pdf"]) Fixture.agreeable
      = (Return
           "Email envoyé à 3 destinataire(s) avec 1 pièce(s) jointe(s). Sujet: Rapport",
         s',
         [EvSmtp (SmtpPlain "smtp.example.org" 587); EvSmtp SmtpStartTls;
          EvSmtp (SmtpLogin "me@example.org" "secret");
          EvSmtp (SmtpSendMessage
                    (MimeMessage
                       [("Content-Type", "multipart/mixed");
                        ("MIME-Version", "1.0"); ("From", "me@example.org");
                        ("To", "a@example.org"); ("Subject", "Rapport");
                        ("Cc", "c@example.org")]
                       "plain" "Bonjour" [])
                    "me@example.org"
                    ["a@example.org"; "c@example.org"; "d@example.org"])]))
  /\ CommunicationTool.envoyer_email Scenario.accented_config
       ["a@example.org"] "Rapport" "Bonjour" None None None Fixture.agreeable
     = (Return
          "Erreur de configuration Email: 'ascii' codec can't encode character",
        Fixture.agreeable, [EvSleep 2; EvSleep 2]).
Proof.
  split.
  - edestruct (proj1 (envoyer_email_reports_counts Fixture.tables
                        Fixture.tables_environment Fixture.plain_pylib
                        Fixture.config Fixture.client ["a@example.org"]
                        "Rapport" "Bonjour" (Some ["c@example.org"])
                        (Some ["d@example.org"]) (Some ["/tmp/rapport.pdf"])
                        Fixture.agreeable eq_refl ltac:(discriminate)
                        ltac:(discriminate) ltac:(discriminate))
                 "me@example.org" (fun st => st = Fixture.agreeable))
      as (s' & Htool & _).
    + reflexivity.
    + reflexivity.
    + intros c st ->. exists Fixture.agreeable. split; reflexivity.
    + reflexivity.
    + exists s'. exact Htool.
  - apply (proj2 (envoyer_email_reports_counts Fixture.tables
                    Fixture.tables_environment Fixture.plain_pylib
                    Scenario.accented_config Scenario.accented_client
                    ["a@example.org"] "Rapport" "Bonjour" None None None
                    Fixture.agreeable eq_refl ltac:(discriminate)
                    ltac:(discriminate) ltac:(discriminate))).
    left. reflexivity.
Defined.



(** ** Calendar: creating an event *)

Section create_facts.
Context {E : Type} `{Environment E}.
Variable cfg : settings.

(** One invocation of the body of [core_create_event]: the request it
    sends, which is the same in every state of the world. *)
Lemma core_create_event_func_inserts
      summary start_time end_time description location attendees calendar_id :
  let cal := Py.or_str calendar_id (calendar_calendar_id cfg) in
  exists body : gmap string pyval,
    (forall s svc s1,
        calendar_api (GetService false) s = (Return svc, s1) ->
        CalendarCore.core_create_event_func cfg summary start_time end_time
          description location attendees calendar_id s
        = (fst (calendar_api (EventsInsert cal body) s1),
           snd (calendar_api (EventsInsert cal body) s1),
           [EvCalendar (GetService false);
            EvCalendar (EventsInsert cal body)]))
    /\ body !! "summary" = Some (PStr summary)
    /\ body !! "location"
       = Some (match location with Some l => PStr l | None => PNone end)
    /\ body !! "description"
       = Some (match description with Some d => PStr d | None => PNone end)
    /\ body !! "start" = Some (CalendarCore.timed cfg (PStr start_time))
    /\ body !! "end" = Some (CalendarCore.timed cfg (PStr end_time))
    /\ body !! "attendees"
       = Some (PList (map (fun email => PDict [("email", PStr email)])
                          (Py.or_nil attendees)))
    /\ (forall k,
          k ∉ ["summary"; "description"; "location"; "start"; "end";
               "attendees"] ->
          body !! k = None).
Proof.
  intros cal.
  exists (<["attendees" :=
             PList (map (fun email => PDict [("email", PStr email)])
                        (Py.or_nil attendees))]>
          (<["end" := CalendarCore.timed cfg (PStr end_time)]>
          (<["start" := CalendarCore.timed cfg (PStr start_time)]>
          (<["description" :=
               match description with Some d => PStr d | None => PNone end]>
          (<["location" :=
               match location with Some l => PStr l | None => PNone end]>
          (<["summary" := PStr summary]> ∅)))))).
  split.
  { intros s svc s1 Hsvc.
    unfold CalendarCore.core_create_event_func,
      CalendarCore.get_calendar_service, bind, try_except, calendar, perform.
    fold cal. rewrite Hsvc. cbv zeta.
    match goal with
    | |- context [calendar_api (EventsInsert cal ?b) s1] =>
        destruct (calendar_api (EventsInsert cal b) s1) as [[v|e] s2]
    end; reflexivity. }
  repeat split;
    try (rewrite ?lookup_insert_eq;
         repeat (rewrite lookup_insert_ne by discriminate;
                 rewrite ?lookup_insert_eq);
         reflexivity).
  intros k Hk.
  rewrite ?lookup_insert_ne
    by (intros <-; apply Hk; by_evaluation).
  apply lookup_empty.
Qed.
End create_facts.

(** X25.  [core_create_event] asks for the full-access service and sends
    one insert whose body has exactly the six fields summary, location,
    description, start, end and attendees: a location or description that
    is not given is sent as null, both times carry the configured time
    zone, and the attendees are one address record for each address (none
    for [None] as for the empty list).  What the provider answers is
    returned as it is, and [creer_evenement_calendrier] reports its
    summary and identifier. *)
Theorem core_create_event_sends_six_fields :
  forall (E : Type) (Env : Environment E) (Lib : PyLib) (cfg : settings)
         (summary start_time end_time : string)
         (description location : option string)
         (attendees : option (list string)) (calendar_id : option string)
         (s s1 s2 : E) (svc created : pyval),
    let cal := Py.or_str calendar_id (calendar_calendar_id cfg) in
    calendar_api (GetService false) s = (Return svc, s1) ->
    (forall body, calendar_api (EventsInsert cal body) s1
                  = (Return created, s2)) ->
    exists body : gmap string pyval,
      CalendarCore.core_create_event cfg summary start_time end_time
        description location attendees calendar_id s
      = (Return created, s2,
         [EvCalendar (GetService false); EvCalendar (EventsInsert cal body)])
      /\ body !! "summary" = Some (PStr summary)
      /\ body !! "location"
         = Some (match location with Some l => PStr l | None => PNone end)
      /\ body !! "description"
         = Some (match description with Some d => PStr d | None => PNone end)
      /\ body !! "start" = Some (CalendarCore.timed cfg (PStr start_time))
      /\ body !! "end" = Some (CalendarCore.timed cfg (PStr end_time))
      /\ body !! "attendees"
         = Some (PList (map (fun email => PDict [("email", PStr email)])
                            (Py.or_nil attendees)))
      /\ (forall k,
            k ∉ ["summary"; "description"; "location"; "start"; "end";
                 "attendees"] ->
            body !! k = None)
      /\ (forall title id,
             Py.get created "summary" PNone = Return title ->
             Py.get created "id" PNone = Return id ->
             CalendarTool.creer_evenement_calendrier cfg summary start_time
               end_time description location attendees calendar_id s
             = (Return ("Événement '" +:+ py_str title
                        +:+ "' créé avec succès. ID: " +:+ py_str id),
                s2,
                [EvCalendar (GetService false);
                 EvCalendar (EventsInsert cal body)])).
Proof.
  intros E Env Lib cfg summary start_time end_time description location
         attendees calendar_id s s1 s2 svc created cal Hsvc Hinsert.
  destruct (core_create_event_func_inserts cfg summary start_time end_time
              description location attendees calendar_id)
    as (body & Hfunc & Hfields).
  specialize (Hfunc s svc s1 Hsvc).
  fold cal in Hfunc. rewrite Hinsert in Hfunc. cbn [fst snd] in Hfunc.
  assert (Hcore :
    CalendarCore.core_create_event cfg summary start_time end_time
      description location attendees calendar_id s
    = (Return created, s2,
       [EvCalendar (GetService false); EvCalendar (EventsInsert cal body)]))
    by (now apply calendar_with_retry_return).
  exists body. split; [exact Hcore|].
  destruct Hfields as (? & ? & ? & ? & ? & ? & ?).
  repeat (split; [assumption|]).
  intros title id Htitle Hid.
  unfold CalendarTool.creer_evenement_calendrier,
    CalendarTool.creer_evenement_calendrier_try, try_except, bind,
    lift_result.
  rewrite Hcore, Htitle, Hid. unfold ret. rewrite !app_nil_r. reflexivity.
Qed.

Lemma core_create_event_sends_six_fields_witness :
  exists body : gmap string pyval,
    CalendarCore.core_create_event Fixture.config "Revue" "2026-01-05T10:00:00"
      "2026-01-05T11:00:00" None None (Some ["a@example.org"]) None
      Fixture.agreeable
    = (Return (PDict [("id", PStr "e1"); ("summary", PStr "Revue")]),
       Fixture.agreeable,
       [EvCalendar (GetService false);
        EvCalendar (EventsInsert "primary" body)])
    /\ body !! "location" = Some PNone
    /\ body !! "attendees"
       = Some (PList [PDict [("email", PStr "a@example.org")]]).
Proof.
  edestruct (core_create_event_sends_six_fields Fixture.tables _ _
               Fixture.config "Revue" "2026-01-05T10:00:00"
               "2026-01-05T11:00:00" None None (Some ["a@example.org"]) None
               Fixture.agreeable Fixture.agreeable Fixture.agreeable
               (PDict [("id", PStr "e1"); ("summary", PStr "Revue")])
               (PDict [("id", PStr "e1"); ("summary", PStr "Revue")]))
    as (body & Hrun & _ & Hlocation & _ & _ & _ & Hattendees & _).
  - reflexivity.
  - reflexivity.
  - exists body. repeat split; assumption.
Defined.

(** X26.  A provider that answers the insert with a server error, for as
    long as its outage lasts, makes [core_create_event] send the same
    event four times, each time after asking for the service again, with
    sleeps of 1, 2 and 4 seconds in between, before the error is raised;
    a refusal with status 400, 401, 403 or 404 is raised after the first
    insert. *)
Theorem core_create_event_retries_insert :
  forall (E : Type) (Env : Environment E) (cfg : settings)
         (summary start_time end_time : string)
         (description location : option string)
         (attendees : option (list string)) (calendar_id : option string)
         (status : Z) (msg : string) (outage : E -> Prop),
    let cal := Py.or_str calendar_id (calendar_calendar_id cfg) in
    (forall s, outage s ->
               exists svc s1,
                 calendar_api (GetService false) s = (Return svc, s1)
                 /\ outage s1) ->
    (forall s body, outage s ->
                    exists s1,
                      calendar_api (EventsInsert cal body) s
                      = (Raise (HttpError status msg), s1)
                      /\ outage s1) ->
    forall s : E,
      outage s ->
      exists body : gmap string pyval,
        let attempt :=
          [EvCalendar (GetService false);
           EvCalendar (EventsInsert cal body)] in
        (status ∈ [400; 401; 403; 404] ->
         exists s',
           CalendarCore.core_create_event cfg summary start_time end_time
             description location attendees calendar_id s
           = (Raise (HttpError status msg), s', attempt))
        /\
        (status ∉ [400; 401; 403; 404] ->
         exists s',
           CalendarCore.core_create_event cfg summary start_time end_time
             description location attendees calendar_id s
           = (Raise (HttpError status msg), s',
              attempt ++ [EvSleep 1] ++ attempt ++ [EvSleep 2] ++ attempt
              ++ [EvSleep 4] ++ attempt)).
Proof.
  intros E Env cfg summary start_time end_time description location attendees
         calendar_id status msg outage cal Hsvc Hinsert s Hs.
  assert (Hdelay : (0 <= 1)%Q) by (unfold Qle; simpl; lia).
  destruct (core_create_event_func_inserts cfg summary start_time end_time
              description location attendees calendar_id)
    as (body & Hrun & _).
  fold cal in Hrun. exists body.
  assert (Hfunc : forall s, outage s -> exists s2,
    CalendarCore.core_create_event_func cfg summary start_time end_time
      description location attendees calendar_id s
    = (Raise (HttpError status msg), s2,
       [EvCalendar (GetService false); EvCalendar (EventsInsert cal body)])
    /\ outage s2).
  { intros s0 Hs0.
    destruct (Hsvc s0 Hs0) as (svc & s1 & Hcall1 & Hs1).
    destruct (Hinsert s1 body Hs1) as (s2 & Hcall2 & Hs2).
    exists s2. rewrite (Hrun s0 svc s1 Hcall1), Hcall2. now split. }
  destruct (Hfunc s Hs) as (s1 & H1 & Hs1).
  unfold CalendarCore.core_create_event, CalendarCore.with_retry,
    CalendarCore.wrapper_run.
  split; intros Hcode.
  - exists s1. rewrite calendar_loop_unfold.
    unfold CalendarCore.wrapper_round. simpl env. rewrite H1.
    rewrite bool_decide_eq_true_2 by exact Hcode.
    reflexivity.
  - assert (Hretry : RetryPolicy.calendar_retryable (HttpError status msg))
      by exact Hcode.
    destruct (Hfunc s1 Hs1) as (s2 & H2 & Hs2).
    destruct (Hfunc s2 Hs2) as (s3 & H3 & Hs3).
    destruct (Hfunc s3 Hs3) as (s4 & H4 & _).
    exists s4.
    rewrite calendar_loop_unfold.
    erewrite calendar_round_retry;
      [|exact Hdelay|simpl; exact H1|exact Hretry|simpl; lia].
    rewrite calendar_loop_unfold.
    erewrite calendar_round_retry;
      [|exact Hdelay|simpl; exact H2|exact Hretry|simpl; lia].
    rewrite calendar_loop_unfold.
    erewrite calendar_round_retry;
      [|exact Hdelay|simpl; exact H3|exact Hretry|simpl; lia].
    rewrite calendar_loop_unfold.
    erewrite calendar_round_exhausted;
      [|simpl; exact H4|exact Hretry|simpl; lia].
    reflexivity.
Qed.

Lemma core_create_event_retries_insert_witness :
  exists (body : gmap string pyval) s',
    CalendarCore.core_create_event Fixture.config "Revue"
      "2026-01-05T10:00:00" "2026-01-05T11:00:00" None None None None
      Scenario.provider_unavailable
    = (Raise (HttpError 503 "Service Unavailable"), s',
       [EvCalendar (GetService false);
        EvCalendar (EventsInsert "primary" body); EvSleep 1;
        EvCalendar (GetService false);
        EvCalendar (EventsInsert "primary" body); EvSleep 2;
        EvCalendar (GetService false);
        EvCalendar (EventsInsert "primary" body); EvSleep 4;
        EvCalendar (GetService false);
        EvCalendar (EventsInsert "primary" body)]).
Proof.
  edestruct (core_create_event_retries_insert Fixture.tables _
               Fixture.config "Revue" "2026-01-05T10:00:00"
               "2026-01-05T11:00:00" None None None None 503
               "Service Unavailable"
               (fun st => st = Scenario.provider_unavailable))
    with (s := Scenario.provider_unavailable) as (body & _ & Hretried).
  - intros st ->. exists (PDict []), Scenario.provider_unavailable.
    split; reflexivity.
  - intros st body ->. exists Scenario.provider_unavailable.
    split; reflexivity.
  - reflexivity.
  - destruct Hretried as (s' & Hrun); [by_evaluation|].
    exists body, s'. exact Hrun.
Defined.

(** X27.  [repondre_chat_whatsapp], with an account and a relay
    configured, posts the message once to [/chats/<chat_id>/messages].
    For a JSON answer with a message identifier it returns "Réponse
    envoyée au chat WhatsApp <chat_id>. ID du Message: <identifier>"; for
    an answer with status 400, 401, 403 or 422 it returns, without a
    second POST, "Erreur lors de la réponse au chat WhatsApp: <status>
    Client Error: <reason> for url: <url>", with the reason phrase and the
    address of the answer. *)
Theorem repondre_chat_whatsapp_posts_once :
  forall (E : Type) (Env : Environment E) (Lib : PyLib) (cfg : settings)
         (client : CommunicationCore.UniPileWhatsAppClient)
         (chat_id message : string) (s s1 : E) (response : http_response),
    let target :=
      CommunicationCore.base_url client +:+ "/chats/" +:+ chat_id
      +:+ "/messages" in
    let post := HttpPost target (PDict [("text", PStr message)]) in
    whatsapp_account_id cfg <> EmptyString ->
    chat_id <> EmptyString -> message <> EmptyString ->
    CommunicationCore.get_whatsapp_client cfg = Return client ->
    requests_api post s = (Return response, s1) ->
    (forall answer id,
        ~ 400 <= status_code response < 600 ->
        json response = Some (PDict answer) ->
        Py.assoc "id" answer = Some id -> Py.truthy id = true ->
        CommunicationTool.repondre_chat_whatsapp cfg chat_id message s
        = (Return ("Réponse envoyée au chat WhatsApp " +:+ chat_id
                   +:+ ". ID du Message: " +:+ py_str id),
           s1, [EvHttp post]))
    /\
    (status_code response ∈ [400; 401; 403; 422] ->
     CommunicationTool.repondre_chat_whatsapp cfg chat_id message s
     = (Return ("Erreur lors de la réponse au chat WhatsApp: "
                +:+ pretty (status_code response) +:+ " Client Error: "
                +:+ reason response +:+ " for url: " +:+ url response),
        s1, [EvHttp post])).
Proof.
  intros E Env Lib cfg client chat_id message s s1 response target post
         Haccount Hchat Hmessage Hclient Hpost.
  assert (Hnonempty : forall x, x <> EmptyString -> Str.nonempty x = true)
    by (intros [|? ?]; [congruence|reflexivity]).
  unfold CommunicationTool.repondre_chat_whatsapp.
  rewrite (Hnonempty _ Haccount), (Hnonempty _ Hchat), (Hnonempty _ Hmessage).
  cbn [negb orb].
  unfold CommunicationTool.repondre_chat_whatsapp_try, try_except, bind,
    lift_result, CommunicationCore.send_message_to_existing_chat.
  rewrite Hclient.
  split.
  - intros answer id Hstatus Hjson Hid Htruthy.
    assert (Hfunc :
      CommunicationCore.send_message_to_existing_chat_func client chat_id
                                                           message s
      = (Return (PDict answer), s1, [EvHttp post])).
    { unfold CommunicationCore.send_message_to_existing_chat_func, bind,
        requests, perform, lift_result.
      fold target. fold post. rewrite Hpost.
      unfold CommunicationCore.raise_for_status, CommunicationCore.json_of.
      replace ((400 <=? status_code response)
               && (status_code response <? 500)) with false by lia.
      replace ((500 <=? status_code response)
               && (status_code response <? 600)) with false by lia.
      now rewrite Hjson. }
    rewrite (communication_with_retry_return 3 1 _ _ _ _ _ Hfunc).
    cbn [Py.get]. rewrite Hid, Htruthy. reflexivity.
  - intros Hstatus.
    assert (Hrange : 400 <= status_code response < 500).
    { revert Hstatus. rewrite !elem_of_cons, elem_of_nil. lia. }
    assert (Hfunc :
      CommunicationCore.send_message_to_existing_chat_func client chat_id
                                                           message s
      = (Raise (HTTPError (Some (status_code response))
                  (pretty (status_code response) +:+ " Client Error: "
                   +:+ reason response +:+ " for url: " +:+ url response)),
         s1, [EvHttp post])).
    { unfold CommunicationCore.send_message_to_existing_chat_func, bind,
        requests, perform, lift_result.
      fold target. fold post. rewrite Hpost.
      unfold CommunicationCore.raise_for_status.
      replace ((400 <=? status_code response)
               && (status_code response <? 500)) with true by lia.
      reflexivity. }
    unfold CommunicationCore.with_retry, CommunicationCore.wrapper_run.
    rewrite communication_loop_unfold.
    unfold CommunicationCore.wrapper_round. simpl env. rewrite Hfunc.
    rewrite bool_decide_eq_true_2 by exact Hstatus.
    reflexivity.
Qed.

Lemma repondre_chat_whatsapp_posts_once_witness :
  CommunicationTool.repondre_chat_whatsapp Fixture.config "c1" "Bonjour"
                                           Scenario.relay_unprocessable
  = (Return
       ("Erreur lors de la réponse au chat WhatsApp: "
        +:+ "422 Client Error: Unprocessable Entity for url: "
        +:+ "https://api.example/api/v1/chats/c1/messages"),
     Scenario.relay_unprocessable,
     [EvHttp (HttpPost "https://api.example/api/v1/chats/c1/messages"
                       (PDict [("text", PStr "Bonjour")]))]).
Proof.
  refine (proj2 (repondre_chat_whatsapp_posts_once Fixture.tables _ _
                   Fixture.config
                   {| CommunicationCore.base_url := "https://api.example/api/v1";
                      CommunicationCore.api_key := "key" |}
                   "c1" "Bonjour" Scenario.relay_unprocessable
                   Scenario.relay_unprocessable
                   (HttpResponse 422 "Unprocessable Entity"
                      "https://api.example/api/v1/chats/c1/messages" None)
                   _ _ _ _ _) _);
    try discriminate; try reflexivity.
  by_evaluation.
Defined.
